(** * TrackMate: tracking-number extraction, carrier query cascade and
      status classification

    A shallow embedding of the Python sources
    [services/carrier_info.py], [services/sweet_tracker.py],
    [utils/status_translator.py], [utils/tracking_parser.py],
    [tools/track.py] and [tools/diagnose.py], followed by the properties
    established about them. *)

From Stdlib Require Import List NArith ZArith Bool Lia String Ascii Floats.
From Stdlib Require Import DecimalString.
Import ListNotations.

Set Warnings "-inexact-float,-register-all".

Set Implicit Arguments.

(** ** Python strings

    A Python [str] is a sequence of Unicode code points; [len], slicing,
    [startswith] and [in] all count code points.  String literals of the
    sources are written as UTF-8 text and decoded by [u]. *)

Definition codepoint := N.
Definition pystr := list codepoint.

Module Utf8.

Local Open Scope N_scope.

(** Decoder state: number of continuation bytes still expected and the
    bits collected so far. *)
Fixpoint decode_aux (need : nat) (acc : N) (bs : list N) : pystr :=
  match bs with
  | [] => []
  | b :: rest =>
      match need with
      | O =>
          if b <? 0x80 then b :: decode_aux 0 0 rest
          else if b <? 0xE0 then decode_aux 1 (N.land b 0x1F) rest
          else if b <? 0xF0 then decode_aux 2 (N.land b 0x0F) rest
          else decode_aux 3 (N.land b 0x07) rest
      | S need' =>
          let acc' := acc * 64 + N.land b 0x3F in
          match need' with
          | O => acc' :: decode_aux 0 0 rest
          | S _ => decode_aux need' acc' rest
          end
      end
  end.

Definition bytes_of_string (s : string) : list N :=
  map N_of_ascii (list_ascii_of_string s).

Definition decode (s : string) : pystr := decode_aux 0 0 (bytes_of_string s).

End Utf8.

Definition u (s : string) : pystr := Utf8.decode s.
Arguments u s%_string_scope.

Module Str.

Definition eqb (a b : pystr) : bool :=
  if list_eq_dec N.eq_dec a b then true else false.

(** [s.startswith(p)] *)
Fixpoint startswith (p s : pystr) : bool :=
  match p, s with
  | [], _ => true
  | _ :: _, [] => false
  | a :: p', b :: s' => N.eqb a b && startswith p' s'
  end.

(** [p in s] for two strings: substring test. *)
Fixpoint contains (p s : pystr) : bool :=
  startswith p s ||
  match s with
  | [] => false
  | _ :: s' => contains p s'
  end.

(** [s.replace(" ", "")] *)
Definition remove_spaces (s : pystr) : pystr :=
  filter (fun c => negb (N.eqb c 32)) s.

(** [len(s)] *)
Definition len (s : pystr) : nat := List.length s.

(** [s in l] for a list of strings. *)
Definition mem (s : pystr) (l : list pystr) : bool := existsb (eqb s) l.

End Str.

(** ** The Python runtime

    What the program takes from the interpreter and its libraries and
    does not define itself.  The character tables of Unicode are one
    such part: [str.isdigit], [str.isspace], [str.lower] and the
    character classes of [re] are read from them. *)

Class Unicode : Type := {
  (** [c.isspace()], which is also the class [\s] of [re] *)
  cp_isspace : codepoint -> bool;
  (** the class [\w] of [re] *)
  cp_isword : codepoint -> bool;
  (** the class [\d] of [re] *)
  cp_isdecimal : codepoint -> bool;
  (** [c.isdigit()] for a single character *)
  cp_isdigit : codepoint -> bool;
  (** a literal character of a pattern compiled with [re.IGNORECASE]
      against a character of the text *)
  cp_ieq : codepoint -> codepoint -> bool;
  (** [s.lower()] *)
  str_lower : pystr -> pystr
}.

(** The code points on which the tables are pinned down below: the
    Basic Latin block and the Hangul Syllables block, which together
    hold every character the program's own literals are written in. *)
Definition is_ascii (c : codepoint) : bool := (c <? 128)%N.
Definition is_hangul (c : codepoint) : bool :=
  ((0xAC00 <=? c) && (c <=? 0xD7A3))%N.
Definition plain (c : codepoint) : bool := is_ascii c || is_hangul c.

Definition is_ascii_digit (c : codepoint) : bool :=
  ((48 <=? c) && (c <=? 57))%N.
Definition is_ascii_upper (c : codepoint) : bool :=
  ((65 <=? c) && (c <=? 90))%N.
Definition is_ascii_lower (c : codepoint) : bool :=
  ((97 <=? c) && (c <=? 122))%N.
Definition ascii_lower (c : codepoint) : codepoint :=
  if is_ascii_upper c then (c + 32)%N else c.

Module Plain.

(** The tables as Unicode has them on the two blocks. *)
Definition isspace (c : codepoint) : bool :=
  (((9 <=? c) && (c <=? 13)) || ((28 <=? c) && (c <=? 32)))%N.
Definition isword (c : codepoint) : bool :=
  is_ascii_digit c || is_ascii_upper c || is_ascii_lower c
  || N.eqb c 95 || is_hangul c.
Definition isdecimal (c : codepoint) : bool := is_ascii_digit c.
Definition isdigit (c : codepoint) : bool := is_ascii_digit c.
Definition ieq (a b : codepoint) : bool :=
  N.eqb (ascii_lower a) (ascii_lower b).
Definition lower (s : pystr) : pystr := map ascii_lower s.

Definition tables : Unicode :=
  {| cp_isspace := isspace; cp_isword := isword;
     cp_isdecimal := isdecimal; cp_isdigit := isdigit;
     cp_ieq := ieq; str_lower := lower |}.

End Plain.

(** What is assumed of the interpreter's tables: on the two blocks they
    are the ones of [Plain]. *)
Class UnicodeLaws (U : Unicode) : Prop := {
  isspace_plain : forall c, plain c = true -> cp_isspace c = Plain.isspace c;
  isword_plain : forall c, plain c = true -> cp_isword c = Plain.isword c;
  isdecimal_plain :
    forall c, plain c = true -> cp_isdecimal c = Plain.isdecimal c;
  isdigit_plain : forall c, plain c = true -> cp_isdigit c = Plain.isdigit c;
  ieq_plain :
    forall a b, plain a = true -> plain b = true ->
                cp_ieq a b = Plain.ieq a b;
  lower_plain :
    forall s, forallb plain s = true -> str_lower s = Plain.lower s
}.

(** [s.isdigit()]: every character is a digit and there is at least one. *)
Definition str_isdigit {U : Unicode} (s : pystr) : bool :=
  match s with
  | [] => false
  | _ => forallb cp_isdigit s
  end.

(** ** [services/carrier_info.py] *)

Module Carrier.
Record t : Type := make {
  code : pystr;
  name : pystr;
  name_en : pystr;
  contact : pystr;
  website : pystr;
  tracking_url : pystr
}.
End Carrier.

(** A [dict] with string keys, in insertion order. *)
Fixpoint dict_get {V : Type} (k : pystr) (d : list (pystr * V)) : option V :=
  match d with
  | [] => None
  | (k', v) :: d' => if Str.eqb k k' then Some v else dict_get k d'
  end.

Definition dict_has {V : Type} (k : pystr) (d : list (pystr * V)) : bool :=
  match dict_get k d with Some _ => true | None => false end.

Definition CARRIERS : list (pystr * Carrier.t) :=
  [
    (u "04", Carrier.make (u "04") (u "CJ대한통운") (u "CJ Logistics")
       (u "1588-1255") (u "https://www.cjlogistics.com")
       (u "https://www.cjlogistics.com/ko/tool/parcel/tracking"));
    (u "08", Carrier.make (u "08") (u "롯데택배") (u "Lotte Global Logistics")
       (u "1588-2121") (u "https://www.lotteglogis.com")
       (u "https://www.lotteglogis.com/home/reservation/tracking/index"));
    (u "05", Carrier.make (u "05") (u "한진택배") (u "Hanjin Express")
       (u "1588-0011") (u "https://www.hanjin.com")
       (u "https://www.hanjin.com/kor/CMS/DeliveryMgr/WaybillResult.do"));
    (u "01", Carrier.make (u "01") (u "우체국택배") (u "Korea Post")
       (u "1588-1300") (u "https://www.epost.go.kr")
       (u "https://service.epost.go.kr/trace.RetrieveDomRi498Trv.postal"));
    (u "06", Carrier.make (u "06") (u "로젠택배") (u "Logen")
       (u "1588-9988") (u "https://www.ilogen.com")
       (u "https://www.ilogen.com/web/delivery/tracking"));
    (u "11", Carrier.make (u "11") (u "일양로지스") (u "Ilyang Logis")
       (u "1588-0002") (u "https://www.ilyanglogis.com")
       (u "https://www.ilyanglogis.com/functionality/tracking.asp"));
    (u "23", Carrier.make (u "23") (u "경동택배") (u "Kyungdong Express")
       (u "1899-5368") (u "https://kdexp.com")
       (u "https://kdexp.com/service/delivery"));
    (u "46", Carrier.make (u "46") (u "CU편의점택배") (u "CU CVS Delivery")
       (u "1566-1025") (u "https://www.cupost.co.kr")
       (u "https://www.cupost.co.kr/tracking.cupost"));
    (u "24", Carrier.make (u "24") (u "대신택배") (u "Daesin")
       (u "043-222-4582") (u "https://www.ds3211.com")
       (u "https://www.ds3211.com/freight/internalFreightSearch.ht"));
    (u "22", Carrier.make (u "22") (u "대한통운") (u "Korea Express")
       (u "1588-1255") (u "https://www.cjlogistics.com")
       (u "https://www.cjlogistics.com/ko/tool/parcel/tracking"))
  ].

Definition CARRIER_ALIASES : list (pystr * pystr) :=
  [
    (u "cj대한통운", u "04");
    (u "cj택배", u "04");
    (u "대한통운", u "04");
    (u "씨제이대한통운", u "04");
    (u "롯데택배", u "08");
    (u "롯데글로벌로지스", u "08");
    (u "롯데", u "08");
    (u "한진택배", u "05");
    (u "한진", u "05");
    (u "우체국", u "01");
    (u "우체국택배", u "01");
    (u "우편", u "01");
    (u "로젠택배", u "06");
    (u "로젠", u "06");
    (u "일양로지스", u "11");
    (u "일양", u "11");
    (u "경동택배", u "23");
    (u "경동", u "23");
    (u "cu택배", u "46");
    (u "cu편의점", u "46");
    (u "씨유택배", u "46");
    (u "대신택배", u "24");
    (u "대신", u "24")
  ].

Definition get_carrier_by_code (code : pystr) : option Carrier.t :=
  dict_get code CARRIERS.

Definition get_carrier_by_name {U : Unicode} (name : pystr) : option Carrier.t :=
  let name_lower := Str.remove_spaces (str_lower name) in
  match dict_get name_lower CARRIER_ALIASES with
  | Some code =>
      match code with
      | [] => None
      | _ => dict_get code CARRIERS
      end
  | None => None
  end.

Definition detect_carrier_from_tracking {U : Unicode}
    (tracking_number : pystr) : option pystr :=
  if Str.startswith (u "6") tracking_number
     && (Nat.eqb (Str.len tracking_number) 12
         || Nat.eqb (Str.len tracking_number) 13)
  then Some (u "04")
  else if Nat.eqb (Str.len tracking_number) 13 && str_isdigit tracking_number
  then Some (u "01")
  else if Nat.eqb (Str.len tracking_number) 11 && str_isdigit tracking_number
  then Some (u "06")
  else None.

(** ** [utils/status_translator.py] *)

Inductive DeliveryPhase : Type :=
| PICKUP
| IN_TRANSIT
| OUT_FOR_DELIVERY
| DELIVERED
| ISSUE.

Module TranslatedStatus.
Record t : Type := make {
  original : pystr;
  translated : pystr;
  short : pystr;
  phase : DeliveryPhase;
  emoji : pystr;
  is_final : bool;
  estimated_hours : option Z
}.
End TranslatedStatus.

(** Value of the table: (translated, short, phase, emoji, is_final,
    est_hours). *)
Definition status_entry : Type :=
  (pystr * pystr * DeliveryPhase * pystr * bool * option Z)%type.

(** The table in definition order, which is the order in which
    [dict.items()] iterates. *)
Definition STATUS_TRANSLATIONS : list (pystr * status_entry) :=
  [
    (u "접수",
     (u "판매자가 택배를 접수했어요", u "접수됨",
      PICKUP, u "📝", false, Some 72%Z));
    (u "집화처리",
     (u "택배사가 물건을 수거했어요", u "수거 완료",
      PICKUP, u "📦", false, Some 48%Z));
    (u "집하",
     (u "택배사가 물건을 수거했어요", u "수거 완료",
      PICKUP, u "📦", false, Some 48%Z));
    (u "상품인수",
     (u "택배사가 물건을 받았어요", u "인수 완료",
      PICKUP, u "📦", false, Some 48%Z));
    (u "간선상차",
     (u "큰 트럭에 실려서 다음 허브로 이동 중이에요", u "허브 이동 중",
      IN_TRANSIT, u "🚛", false, Some 24%Z));
    (u "간선하차",
     (u "허브에 도착해서 분류 중이에요", u "허브 도착",
      IN_TRANSIT, u "🏭", false, Some 18%Z));
    (u "간선",
     (u "허브 간 이동 중이에요", u "이동 중",
      IN_TRANSIT, u "🚛", false, Some 24%Z));
    (u "행낭포장",
     (u "여러 소포를 묶어서 포장 중이에요", u "포장 중",
      IN_TRANSIT, u "📮", false, Some 24%Z));
    (u "발송",
     (u "발송 처리되었어요", u "발송됨",
      IN_TRANSIT, u "📤", false, Some 48%Z));
    (u "출고",
     (u "출고 처리되었어요", u "출고됨",
      IN_TRANSIT, u "📤", false, Some 48%Z));
    (u "입고",
     (u "허브에 도착했어요", u "허브 입고",
      IN_TRANSIT, u "🏢", false, Some 18%Z));
    (u "상차",
     (u "트럭에 상차되었어요", u "상차됨",
      IN_TRANSIT, u "🚚", false, Some 12%Z));
    (u "하차",
     (u "도착지에서 하차되었어요", u "하차됨",
      IN_TRANSIT, u "📥", false, Some 8%Z));
    (u "터미널",
     (u "터미널에서 분류 중이에요", u "터미널 분류",
      IN_TRANSIT, u "🏭", false, Some 18%Z));
    (u "이동중",
     (u "배송 중이에요", u "이동 중",
      IN_TRANSIT, u "🚚", false, Some 12%Z));
    (u "sm입고",
     (u "배송 기사님이 물건을 받았어요! 오늘 도착 예정", u "기사님 수령",
      OUT_FOR_DELIVERY, u "🙋", false, Some 6%Z));
    (u "배달출발",
     (u "배송 기사님이 출발했어요! 곧 도착해요", u "배송 출발",
      OUT_FOR_DELIVERY, u "🚚", false, Some 3%Z));
    (u "배달준비",
     (u "배송 준비 중이에요", u "배송 준비",
      OUT_FOR_DELIVERY, u "📋", false, Some 6%Z));
    (u "배송출발",
     (u "배송 기사님이 출발했어요!", u "배송 출발",
      OUT_FOR_DELIVERY, u "🚚", false, Some 3%Z));
    (u "배달중",
     (u "배송 중이에요! 조금만 기다려주세요", u "배송 중",
      OUT_FOR_DELIVERY, u "🚚", false, Some 2%Z));
    (u "배달완료",
     (u "배송이 완료되었어요! 확인해주세요", u "배송 완료",
      DELIVERED, u "✅", true, Some 0%Z));
    (u "배송완료",
     (u "배송이 완료되었어요! 확인해주세요", u "배송 완료",
      DELIVERED, u "✅", true, Some 0%Z));
    (u "인수확인",
     (u "수령이 확인되었어요", u "수령 완료",
      DELIVERED, u "✅", true, Some 0%Z));
    (u "수령",
     (u "수령이 확인되었어요", u "수령 완료",
      DELIVERED, u "✅", true, Some 0%Z));
    (u "완료",
     (u "배송이 완료되었어요!", u "완료",
      DELIVERED, u "✅", true, Some 0%Z));
    (u "반송",
     (u "반송 처리되었어요. 판매자에게 문의해주세요", u "반송",
      ISSUE, u "↩️", true, None));
    (u "미배달",
     (u "배송을 못 했어요. 재배송 예정이에요", u "미배달",
      ISSUE, u "⚠️", false, Some 24%Z));
    (u "보관",
     (u "물건을 보관 중이에요 (경비실/택배함 등)", u "보관 중",
      DELIVERED, u "📍", true, Some 0%Z));
    (u "부재",
     (u "부재중이라 배송을 못 했어요", u "부재",
      ISSUE, u "🏠", false, Some 24%Z));
    (u "주소불명",
     (u "주소가 불명확해요. 판매자에게 확인 요청해주세요", u "주소 오류",
      ISSUE, u "❓", false, None));
    (u "수취거부",
     (u "수취가 거부되었어요", u "수취 거부",
      ISSUE, u "🚫", true, None));
    (u "분실",
     (u "분실 처리되었어요. 판매자에게 문의해주세요", u "분실",
      ISSUE, u "❌", true, None))
  ].

Definition of_entry (raw_status : pystr) (e : status_entry)
  : TranslatedStatus.t :=
  let '(trans, short, phase, emoji, is_final, est) := e in
  TranslatedStatus.make raw_status trans short phase emoji is_final est.

Definition translate_status {U : Unicode} (raw_status : pystr)
  : TranslatedStatus.t :=
  let status_lower := Str.remove_spaces (str_lower raw_status) in
  (* Direct match *)
  match dict_get status_lower STATUS_TRANSLATIONS with
  | Some e => of_entry raw_status e
  | None =>
      (* Partial match *)
      match find (fun kv => Str.contains (fst kv) status_lower)
                 STATUS_TRANSLATIONS with
      | Some (_, e) => of_entry raw_status e
      | None =>
          (* Unknown status *)
          if Str.contains (u "완료") status_lower
             || Str.contains (u "도착") status_lower
          then
            TranslatedStatus.make raw_status
              (raw_status ++ u " - 배송 진행 중인 것 같아요")
              (firstn 6 raw_status)
              IN_TRANSIT (u "📦") false (Some 24%Z)
          else
            TranslatedStatus.make raw_status
              (u "'" ++ raw_status
                 ++ u "' 상태예요. 배송이 진행 중인 것 같아요")
              (if Nat.ltb 6 (Str.len raw_status)
               then firstn 6 raw_status else raw_status)
              IN_TRANSIT (u "📦") false None
      end
  end.

Definition get_progress_percentage (phase : DeliveryPhase) : Z :=
  match phase with
  | PICKUP => 20
  | IN_TRANSIT => 50
  | OUT_FOR_DELIVERY => 80
  | DELIVERED => 100
  | ISSUE => 50
  end.

(** ** The patterns of [re] the program uses

    A backtracking matcher for the constructs that occur in the
    program's patterns: literals, character sets and categories, greedy
    repetition of a set, a greedy optional group, one capturing group
    and [\b].  A position is the character before the cursor (for [\b])
    and the text still to read. *)

Module Re.

Inductive item : Type :=
| CChar (c : codepoint)
| CRange (lo hi : codepoint)
| CSpace                           (* \s *)
| CWord                            (* \w *)
| CDigit.                          (* \d *)

Inductive t : Type :=
| Lit (c : codepoint)              (* a literal character *)
| LitI (c : codepoint)             (* the same under re.IGNORECASE *)
| OneOf (items : list item)        (* [...] *)
| Rep (lo : nat) (hi : option nat) (items : list item)
                                   (* [...]{lo,hi}, [...]* and [...]+ *)
| Opt (r : t)                      (* (?:r)? *)
| Seq (r1 r2 : t)
| Group (r : t)                    (* (r), the only group of a pattern *)
| WordB                            (* \b *)
| Eps.

Definition pos : Type := (option codepoint * pystr)%type.

Section Matcher.
Context {U : Unicode}.

Definition item_matches (i : item) (c : codepoint) : bool :=
  match i with
  | CChar c' => N.eqb c c'
  | CRange lo hi => ((lo <=? c) && (c <=? hi))%N
  | CSpace => cp_isspace c
  | CWord => cp_isword c
  | CDigit => cp_isdecimal c
  end.

Definition set_matches (items : list item) (c : codepoint) : bool :=
  existsb (fun i => item_matches i c) items.

Definition at_boundary (p : pos) : bool :=
  let before := match fst p with Some c => cp_isword c | None => false end in
  let after := match snd p with c :: _ => cp_isword c | [] => false end in
  xorb before after.

Section Run.
Variable A : Type.

(** A continuation receives the position reached and the text of
    the group, if the group has been closed. *)
Definition cont : Type := pos -> option pystr -> option A.

(** Greedy repetition: as many characters as allowed first, one
    fewer on each failure of what follows, never fewer than [lo]. *)
Fixpoint rep (items : list item) (lo n : nat)
         (prev : option codepoint) (s : pystr) (cap : option pystr)
         (k : cont) : option A :=
  let stop := if Nat.eqb lo 0 then k (prev, s) cap else None in
  match n with
  | O => stop
  | S n' =>
      match s with
      | c :: s' =>
          if set_matches items c then
            match rep items (Nat.pred lo) n' (Some c) s' cap k with
            | Some a => Some a
            | None => stop
            end
          else stop
      | [] => stop
      end
  end.

Fixpoint run (r : t) (p : pos) (cap : option pystr) (k : cont)
  : option A :=
  match r with
  | Lit c =>
      match snd p with
      | x :: s' => if N.eqb x c then k (Some x, s') cap else None
      | [] => None
      end
  | LitI c =>
      match snd p with
      | x :: s' => if cp_ieq c x then k (Some x, s') cap else None
      | [] => None
      end
  | OneOf items =>
      match snd p with
      | x :: s' => if set_matches items x then k (Some x, s') cap else None
      | [] => None
      end
  | Rep lo hi items =>
      let n := match hi with Some h => h | None => Str.len (snd p) end in
      rep items lo n (fst p) (snd p) cap k
  | Opt r' =>
      match run r' p cap k with
      | Some a => Some a
      | None => k p cap
      end
  | Seq r1 r2 => run r1 p cap (fun p' cap' => run r2 p' cap' k)
  | Group r' =>
      run r' p cap
          (fun p' _ =>
             k p' (Some (firstn (Str.len (snd p) - Str.len (snd p'))
                                (snd p))))
  | WordB => if at_boundary p then k p cap else None
  | Eps => k p cap
  end.
End Run.

(** A match that starts at [p]: where it ends and [group(1)]. *)
Definition match_at (r : t) (p : pos) : option (pos * pystr) :=
  run r p None
      (fun p' cap => Some (p', match cap with Some g => g | None => [] end)).

(** [re.search(r, text).group(1)], [None] when nothing matches: the
    leftmost position at which a match starts. *)
Fixpoint search_from (r : t) (prev : option codepoint) (s : pystr)
  : option pystr :=
  match match_at r (prev, s) with
  | Some (_, g) => Some g
  | None =>
      match s with
      | [] => None
      | c :: s' => search_from r (Some c) s'
      end
  end.

Definition search (r : t) (text : pystr) : option pystr :=
  search_from r None text.

(** [re.findall(r, text)] for a pattern with one group: the groups of
    the matches found from left to right, each search resuming where
    the previous match ended.  [skip] counts the characters of the
    previous match that are still ahead of the cursor.  (After an
    empty match the search resumes one character further; no pattern
    of the program matches the empty string.) *)
Fixpoint findall_from (r : t) (prev : option codepoint) (s : pystr)
         (skip : nat) : list pystr :=
  let here :=
    match skip with
    | O => match_at r (prev, s)
    | S _ => None
    end in
  let found := match here with Some (_, g) => [g] | None => [] end in
  let skip' :=
    match here with
    | Some (p', _) => Nat.pred (Str.len s - Str.len (snd p'))
    | None => Nat.pred skip
    end in
  found ++
  match s with
  | [] => []
  | c :: s' => findall_from r (Some c) s' skip'
  end.

Definition findall (r : t) (text : pystr) : list pystr :=
  findall_from r None text 0.

(** [re.sub(r, "", text)] for a pattern that is a single set. *)
Definition delete_all (items : list item) (text : pystr) : pystr :=
  filter (fun c => negb (set_matches items c)) text.

End Matcher.

(** Patterns from their parts. *)
Fixpoint cat (rs : list t) : t :=
  match rs with
  | [] => Eps
  | [r] => r
  | r :: rs' => Seq r (cat rs')
  end.

Definition lit (s : pystr) : t := cat (map Lit s).
Definition lit_i (s : pystr) : t := cat (map LitI s).
Definition star (items : list item) : t := Rep 0 None items.
Definition plus (items : list item) : t := Rep 1 None items.
Definition between (lo hi : nat) (items : list item) : t :=
  Rep lo (Some hi) items.

End Re.

(** The code point of a one-character literal. *)
Definition ch (s : string) : codepoint := hd 0%N (u s).
Arguments ch s%_string_scope.

(** Python truthiness of an optional string: [None] and [""] are false. *)
Definition truthy (o : option pystr) : bool :=
  match o with
  | Some (_ :: _) => true
  | _ => false
  end.

(** The string inside a truthy optional string. *)
Definition the_str (o : option pystr) : pystr :=
  match o with
  | Some s => s
  | None => []
  end.

(** ** [utils/tracking_parser.py] *)

Module ParsedTracking.
Record t : Type := make {
  tracking_number : pystr;
  carrier_code : option pystr;
  carrier_name : option pystr;
  confidence : float;
  source : pystr
}.
End ParsedTracking.

Section TrackingParser.
Context {U : Unicode}.

(** [re.sub(r"[\s\-_.]", "", raw)] *)
Definition normalize_tracking_number (raw : pystr) : pystr :=
  Re.delete_all [Re.CSpace; Re.CChar (ch "-"); Re.CChar (ch "_");
                 Re.CChar (ch ".")] raw.

(** [([0-9\-\s]{10,20})] *)
Definition number_group : Re.t :=
  Re.Group (Re.between 10 20
              [Re.CRange (ch "0") (ch "9"); Re.CChar (ch "-"); Re.CSpace]).

(** [[:\s]*] *)
Definition colon_or_space : Re.t := Re.star [Re.CChar (ch ":"); Re.CSpace].

(** The four patterns are compiled with [re.IGNORECASE]. *)
Definition explicit_patterns : list Re.t :=
  [ Re.cat [Re.lit_i (u "운송장"); Re.star [Re.CSpace];
            Re.Opt (Re.lit_i (u "번호")); colon_or_space; number_group];
    Re.cat [Re.lit_i (u "송장"); Re.star [Re.CSpace];
            Re.Opt (Re.lit_i (u "번호")); colon_or_space; number_group];
    Re.cat [Re.lit_i (u "invoice"); colon_or_space; number_group];
    Re.cat [Re.lit_i (u "tracking"); colon_or_space; number_group] ].

(** [\b([0-9]{10,14})\b] *)
Definition number_pattern : Re.t :=
  Re.cat [Re.WordB;
          Re.Group (Re.between 10 14 [Re.CRange (ch "0") (ch "9")]);
          Re.WordB].

(** [\b(\d{3,5}[\-\s]\d{3,5}[\-\s]\d{3,5})\b] *)
Definition dash_pattern : Re.t :=
  Re.cat [Re.WordB;
          Re.Group
            (Re.cat [Re.between 3 5 [Re.CDigit];
                     Re.OneOf [Re.CChar (ch "-"); Re.CSpace];
                     Re.between 3 5 [Re.CDigit];
                     Re.OneOf [Re.CChar (ch "-"); Re.CSpace];
                     Re.between 3 5 [Re.CDigit]]);
          Re.WordB].

Definition len_10_to_15 (s : pystr) : bool :=
  Nat.leb 10 (Str.len s) && Nat.leb (Str.len s) 15.

(** Pattern 1: an explicit mention followed by a number.  The
    normalized match is appended whenever its length fits. *)
Definition explicit_pass (text : pystr) (candidates : list pystr)
  : list pystr :=
  fold_left
    (fun candidates pattern =>
       fold_left
         (fun candidates m =>
            let normalized := normalize_tracking_number m in
            if len_10_to_15 normalized
            then candidates ++ [normalized]
            else candidates)
         (Re.findall pattern text) candidates)
    explicit_patterns candidates.

(** Pattern 2: standalone runs of 10 to 14 digits. *)
Definition number_pass (text : pystr) (candidates : list pystr)
  : list pystr :=
  fold_left
    (fun candidates m =>
       if negb (Str.mem m candidates)
       then candidates ++ [m]
       else candidates)
    (Re.findall number_pattern text) candidates.

(** Pattern 3: numbers written in three groups. *)
Definition dash_pass (text : pystr) (candidates : list pystr)
  : list pystr :=
  fold_left
    (fun candidates m =>
       let normalized := normalize_tracking_number m in
       if negb (Str.mem normalized candidates) && len_10_to_15 normalized
       then candidates ++ [normalized]
       else candidates)
    (Re.findall dash_pattern text) candidates.

Definition extract_tracking_numbers (text : pystr) : list pystr :=
  dash_pass text (number_pass text (explicit_pass text [])).

(** [\[([\w\s]+)\]], [([\w]+택배)] and [([\w]+로지스)] *)
Definition carrier_patterns : list Re.t :=
  [ Re.cat [Re.Lit (ch "["); Re.Group (Re.plus [Re.CWord; Re.CSpace]);
            Re.Lit (ch "]")];
    Re.Group (Re.cat [Re.plus [Re.CWord]; Re.lit (u "택배")]);
    Re.Group (Re.cat [Re.plus [Re.CWord]; Re.lit (u "로지스")]) ].

(** The loop over the carrier patterns: the first pattern whose match
    is a known alias once lowercased and stripped of spaces. *)
Fixpoint first_known_mention (text : pystr) (patterns : list Re.t)
  : option pystr :=
  match patterns with
  | [] => None
  | pattern :: rest =>
      match Re.search pattern text with
      | Some g =>
          let carrier_text := Str.remove_spaces (str_lower g) in
          if dict_has carrier_text CARRIER_ALIASES
          then Some carrier_text
          else first_known_mention text rest
      | None => first_known_mention text rest
      end
  end.

Definition extract_carrier_name (text : pystr) : option pystr :=
  let text_lower := str_lower text in
  match find (fun alias => Str.contains alias text_lower)
             (map fst CARRIER_ALIASES) with
  | Some alias => Some alias
  | None => first_known_mention text carrier_patterns
  end.

(** ["운송장" in text or "송장" in text] *)
Definition mentions_label (text : pystr) : bool :=
  Str.contains (u "운송장") text || Str.contains (u "송장") text.

(** [min(confidence, 1.0)] *)
Definition min_one (confidence : float) : float :=
  if PrimFloat.ltb 1.0 confidence then 1.0%float else confidence.

(** One round of the loop over the candidates.  [carrier_code] and
    [carrier_name] are the variables of the enclosing function; the
    round reads them, may assign them, and leaves them to the next
    round. *)
Definition parse_round (text : pystr) (mentioned_carrier : option pystr)
           (st : option pystr * option pystr) (tracking_num : pystr)
  : (option pystr * option pystr) * ParsedTracking.t :=
  let '(carrier_code, carrier_name) := st in
  let '(carrier_code, carrier_name) :=
    if negb (truthy carrier_code) then
      let detected_code := detect_carrier_from_tracking tracking_num in
      if truthy detected_code then
        match get_carrier_by_code (the_str detected_code) with
        | Some carrier =>
            (Some (Carrier.code carrier), Some (Carrier.name carrier))
        | None => (carrier_code, carrier_name)
        end
      else (carrier_code, carrier_name)
    else (carrier_code, carrier_name) in
  let confidence := 0.5%float in
  let confidence :=
    if Nat.leb 11 (Str.len tracking_num) && Nat.leb (Str.len tracking_num) 13
    then (confidence + 0.2)%float else confidence in
  let confidence :=
    if truthy carrier_code then (confidence + 0.2)%float else confidence in
  let confidence :=
    if mentions_label text then (confidence + 0.1)%float else confidence in
  let confidence := min_one confidence in
  let source :=
    if mentions_label text then u "운송장 번호 명시에서 추출"
    else if truthy mentioned_carrier then
      (if truthy carrier_name
       then the_str carrier_name
       else the_str mentioned_carrier)
      ++ u " 문자에서 추출"
    else u "텍스트에서 숫자 패턴으로 추출" in
  ((carrier_code, carrier_name),
   ParsedTracking.make tracking_num carrier_code carrier_name
                       confidence source).

Fixpoint parse_rounds (text : pystr) (mentioned_carrier : option pystr)
         (st : option pystr * option pystr) (candidates : list pystr)
  : list ParsedTracking.t :=
  match candidates with
  | [] => []
  | tracking_num :: rest =>
      let '(st', parsed) :=
        parse_round text mentioned_carrier st tracking_num in
      parsed :: parse_rounds text mentioned_carrier st' rest
  end.

Definition parse_tracking_input (text : pystr) : list ParsedTracking.t :=
  let mentioned_carrier := extract_carrier_name text in
  let st :=
    if truthy mentioned_carrier then
      match get_carrier_by_name (the_str mentioned_carrier) with
      | Some carrier =>
          (Some (Carrier.code carrier), Some (Carrier.name carrier))
      | None => (None, None)
      end
    else (None, None) in
  parse_rounds text mentioned_carrier st (extract_tracking_numbers text).

End TrackingParser.

(** ** Python values, exceptions and effects *)

(** The values a decoded JSON document is made of.  A [dict] keeps its
    items in insertion order; its keys are strings. *)
Inductive pyval : Type :=
| PNone
| PBool (b : bool)
| PInt (z : Z)
| PFloat (f : float)
| PStr (s : pystr)
| PList (items : list pyval)
| PDict (items : list (pystr * pyval)).

(** The exceptions (all subclasses of [Exception]) that can be raised
    inside the [try] blocks of the program. *)
Inductive exn : Type :=
| HTTPStatusError (status_code : Z)     (* httpx, from raise_for_status() *)
| TimeoutException                      (* httpx *)
| OtherError (text : pystr)             (* any other failure of the request
                                           or of response.json(), with str(e) *)
| AttributeError (obj : pyval) (attr : pystr)
| NotIterable (obj : pyval).            (* TypeError *)

Inductive res (A : Type) : Type :=
| Ok (a : A)
| Raise (e : exn).
Arguments Ok {A} a.
Arguments Raise {A} e.

Definition res_bind {A B : Type} (r : res A) (f : A -> res B) : res B :=
  match r with
  | Ok a => f a
  | Raise e => Raise e
  end.

Fixpoint res_map {A B : Type} (f : A -> res B) (l : list A) : res (list B) :=
  match l with
  | [] => Ok []
  | a :: l' =>
      res_bind (f a) (fun b => res_bind (res_map f l') (fun bs => Ok (b :: bs)))
  end.

(** [v == s] for a string [s] *)
Definition py_eq_str (v : pyval) (s : pystr) : bool :=
  match v with
  | PStr s' => Str.eqb s' s
  | _ => false
  end.

(** [bool(v)] *)
Definition py_truthy (v : pyval) : bool :=
  match v with
  | PNone => false
  | PBool b => b
  | PInt z => negb (Z.eqb z 0)
  | PFloat f => negb (PrimFloat.eqb f 0)
  | PStr s => match s with [] => false | _ => true end
  | PList l => match l with [] => false | _ => true end
  | PDict d => match d with [] => false | _ => true end
  end.

(** [d.get(key, default)] on the items of a [dict] *)
Definition get_or (d : list (pystr * pyval)) (key : pystr) (default : pyval)
  : pyval :=
  match dict_get key d with
  | Some v => v
  | None => default
  end.

(** The items a [for] loop over [v] visits. *)
Definition py_iter (v : pyval) : res (list pyval) :=
  match v with
  | PList l => Ok l
  | PDict d => Ok (map (fun kv => PStr (fst kv)) d)
  | PStr s => Ok (map (fun c => PStr [c]) s)
  | _ => Raise (NotIterable v)
  end.

(** [s in v] for a string [s] *)
Definition py_in (s : pystr) (v : pyval) : res bool :=
  match v with
  | PStr t => Ok (Str.contains s t)
  | PList l => Ok (existsb (fun x => py_eq_str x s) l)
  | PDict d => Ok (dict_has s d)
  | _ => Raise (NotIterable v)
  end.

(** A naive [datetime]: microseconds on the local time line. *)
Definition datetime : Type := Z.
Definition usec_per_hour : Z := 3600 * 1000000.
Definition usec_per_day : Z := 24 * usec_per_hour.

(** [timedelta(days=d, hours=h)] *)
Definition timedelta (d h : Z) : Z := d * usec_per_day + h * usec_per_hour.

(** [(a - b).days]: a [timedelta] is normalized with a floor. *)
Definition days_between (a b : datetime) : Z := (a - b) / usec_per_day.

(** What the interpreter and its libraries compute for the program. *)
Class Host : Type := {
  (** [str(e)] for an exception raised by the interpreter itself *)
  exn_str : exn -> pystr;
  (** [hash(s)] *)
  str_hash : pystr -> Z;
  (** [t.strftime("%Y-%m-%d %H:%M")] *)
  strftime_minutes : datetime -> pystr;
  (** [datetime.strptime(s, fmt)], [None] for a [ValueError] *)
  strptime : pystr -> pystr -> option datetime
}.

(** The surroundings of one process: whether the client was built without
    an API key, the answer of the tracking service to a request given the
    requests sent before it, and the successive readings of the clock. *)
Definition request : Type := (pystr * pystr)%type.  (* (t_invoice, t_code) *)

Inductive response : Type :=
| Fails (e : exn)          (* get, raise_for_status or json raised *)
| Json (data : pyval).     (* the decoded body *)

Class Service : Type := {
  mock_mode : bool;
  answer : list request -> request -> response;
  clock : nat -> datetime
}.

Module World.
Record t : Type := make {
  sent : list request;     (* the requests issued so far, oldest first *)
  ticks : nat              (* how often the clock has been read *)
}.
End World.

(** Computations that send requests and read the clock. *)
Definition M (A : Type) : Type := World.t -> A * World.t.

Definition ret {A : Type} (a : A) : M A := fun w => (a, w).

Definition bind {A B : Type} (m : M A) (f : A -> M B) : M B :=
  fun w => let '(a, w') := m w in f a w'.

Declare Scope m_scope.
Delimit Scope m_scope with m.
Notation "x <- m ;; k" := (bind m (fun x => k))
  (at level 100, m at next level, right associativity) : m_scope.

(** [await client.get(url, params=params)] up to [response.json()] *)
Definition http_get {S : Service} (r : request) : M response :=
  fun w =>
    (answer (World.sent w) r,
     World.make (World.sent w ++ [r]) (World.ticks w)).

(** [datetime.now()] *)
Definition datetime_now {S : Service} : M datetime :=
  fun w =>
    (clock (World.ticks w),
     World.make (World.sent w) (Datatypes.S (World.ticks w))).

(** [str(n)] for an [int] *)
Definition str_of_int (n : Z) : pystr :=
  u (DecimalString.NilEmpty.string_of_int (Z.to_int n)).

(** ** [services/sweet_tracker.py] *)

Module TrackingEvent.
(** The fields hold whatever the decoded document held. *)
Record t : Type := make {
  time : pyval;
  status : pyval;
  location : pyval;
  detail : pyval
}.
End TrackingEvent.

(** The default of [last] on a list known not to be empty. *)
Definition no_event : TrackingEvent.t :=
  TrackingEvent.make PNone PNone PNone PNone.

Module TrackingResult.
Record t : Type := make {
  success : bool;
  tracking_number : pystr;
  carrier_code : pystr;
  carrier_name : pystr;
  sender : pyval;
  receiver : pyval;
  item_name : pyval;
  events : list TrackingEvent.t;
  current_status : pystr;
  is_delivered : bool;
  error_message : pyval
}.
End TrackingResult.

(** [carrier.name if carrier else f"택배사 {carrier_code}"] *)
Definition carrier_name_of (carrier_code : pystr) : pystr :=
  match get_carrier_by_code carrier_code with
  | Some carrier => Carrier.name carrier
  | None => u "택배사 " ++ carrier_code
  end.

(** The result every failure branch of [track] builds, up to its message. *)
Definition failed_result (tracking_number carrier_code carrier_name : pystr)
           (error_message : pyval) : TrackingResult.t :=
  TrackingResult.make false tracking_number carrier_code carrier_name
                      PNone PNone PNone [] (u "조회 실패") false error_message.

Section SweetTracker.
Context {U : Unicode} {H : Host} {S : Service}.

Definition mock_event (t : datetime) (status location detail : pystr)
  : TrackingEvent.t :=
  TrackingEvent.make (PStr (strftime_minutes t)) (PStr status)
                     (PStr location) (PStr detail).

(** The four scenarios: events, current_status, is_delivered. *)
Definition scenarios (now : datetime)
  : list (list TrackingEvent.t * pystr * bool) :=
  [ (* Scenario 1: In transit *)
    ([ mock_event (now - timedelta 2 0)%Z (u "집화처리") (u "서울 강남구") (u "상품인수");
       mock_event (now - timedelta 1 18)%Z (u "간선상차") (u "서울 HUB") (u "간선상차");
       mock_event (now - timedelta 1 6)%Z (u "간선하차") (u "부산 HUB") (u "간선하차");
       mock_event (now - timedelta 0 3)%Z (u "SM입고") (u "부산 해운대구") (u "배송기사인수") ],
     u "SM입고", false);
    (* Scenario 2: Out for delivery *)
    ([ mock_event (now - timedelta 1 0)%Z (u "집화처리") (u "서울 송파구") (u "상품인수");
       mock_event (now - timedelta 0 12)%Z (u "간선상차") (u "서울 HUB") (u "간선상차");
       mock_event (now - timedelta 0 6)%Z (u "간선하차") (u "서울 강남 HUB") (u "간선하차");
       mock_event (now - timedelta 0 2)%Z (u "SM입고") (u "서울 강남구") (u "배송기사인수");
       mock_event (now - timedelta 0 1)%Z (u "배달출발") (u "서울 강남구") (u "배달출발") ],
     u "배달출발", false);
    (* Scenario 3: Delivered *)
    ([ mock_event (now - timedelta 2 0)%Z (u "집화처리") (u "경기 수원시") (u "상품인수");
       mock_event (now - timedelta 1 0)%Z (u "간선상차") (u "수원 HUB") (u "간선상차");
       mock_event (now - timedelta 0 8)%Z (u "SM입고") (u "서울 마포구") (u "배송기사인수");
       mock_event (now - timedelta 0 6)%Z (u "배달출발") (u "서울 마포구") (u "배달출발");
       mock_event (now - timedelta 0 5)%Z (u "배달완료") (u "서울 마포구") (u "배달완료") ],
     u "배달완료", true);
    (* Scenario 4: Stagnant *)
    ([ mock_event (now - timedelta 5 0)%Z (u "집화처리") (u "서울 영등포구") (u "상품인수");
       mock_event (now - timedelta 4 0)%Z (u "간선상차") (u "서울 HUB") (u "간선상차");
       mock_event (now - timedelta 3 0)%Z (u "간선하차") (u "부산 HUB") (u "간선하차") ],
     u "간선하차", false) ].

Definition _generate_mock_result (tracking_number carrier_code : pystr)
  : M TrackingResult.t :=
  (now <- datetime_now ;;
   let carrier_name := carrier_name_of carrier_code in
   let scenario_idx := (str_hash tracking_number mod 4)%Z in
   let '(events, current_status, is_delivered) :=
     nth (Z.to_nat scenario_idx) (scenarios now) ([], [], false) in
   ret (TrackingResult.make true tracking_number carrier_code carrier_name
                            (PStr (u "테스트 판매자"))
                            (PStr (u "테스트 고객"))
                            (PStr (u "테스트 상품"))
                            events current_status is_delivered PNone))%m.

(** One [TrackingEvent] from an entry of [trackingDetails]. *)
Definition event_of (detail : pyval) : res TrackingEvent.t :=
  match detail with
  | PDict d =>
      Ok (TrackingEvent.make
            (get_or d (u "timeString") (PStr []))
            (get_or d (u "kind") (PStr []))
            (get_or d (u "where") (PStr []))
            (get_or d (u "remark") PNone))
  | _ => Raise (AttributeError detail (u "get"))
  end.

(** ["완료" in last_status or "배달" in last_status
     and "출발" not in last_status]: [and] binds tighter than [or]. *)
Definition looks_delivered (last_status : pystr) : bool :=
  Str.contains (u "완료") last_status
  || (Str.contains (u "배달") last_status
      && negb (Str.contains (u "출발") last_status)).

(** The body of the [try] block from [data = response.json()] on. *)
Definition read_payload (tracking_number carrier_code carrier_name : pystr)
           (data : pyval) : res TrackingResult.t :=
  match data with
  | PDict d =>
      (* Check for API error *)
      if py_eq_str (get_or d (u "status") PNone) (u "false")
         || dict_has (u "msg") d
      then
        Ok (failed_result tracking_number carrier_code carrier_name
              (get_or d (u "msg") (PStr (u "조회에 실패했습니다"))))
      else
        (* Parse tracking info *)
        res_bind (py_iter (get_or d (u "trackingDetails") (PList [])))
          (fun tracking_details =>
        res_bind (res_map event_of tracking_details)
          (fun events =>
        (* Determine current status *)
        res_bind
          (match events with
           | [] => Ok (u "정보 없음", false)
           | _ :: _ =>
               match TrackingEvent.status (last events no_event) with
               | PStr current_status =>
                   Ok (current_status,
                       looks_delivered (str_lower current_status))
               | v => Raise (AttributeError v (u "lower"))
               end
           end)
          (fun '(current_status, is_delivered) =>
        (* Also check the completeYN field if available *)
        let is_delivered :=
          if py_eq_str (get_or d (u "completeYN") PNone) (u "Y")
          then true else is_delivered in
        Ok (TrackingResult.make true tracking_number carrier_code
              carrier_name
              (get_or d (u "senderName") PNone)
              (get_or d (u "receiverName") PNone)
              (get_or d (u "itemName") PNone)
              events current_status is_delivered PNone))))
  | _ => Raise (AttributeError data (u "get"))
  end.

(** The three [except] clauses, in their order. *)
Definition handle (tracking_number carrier_code carrier_name : pystr)
           (e : exn) : TrackingResult.t :=
  failed_result tracking_number carrier_code carrier_name
    (PStr match e with
          | HTTPStatusError status_code =>
              u "API 오류: " ++ str_of_int status_code
          | TimeoutException => u "API 응답 시간 초과"
          | OtherError text => u "오류 발생: " ++ text
          | _ => u "오류 발생: " ++ exn_str e
          end).

(** What [track] makes of the outcome of its request. *)
Definition outcome (tracking_number carrier_code : pystr) (r : response)
  : TrackingResult.t :=
  let carrier_name := carrier_name_of carrier_code in
  match r with
  | Fails e => handle tracking_number carrier_code carrier_name e
  | Json data =>
      match read_payload tracking_number carrier_code carrier_name data with
      | Ok result => result
      | Raise e => handle tracking_number carrier_code carrier_name e
      end
  end.

Definition track (tracking_number carrier_code : pystr)
  : M TrackingResult.t :=
  if mock_mode then _generate_mock_result tracking_number carrier_code
  else
    (r <- http_get (tracking_number, carrier_code) ;;
     ret (outcome tracking_number carrier_code r))%m.

Definition major_carriers : list pystr :=
  [u "04"; u "08"; u "05"; u "01"; u "06"].

Definition not_found (tracking_number : pystr) : TrackingResult.t :=
  failed_result tracking_number (u "") (u "알 수 없음")
    (PStr (u "택배사를 찾을 수 없습니다. 택배사를 직접 지정해주세요.")).

(** The loop over the major carriers, and what follows it. *)
Fixpoint try_carriers (tracking_number : pystr)
         (detected_code : option pystr) (codes : list pystr)
  : M TrackingResult.t :=
  match codes with
  | [] => ret (not_found tracking_number)
  | code :: rest =>
      if match detected_code with
         | Some d => Str.eqb code d
         | None => false
         end
      then try_carriers tracking_number detected_code rest
      else
        (result <- track tracking_number code ;;
         if TrackingResult.success result then ret result
         else try_carriers tracking_number detected_code rest)%m
  end.

Definition track_auto_detect (tracking_number : pystr)
  : M TrackingResult.t :=
  let detected_code := detect_carrier_from_tracking tracking_number in
  if mock_mode then
    _generate_mock_result tracking_number
      (if truthy detected_code then the_str detected_code else u "04")
  else if truthy detected_code then
    (result <- track tracking_number (the_str detected_code) ;;
     if TrackingResult.success result then ret result
     else try_carriers tracking_number detected_code major_carriers)%m
  else try_carriers tracking_number detected_code major_carriers.

End SweetTracker.

(** ** [tools/track.py] *)

(** [s.split(sep)] for a one-character separator *)
Fixpoint split_on (sep : codepoint) (s : pystr) : list pystr :=
  match s with
  | [] => [[]]
  | c :: s' =>
      if N.eqb c sep then [] :: split_on sep s'
      else
        match split_on sep s' with
        | piece :: pieces => (c :: piece) :: pieces
        | [] => [[c]]
        end
  end.

Fixpoint lstrip {U : Unicode} (s : pystr) : pystr :=
  match s with
  | c :: s' => if cp_isspace c then lstrip s' else s
  | [] => []
  end.

(** [s.strip()] *)
Definition strip {U : Unicode} (s : pystr) : pystr :=
  rev (lstrip (rev (lstrip s))).

(** What [my_packages] returns: one of its fixed messages, or the text
    rendered from the rows collected by the loop.  The rendering reads
    the rows and nothing else; it is represented by the rows. *)
Inductive reply : Type :=
| Message (text : pystr)
| Summary (rows : list (pystr * TrackingResult.t * option TranslatedStatus.t)).

Section Track.
Context {U : Unicode} {H : Host} {S : Service}.

(** [[normalize_tracking_number(n.strip())
      for n in tracking_numbers.split(",") if n.strip()]] *)
Definition parse_numbers (tracking_numbers : pystr) : list pystr :=
  map (fun n => normalize_tracking_number (strip n))
      (filter (fun n => match strip n with [] => false | _ => true end)
              (split_on (ch ",") tracking_numbers)).

(** The loop [for num in numbers]. *)
Fixpoint track_all (numbers : list pystr)
  : M (list (pystr * TrackingResult.t * option TranslatedStatus.t)) :=
  match numbers with
  | [] => ret []
  | num :: rest =>
      (result <- track_auto_detect num ;;
       let status_info :=
         if TrackingResult.success result
         then Some (translate_status (TrackingResult.current_status result))
         else None in
       rows <- track_all rest ;;
       ret ((num, result, status_info) :: rows))%m
  end.

Definition my_packages (tracking_numbers : pystr) : M reply :=
  match tracking_numbers with
  | [] => ret (Message (u "운송장 번호를 입력해주세요. (쉼표로 구분)"))
  | _ =>
      let numbers := parse_numbers tracking_numbers in
      match numbers with
      | [] => ret (Message (u "유효한 운송장 번호를 찾을 수 없어요."))
      | _ =>
          if Nat.ltb 10 (List.length numbers)
          then ret (Message (u "한 번에 최대 10개까지 조회할 수 있어요."))
          else
            (* Track all packages *)
            (rows <- track_all numbers ;;
             ret (Summary rows))%m
      end
  end.

End Track.

(** ** [tools/diagnose.py] *)

Module Stagnation.
(** The dictionary [_analyze_stagnation] returns, by its keys. *)
Record t : Type := make {
  is_stagnant : bool;
  days_stagnant : Z;
  last_location : pyval;
  possible_causes : list (pystr * Z)
}.
End Stagnation.

Section Diagnose.
Context {H : Host} {S : Service}.

Definition time_formats : list pystr :=
  [u "%Y-%m-%d %H:%M:%S"; u "%Y-%m-%d %H:%M"; u "%Y.%m.%d %H:%M"].

(** The [for fmt in ...] loop: the first format that parses. *)
Fixpoint first_parse (last_time_str : pystr) (formats : list pystr)
  : option datetime :=
  match formats with
  | [] => None
  | fmt :: rest =>
      match strptime last_time_str fmt with
      | Some last_time => Some last_time
      | None => first_parse last_time_str rest
      end
  end.

(** Causes by location; [in] raises on a location that is no
    container. *)
Definition causes_for (location : pyval) : res (list (pystr * Z)) :=
  res_bind (py_in (u "허브") location) (fun hub =>
  res_bind (if hub then Ok true else py_in (u "터미널") location)
           (fun hub_or_terminal =>
  if hub_or_terminal then
    Ok [ (u "물량 폭주로 인한 분류 지연", 60%Z);
         (u "분류 과정에서 누락", 30%Z);
         (u "시스템 오류", 10%Z) ]
  else
    res_bind (py_in (u "공항") location) (fun airport =>
    if airport then
      Ok [ (u "통관 지연", 70%Z);
           (u "세관 검사", 20%Z);
           (u "서류 문제", 10%Z) ]
    else
      Ok [ (u "물량 폭주로 인한 지연", 50%Z);
           (u "배송 경로 변경", 25%Z);
           (u "분류 누락 가능성", 25%Z) ]))).

Definition _analyze_stagnation (events : list TrackingEvent.t)
           (carrier_code : pystr) : M Stagnation.t :=
  match events with
  | [] => ret (Stagnation.make false 0 PNone [])
  | _ :: _ =>
      let last_event := last events no_event in
      (* the return after the [try] statement *)
      let not_stagnant :=
        Stagnation.make false 0 (TrackingEvent.location last_event) [] in
      match TrackingEvent.time last_event with
      | PStr last_time_str =>
          match first_parse last_time_str time_formats with
          | None =>
              (* If parsing fails, assume recent *)
              ret (Stagnation.make false 0
                     (TrackingEvent.location last_event) [])
          | Some last_time =>
              (now <- datetime_now ;;
               let days_since := days_between now last_time in
               if (2 <=? days_since)%Z then
                 let location :=
                   if py_truthy (TrackingEvent.location last_event)
                   then TrackingEvent.location last_event
                   else PStr [] in
                 match causes_for location with
                 | Ok possible_causes =>
                     ret (Stagnation.make true days_since location
                                          possible_causes)
                 | Raise _ => ret not_stagnant     (* except Exception: pass *)
                 end
               else ret not_stagnant)%m
          end
      | _ =>
          (* strptime raises TypeError: except Exception: pass *)
          ret not_stagnant
      end
  end.

End Diagnose.

(** ** Notions the properties are stated with *)

(** A string of the digits [0] to [9]. *)
Definition ascii_digits (s : pystr) : bool := forallb is_ascii_digit s.

(** A text written in the Basic Latin and Hangul Syllables blocks. *)
Definition plain_text (s : pystr) : bool := forallb plain s.

(** Plain positions, captured groups and patterns: a pattern is plain
    when the literals it matches without regard to case are. *)
Definition plain_prev (o : option codepoint) : bool :=
  match o with
  | Some c => plain c
  | None => true
  end.

Definition plain_pos (p : Re.pos) : bool :=
  plain_prev (fst p) && plain_text (snd p).

Definition plain_cap (cap : option pystr) : bool :=
  match cap with
  | Some g => plain_text g
  | None => true
  end.

Fixpoint plain_re (r : Re.t) : bool :=
  match r with
  | Re.LitI c => plain c
  | Re.Opt r' | Re.Group r' => plain_re r'
  | Re.Seq r1 r2 => plain_re r1 && plain_re r2
  | _ => true
  end.

Definition all_plain (l : list pystr) : Prop :=
  Forall (fun s => plain_text s = true) l.

(** Every request of [track] for the carriers [codes], issued in this
    order after the requests [sent], is answered so that [track] fails. *)
Fixpoint all_fail {U : Unicode} {H : Host} {S : Service}
         (tracking_number : pystr) (sent : list request) (codes : list pystr)
  : Prop :=
  match codes with
  | [] => True
  | code :: rest =>
      TrackingResult.success
        (outcome tracking_number code (answer sent (tracking_number, code)))
      = false
      /\ all_fail tracking_number (sent ++ [(tracking_number, code)]) rest
  end.

(** The event [track] makes of an entry of trackingDetails that is an
    object: [detail.get("timeString", "")], [detail.get("kind", "")],
    [detail.get("where", "")] and [detail.get("remark")]. *)
Definition entry_event (entry : list (pystr * pyval)) : TrackingEvent.t :=
  TrackingEvent.make
    (get_or entry (u "timeString") (PStr []))
    (get_or entry (u "kind") (PStr []))
    (get_or entry (u "where") (PStr []))
    (get_or entry (u "remark") PNone).

(** The invariant of a [TrackingResult]: a failure carries no events and
    a message; only a success is delivered. *)
Definition result_invariant (r : TrackingResult.t) : Prop :=
  (TrackingResult.success r = false ->
   TrackingResult.events r = [] /\ TrackingResult.error_message r <> PNone) /\
  (TrackingResult.is_delivered r = true -> TrackingResult.success r = true).

(** An answer whose document has the key ["msg"] with the value [null]. *)
Definition null_msg (r : response) : Prop :=
  exists d, r = Json (PDict d) /\ dict_get (u "msg") d = Some PNone.

(** A host and two services to run the program on: the host describes
    no exception and parses no time; the first service is down, the
    second answers every request with one document. *)
Module Demo.

Definition host : Host :=
  {| exn_str := fun _ => [];
     str_hash := fun s => Z.of_nat (Str.len s);
     strftime_minutes := fun _ => [];
     strptime := fun _ _ => None |}.

Definition down : Service :=
  {| mock_mode := false;
     answer := fun _ _ => Fails TimeoutException;
     clock := fun _ => 0%Z |}.

Definition serving (data : pyval) : Service :=
  {| mock_mode := false;
     answer := fun _ _ => Json data;
     clock := fun _ => 0%Z |}.

Definition idle : World.t := World.make [] 0.

End Demo.

(** ** Further functions of the same files *)

(** [services/carrier_info.py]: [list(CARRIERS.values())] *)
Definition get_all_carriers : list Carrier.t := map snd CARRIERS.

(** [utils/tracking_parser.py] *)
Definition validate_tracking_number {U : Unicode} (tracking_number : pystr)
  : bool :=
  match tracking_number with
  | [] => false
  | _ =>
      if negb (str_isdigit tracking_number) then false
      else if negb (Nat.leb 10 (Str.len tracking_number)
                    && Nat.leb (Str.len tracking_number) 14)
      then false
      else true
  end.

(** [s.zfill(2)] for a string that [isdigit] accepts, which therefore
    carries no sign. *)
Definition zfill2 (s : pystr) : pystr :=
  repeat (ch "0") (2 - Str.len s) ++ s.

(** ["\n".join(lines)] *)
Fixpoint join_lines (lines : list pystr) : pystr :=
  match lines with
  | [] => []
  | [l] => l
  | l :: rest => l ++ [10%N] ++ join_lines rest
  end.

(** What [track_package] does: it returns one of its fixed messages,
    or the text [_format_tracking_result(result)] renders, or it lets
    the exception of [_format_tracking_result] pass.  The text reads
    [result] and nothing else and is represented by it. *)
Inductive package_reply : Type :=
| Notice (text : pystr)
| Formatted (result : TrackingResult.t)
| Raised (e : exn).

(** [event.status] is no string: [translate_status(event.status)] calls
    [raw_status.lower()] on it. *)
Definition not_a_string (v : pyval) : bool :=
  match v with
  | PStr _ => false
  | _ => true
  end.

(** [tools/track.py]: [_format_tracking_result(result)].  A failure
    is rendered from fields that are only formatted.  For a success the
    loop [for event in reversed(result.events[-5:])] translates the
    status of each of the last five events, latest first; the first
    status that is no string makes [raw_status.lower()] raise
    AttributeError, which nothing catches.  Nothing else in the
    function can raise: the current status of a result is a string, and
    the other fields are formatted or tested for truth. *)
Definition _format_tracking_result (result : TrackingResult.t)
  : package_reply :=
  if negb (TrackingResult.success result) then Formatted result
  else
    (* Delivery timeline (last 5 events) *)
    let events := TrackingResult.events result in
    let recent_events := skipn (List.length events - 5) events in
    match find (fun event => not_a_string (TrackingEvent.status event))
               (rev recent_events) with
    | Some event =>
        Raised (AttributeError (TrackingEvent.status event) (u "lower"))
    | None => Formatted result
    end.

Section TrackPackage.
Context {U : Unicode} {H : Host} {S : Service}.

(** [tools/track.py] *)
Definition track_package (tracking_number carrier : pystr) : M package_reply :=
  (* Normalize tracking number *)
  let tracking_number := normalize_tracking_number tracking_number in
  match tracking_number with
  | [] => ret (Notice (u "운송장 번호를 입력해주세요."))
  | _ =>
      if Str.eqb (str_lower carrier) (u "auto") then
        (* Auto-detect carrier *)
        let carrier_code := detect_carrier_from_tracking tracking_number in
        if truthy carrier_code then
          (result <- track tracking_number (the_str carrier_code) ;;
           ret (_format_tracking_result result))%m
        else
          (result <- track_auto_detect tracking_number ;;
           ret (_format_tracking_result result))%m
      else
        (* Try to find carrier by name or code *)
        let carrier_code :=
          match get_carrier_by_name carrier with
          | Some carrier_obj => Some (Carrier.code carrier_obj)
          | None =>
              if str_isdigit carrier && Nat.leb (Str.len carrier) 3
              then Some (zfill2 carrier)
              else None
          end in
        if truthy carrier_code then
          (result <- track tracking_number (the_str carrier_code) ;;
           ret (_format_tracking_result result))%m
        else
          ret (Notice
                 (join_lines
                    [ u "'" ++ carrier ++ u "' 택배사를 찾을 수 없어요.";
                      [];
                      u "지원하는 택배사:";
                      u "• CJ대한통운";
                      u "• 롯데택배";
                      u "• 한진택배";
                      u "• 우체국택배";
                      u "• 로젠택배";
                      u "등";
                      [];
                      u "택배사 이름을 다시 확인해주세요." ]))
  end.

End TrackPackage.

(** [tools/diagnose.py]: one recommended action, a dictionary with the
    keys priority, action and detail. *)
Module Action.
Record t : Type := make {
  priority : Z;
  action : pystr;
  detail : pystr
}.
End Action.

Section Recommend.
Context {U : Unicode}.

Definition _get_recommended_actions (result : TrackingResult.t)
           (status_info : TranslatedStatus.t) (stagnation : Stagnation.t)
  : list Action.t :=
  let carrier_contact :=
    match get_carrier_by_code (TrackingResult.carrier_code result) with
    | Some carrier => Carrier.contact carrier
    | None => u "택배사"
    end in
  (* Stagnation issues *)
  let actions :=
    if Stagnation.is_stagnant stagnation then
      let days := Stagnation.days_stagnant stagnation in
      if (5 <=? days)%Z then
        [ Action.make 1 (u "택배사 고객센터에 분실 여부 확인")
                      (u "전화: " ++ carrier_contact);
          Action.make 2 (u "판매자에게 배송 확인 요청")
                      (u "분실 시 재발송 또는 환불 협의") ]
      else if (3 <=? days)%Z then
        [ Action.make 1 (u "택배사 고객센터 문의")
                      (u "전화: " ++ carrier_contact);
          Action.make 2 (u "판매자에게 상황 공유")
                      (u "배송 지연 상황 알리기") ]
      else
        [ Action.make 1 (u "1-2일 더 대기")
                      (u "물량 폭주 시 자연 해소될 수 있음");
          Action.make 2 (u "개선 없으면 택배사 문의")
                      (u "전화: " ++ carrier_contact) ]
    else [] in
  (* Issue-specific actions *)
  let actions :=
    match TranslatedStatus.phase status_info with
    | ISSUE =>
        let status_lower := str_lower (TranslatedStatus.original status_info) in
        if Str.contains (u "반송") status_lower then
          [ Action.make 1 (u "판매자에게 즉시 연락")
                        (u "반송 사유 확인 및 재발송 요청") ]
        else if Str.contains (u "주소") status_lower then
          [ Action.make 1 (u "정확한 주소 확인 후 판매자에게 전달")
                        (u "주소 수정 요청") ]
        else if Str.contains (u "부재") status_lower then
          [ Action.make 1 (u "택배 기사님 연락 또는 재배송 요청")
                        (u "부재 시 배송 위치 지정 (경비실/문앞 등)") ]
        else actions
    | _ => actions
    end in
  (* Default action if none specific *)
  match actions with
  | [] => [ Action.make 1 (u "택배사 고객센터 문의")
                        (u "전화: " ++ carrier_contact) ]
  | _ => actions
  end.

End Recommend.

(** The sum of the percentages of a list of causes. *)
Definition percent_total (causes : list (pystr * Z)) : Z :=
  fold_right (fun cause total => (snd cause + total)%Z) 0%Z causes.

(** ** Notions the further properties are stated with *)

(** What looking a carrier of the directory up by its own display name
    gives: the carrier itself, except for the two entries whose name is
    no alias of theirs. *)
Definition known_by_name {U : Unicode} (entry : pystr * Carrier.t) : Prop :=
  get_carrier_by_name (Carrier.name (snd entry))
  = if Str.eqb (fst entry) (u "46") then None
    else if Str.eqb (fst entry) (u "22") then get_carrier_by_code (u "04")
    else Some (snd entry).

(** A consistent classification: a delivered status is final with zero
    hours left, a final status is delivered or an issue and has no hours
    left, and the hours left lie between 0 and 72. *)
Definition entry_sound (e : status_entry) : bool :=
  let '(_, _, phase, _, is_final, est) := e in
  (match phase with
   | DELIVERED => is_final && match est with Some 0%Z => true | _ => false end
   | _ => true
   end)
  && (if is_final
      then match est with Some 0%Z | None => true | _ => false end
           && match phase with DELIVERED | ISSUE => true | _ => false end
      else true)
  && match est with Some h => (0 <=? h)%Z && (h <=? 72)%Z | None => true end.

Definition status_sound (r : TranslatedStatus.t) : bool :=
  entry_sound (TranslatedStatus.translated r, TranslatedStatus.short r,
               TranslatedStatus.phase r, TranslatedStatus.emoji r,
               TranslatedStatus.is_final r, TranslatedStatus.estimated_hours r).

(** [code == detected_code] in the loop over the major carriers. *)
Definition skipped (detected_code : option pystr) (code : pystr) : bool :=
  match detected_code with
  | Some d => Str.eqb code d
  | None => false
  end.

(** The carriers [track_auto_detect] is prepared to ask, in its order:
    the detected one, then the major carriers without it. *)
Definition attempts {U : Unicode} (tracking_number : pystr) : list pystr :=
  let detected_code := detect_carrier_from_tracking tracking_number in
  (if truthy detected_code then [the_str detected_code] else [])
  ++ filter (fun code => negb (skipped detected_code code)) major_carriers.

Definition requests_for (tracking_number : pystr) (codes : list pystr)
  : list request :=
  map (fun code => (tracking_number, code)) codes.

(** Asking [codes] in order after the requests [sent]: the result is the
    answer of the first carrier that succeeds, every carrier before it
    having failed, and the requests stop there; or all fail, every
    carrier has been asked and the result is [not_found]. *)
Definition cascade {U : Unicode} {H : Host} {S : Service}
           (tracking_number : pystr) (sent : list request) (codes : list pystr)
           (result : TrackingResult.t) (sent' : list request) : Prop :=
  (exists before code after,
      codes = before ++ code :: after /\
      all_fail tracking_number sent before /\
      result = outcome tracking_number code
                 (answer (sent ++ requests_for tracking_number before)
                         (tracking_number, code)) /\
      TrackingResult.success result = true /\
      sent' = sent ++ requests_for tracking_number (before ++ [code]))
  \/ (all_fail tracking_number sent codes /\
      result = not_found tracking_number /\
      sent' = sent ++ requests_for tracking_number codes).

(** The requests one number of [my_packages] causes: at most five, all
    for that number. *)
Definition requests_of_number (num : pystr) (group : list request) : Prop :=
  exists codes, group = requests_for num codes /\ List.length codes <= 5.

(** A row of [my_packages]: the number, its result and its status. *)
Definition package_row : Type :=
  (pystr * TrackingResult.t * option TranslatedStatus.t)%type.

Definition row_number (r : package_row) : pystr := fst (fst r).

(** The status of a row is the translation of the result's current
    status when the result is a success, and [None] otherwise. *)
Definition row_sound {U : Unicode} (r : package_row) : Prop :=
  let '(num, result, status_info) := r in
  status_info
  = if TrackingResult.success result
    then Some (translate_status (TrackingResult.current_status result))
    else None.

(** A consistent assessment: stagnant with at least two days and three
    causes whose percentages add up to 100, or not stagnant with zero
    days and no cause. *)
Definition stagnation_sound (a : Stagnation.t) : Prop :=
  if Stagnation.is_stagnant a
  then (2 <= Stagnation.days_stagnant a)%Z /\
       List.length (Stagnation.possible_causes a) = 3 /\
       percent_total (Stagnation.possible_causes a) = 100%Z
  else Stagnation.days_stagnant a = 0%Z /\ Stagnation.possible_causes a = [].

(** The first cause given for a location. *)
Definition causes_at (location : pystr) : pystr * Z :=
  if Str.contains (u "허브") location || Str.contains (u "터미널") location
  then (u "물량 폭주로 인한 분류 지연", 60%Z)
  else if Str.contains (u "공항") location
  then (u "통관 지연", 70%Z)
  else (u "물량 폭주로 인한 지연", 50%Z).

(** The texts a pattern can match. *)
Fixpoint shape {U : Unicode} (r : Re.t) (g : pystr) : Prop :=
  match r with
  | Re.Lit c => g = [c]
  | Re.LitI c => exists x, g = [x] /\ cp_ieq c x = true
  | Re.OneOf items => exists x, g = [x] /\ Re.set_matches items x = true
  | Re.Rep lo hi items =>
      lo <= Str.len g /\
      match hi with Some h => Str.len g <= h | None => True end /\
      forallb (Re.set_matches items) g = true
  | Re.Opt r' => shape r' g \/ g = []
  | Re.Seq r1 r2 => exists g1 g2, g = g1 ++ g2 /\ shape r1 g1 /\ shape r2 g2
  | Re.Group r' => shape r' g
  | Re.WordB | Re.Eps => g = []
  end.

(** The group a pattern can leave, given the group before it. *)
Fixpoint captures {U : Unicode} (r : Re.t) (cap cap' : option pystr) : Prop :=
  match r with
  | Re.Group r' => exists g, cap' = Some g /\ shape r' g
  | Re.Seq r1 r2 => exists mid, captures r1 cap mid /\ captures r2 mid cap'
  | Re.Opt r' => captures r' cap cap' \/ cap' = cap
  | _ => cap' = cap
  end.

Fixpoint groupless (r : Re.t) : bool :=
  match r with
  | Re.Group _ => false
  | Re.Seq r1 r2 => groupless r1 && groupless r2
  | Re.Opt r' => groupless r'
  | _ => true
  end.

(** What every candidate of the extractor looks like: 10 to 15
    characters, each one of the digits 0-9 or of the class [\d]. *)
Definition digit_like {U : Unicode} (c : codepoint) : bool :=
  is_ascii_digit c || cp_isdecimal c.

Definition candidate_ok {U : Unicode} (s : pystr) : Prop :=
  10 <= Str.len s <= 15 /\ forallb digit_like s = true.

(** The confidence of a candidate, by the three tests it depends on. *)
Definition confidence_of (standard_length has_carrier labelled : bool)
  : float :=
  let confidence := 0.5%float in
  let confidence :=
    if standard_length then (confidence + 0.2)%float else confidence in
  let confidence :=
    if has_carrier then (confidence + 0.2)%float else confidence in
  let confidence :=
    if labelled then (confidence + 0.1)%float else confidence in
  min_one confidence.

(** A confidence between 0.5 and 1.0, the latter excluded. *)
Definition confidence_in_range (parsed : ParsedTracking.t) : Prop :=
  PrimFloat.leb 0.5 (ParsedTracking.confidence parsed) = true /\
  PrimFloat.ltb (ParsedTracking.confidence parsed) 1 = true.

(** More surroundings to run the program on: a client built without an
    API key, a host whose [strptime] reads every time as the origin of
    the time line, a service whose clock stands three days after it,
    and two carriers of the directory. *)
Module Sample.

Definition mock : Service :=
  {| mock_mode := true;
     answer := fun _ _ => Fails TimeoutException;
     clock := fun _ => 0%Z |}.

Definition calendar : Host :=
  {| exn_str := fun _ => [];
     str_hash := fun s => Z.of_nat (Str.len s);
     strftime_minutes := fun _ => [];
     strptime := fun _ _ => Some 0%Z |}.

Definition late : Service :=
  {| mock_mode := false;
     answer := fun _ _ => Fails TimeoutException;
     clock := fun _ => timedelta 3 0 |}.

Definition cj_entry : pystr * Carrier.t :=
  (u "04", Carrier.make (u "04") (u "CJ대한통운") (u "CJ Logistics")
     (u "1588-1255") (u "https://www.cjlogistics.com")
     (u "https://www.cjlogistics.com/ko/tool/parcel/tracking")).

Definition lotte : Carrier.t :=
  match get_carrier_by_code (u "08") with
  | Some carrier => carrier
  | None => snd cj_entry
  end.

End Sample.

(** * Properties *)

Unset Implicit Arguments.

Lemma plain_tables_laws : UnicodeLaws Plain.tables.
Proof. constructor; reflexivity. Qed.

(** ** Carrier detection *)

Lemma str_isdigit_ascii {U : Unicode} {L : UnicodeLaws U} (s : pystr) :
  ascii_digits s = true -> s <> [] -> str_isdigit s = true.
Proof.
  intros Hd Hne. unfold str_isdigit. destruct s as [|c s]; [congruence|].
  unfold ascii_digits in Hd. rewrite forallb_forall in *.
  intros x Hx. specialize (Hd x Hx).
  rewrite isdigit_plain; [exact Hd|].
  unfold plain, is_ascii, is_ascii_digit in *.
  apply andb_true_iff in Hd as [_ Hhi]. apply N.leb_le in Hhi.
  apply orb_true_iff; left. apply N.ltb_lt. lia.
Qed.

Lemma len_nonempty (s : pystr) (n : nat) : Str.len s = S n -> s <> [].
Proof. destruct s; simpl; congruence. Qed.

(** C1 (as amended).  For every string [s] of the digits 0-9:
    of length 12 and starting with '6', the code is "04" (CJ);
    of length 13 and starting with '6', the code is "04" as well, the
    first rule of the chain winning over the rule for 13 digits;
    of length 13 and not starting with '6', the code is "01" (Korea Post);
    of length 11, the code is "06" (Logen);
    of length 12 and not starting with '6', nothing is detected. *)
Theorem detect_carrier_from_tracking_rules
        {U : Unicode} {L : UnicodeLaws U} (s : pystr) :
  ascii_digits s = true ->
  (Str.len s = 12 -> Str.startswith (u "6") s = true ->
   detect_carrier_from_tracking s = Some (u "04")) /\
  (Str.len s = 13 -> Str.startswith (u "6") s = true ->
   detect_carrier_from_tracking s = Some (u "04")) /\
  (Str.len s = 13 -> Str.startswith (u "6") s = false ->
   detect_carrier_from_tracking s = Some (u "01")) /\
  (Str.len s = 11 ->
   detect_carrier_from_tracking s = Some (u "06")) /\
  (Str.len s = 12 -> Str.startswith (u "6") s = false ->
   detect_carrier_from_tracking s = None).
Proof.
  intros Hd. unfold detect_carrier_from_tracking.
  repeat split.
  - intros Hl H6. rewrite Hl, H6. reflexivity.
  - intros Hl H6. rewrite Hl, H6. reflexivity.
  - intros Hl H6. rewrite Hl, H6. simpl.
    rewrite (str_isdigit_ascii s Hd (len_nonempty s _ Hl)). reflexivity.
  - intros Hl. rewrite Hl. rewrite andb_false_r. simpl.
    rewrite (str_isdigit_ascii s Hd (len_nonempty s _ Hl)). reflexivity.
  - intros Hl H6. rewrite Hl, H6. reflexivity.
Qed.

Lemma detect_carrier_from_tracking_rules_witness :
  ascii_digits (u "640123456789") = true /\
  @detect_carrier_from_tracking Plain.tables (u "640123456789")
  = Some (u "04").
Proof.
  split; [reflexivity|].
  exact (proj1 (@detect_carrier_from_tracking_rules
                  Plain.tables plain_tables_laws (u "640123456789") eq_refl)
               eq_refl eq_refl).
Defined.

(** C1 as stated fails: this string of 13 digits is not given the code
    "01" of Korea Post; it starts with '6' and the first rule gives it
    "04". *)
Lemma detect_13_digits_not_always_korea_post :
  ascii_digits (u "6401234567890") = true /\
  Str.len (u "6401234567890") = 13 /\
  (forall U : Unicode,
      detect_carrier_from_tracking (u "6401234567890") = Some (u "04")) /\
  (forall U : Unicode,
      detect_carrier_from_tracking (u "6401234567890") <> Some (u "01")).
Proof.
  repeat split; try reflexivity.
  intros U. vm_compute. discriminate.
Qed.

(** ** Status classification *)

Ltac lower_plain_text :=
  unfold translate_status;
  rewrite lower_plain by reflexivity;
  vm_compute; repeat split; reflexivity.

(** C5.  [translate_status] gives "SM입고" the phase OUT_FOR_DELIVERY,
    not final, 6 hours; "배달완료" the phase DELIVERED, final, 0 hours;
    "반송" the phase ISSUE, final, no estimate. *)
Theorem translate_status_examples {U : Unicode} {L : UnicodeLaws U} :
  (let r := translate_status (u "SM입고") in
   TranslatedStatus.phase r = OUT_FOR_DELIVERY /\
   TranslatedStatus.is_final r = false /\
   TranslatedStatus.estimated_hours r = Some 6%Z) /\
  (let r := translate_status (u "배달완료") in
   TranslatedStatus.phase r = DELIVERED /\
   TranslatedStatus.is_final r = true /\
   TranslatedStatus.estimated_hours r = Some 0%Z) /\
  (let r := translate_status (u "반송") in
   TranslatedStatus.phase r = ISSUE /\
   TranslatedStatus.is_final r = true /\
   TranslatedStatus.estimated_hours r = None).
Proof.
  split; [|split]; lower_plain_text.
Qed.

Lemma translate_status_examples_witness :
  TranslatedStatus.phase (@translate_status Plain.tables (u "SM입고"))
  = OUT_FOR_DELIVERY.
Proof.
  apply (@translate_status_examples Plain.tables plain_tables_laws).
Defined.

(** C10.  "반송완료" has no entry of its own in the table; the scan over
    the table in definition order meets "완료" before "반송", so the
    status is classified DELIVERED, final, 0 hours, and not ISSUE. *)
Theorem translate_status_return_completed {U : Unicode} {L : UnicodeLaws U} :
  let status_lower := Str.remove_spaces (str_lower (u "반송완료")) in
  let r := translate_status (u "반송완료") in
  dict_get status_lower STATUS_TRANSLATIONS = None /\
  find (fun kv => Str.contains (fst kv) status_lower) STATUS_TRANSLATIONS
  = Some (u "완료", (u "배송이 완료되었어요!", u "완료", DELIVERED, u "✅",
                     true, Some 0%Z)) /\
  Str.contains (u "반송") status_lower = true /\
  TranslatedStatus.phase r = DELIVERED /\
  TranslatedStatus.is_final r = true /\
  TranslatedStatus.estimated_hours r = Some 0%Z.
Proof.
  cbv zeta. unfold translate_status.
  rewrite lower_plain by reflexivity.
  vm_compute. repeat split; reflexivity.
Qed.

Lemma translate_status_return_completed_witness :
  TranslatedStatus.phase (@translate_status Plain.tables (u "반송완료"))
  = DELIVERED.
Proof.
  apply (@translate_status_return_completed Plain.tables plain_tables_laws).
Defined.

(** ** The query orchestrator *)

Section Orchestrator.
Context {U : Unicode} {H : Host} {S : Service}.

(** Outside mock mode [track] sends one request and reads its answer. *)
Lemma track_live tn code w :
  mock_mode = false ->
  track tn code w
  = (outcome tn code (answer (World.sent w) (tn, code)),
     World.make (World.sent w ++ [(tn, code)]) (World.ticks w)).
Proof. intros Hm. unfold track. rewrite Hm. reflexivity. Qed.

Lemma res_map_entries entries :
  res_map event_of (map PDict entries) = Ok (map entry_event entries).
Proof.
  induction entries as [|e entries IH]; cbn [map res_map]; [reflexivity|].
  rewrite IH. reflexivity.
Qed.

Lemma last_map {A B : Type} (f : A -> B) l a b :
  l <> [] -> last (map f l) b = f (last l a).
Proof.
  induction l as [|x l IH]; intros Hne; [congruence|].
  destruct l as [|y l]; [reflexivity|].
  cbn [map last] in *. apply IH. discriminate.
Qed.

(** What [track] reads from a document that passes the error check and
    whose trackingDetails is a non-empty list of objects: everything
    hinges on the kind of the last entry. *)
Lemma read_payload_entries tn code name d entries :
  py_eq_str (get_or d (u "status") PNone) (u "false") = false ->
  dict_has (u "msg") d = false ->
  get_or d (u "trackingDetails") (PList []) = PList (map PDict entries) ->
  entries <> [] ->
  read_payload tn code name (PDict d)
  = match get_or (last entries []) (u "kind") (PStr []) with
    | PStr status =>
        Ok (TrackingResult.make true tn code name
              (get_or d (u "senderName") PNone)
              (get_or d (u "receiverName") PNone)
              (get_or d (u "itemName") PNone)
              (map entry_event entries) status
              (if py_eq_str (get_or d (u "completeYN") PNone) (u "Y")
               then true else looks_delivered (str_lower status))
              PNone)
    | kind => Raise (AttributeError kind (u "lower"))
    end.
Proof.
  intros Hst Hmsg Hdet Hne. unfold read_payload.
  rewrite Hst, Hmsg. cbn [orb]. rewrite Hdet. cbn [py_iter res_bind].
  rewrite res_map_entries. cbn [res_bind].
  destruct (map entry_event entries) as [|e es] eqn:Hev.
  { destruct entries; [congruence | discriminate]. }
  rewrite <- Hev. rewrite (last_map entry_event entries [] no_event Hne).
  cbn [entry_event TrackingEvent.status].
  destruct (get_or (last entries []) (u "kind") (PStr [])); reflexivity.
Qed.

(** The association matters: on this status the condition of the code
    holds, and the one with [or] grouped before [and] does not. *)
Remark looks_delivered_association :
  let s := u "배달완료 후 출발" in
  looks_delivered s = true /\
  (Str.contains (u "완료") s || Str.contains (u "배달") s)
  && negb (Str.contains (u "출발") s) = false.
Proof. split; reflexivity. Qed.

(** C2.  [track] (outside mock mode) on a document that passes the
    error check and whose trackingDetails is a non-empty list of
    objects.  When the kind of the last entry is a string, the result
    is a success with one event per entry, that string is the current
    status, and is_delivered is true exactly when completeYN is "Y", or
    the lowercased status contains "완료", or it contains "배달" and
    does not contain "출발" -- "완료" or ("배달" and not "출발"), in
    this association.  When the kind of the last entry is no string
    (a null, say), lowercasing it raises before completeYN is looked
    at: the result is a failure and is_delivered is false, whatever
    completeYN says. *)
Theorem track_is_delivered tn code w d entries :
  mock_mode = false ->
  answer (World.sent w) (tn, code) = Json (PDict d) ->
  py_eq_str (get_or d (u "status") PNone) (u "false") = false ->
  dict_has (u "msg") d = false ->
  get_or d (u "trackingDetails") (PList []) = PList (map PDict entries) ->
  entries <> [] ->
  let r := fst (track tn code w) in
  let kind := get_or (last entries []) (u "kind") (PStr []) in
  (forall status,
      kind = PStr status ->
      TrackingResult.success r = true /\
      TrackingResult.events r = map entry_event entries /\
      TrackingResult.current_status r = status /\
      TrackingResult.is_delivered r
      = (py_eq_str (get_or d (u "completeYN") PNone) (u "Y")
         || (Str.contains (u "완료") (str_lower status)
             || (Str.contains (u "배달") (str_lower status)
                 && negb (Str.contains (u "출발") (str_lower status)))))) /\
  ((forall status, kind <> PStr status) ->
   TrackingResult.success r = false /\
   TrackingResult.events r = [] /\
   TrackingResult.is_delivered r = false).
Proof.
  intros Hm Hans Hst Hmsg Hdet Hne. cbv zeta.
  rewrite (track_live tn code w Hm). cbn [fst].
  unfold outcome. rewrite Hans.
  rewrite (read_payload_entries tn code _ d entries Hst Hmsg Hdet Hne).
  split.
  - intros status ->.
    cbn [TrackingResult.success TrackingResult.events
         TrackingResult.current_status TrackingResult.is_delivered].
    split; [reflexivity|]. split; [reflexivity|]. split; [reflexivity|].
    unfold looks_delivered. destruct (py_eq_str _ _); reflexivity.
  - intros Hk.
    destruct (get_or (last entries []) (u "kind") (PStr [])) as [| | | |s| |];
      try (repeat split; reflexivity).
    now elim (Hk s).
Qed.

Lemma try_carriers_all_fail tn codes : forall w,
  mock_mode = false ->
  all_fail tn (World.sent w) codes ->
  try_carriers tn None codes w
  = (not_found tn,
     World.make (World.sent w ++ map (fun code => (tn, code)) codes)
                (World.ticks w)).
Proof.
  induction codes as [|code rest IH]; intros w Hm Hall.
  - cbn. rewrite app_nil_r. destruct w; reflexivity.
  - destruct Hall as [Hfail Hrest].
    cbn [try_carriers]. unfold bind. rewrite (track_live tn code w Hm).
    rewrite Hfail. rewrite IH by assumption.
    cbn. rewrite <- app_assoc. reflexivity.
Qed.

(** C3.  Outside mock mode, when nothing is detected from the number
    and the request for each of "04", "08", "05", "01", "06" fails,
    [track_auto_detect] returns a failure with the empty carrier code
    and the fixed message, and has sent exactly these five requests,
    one per carrier, in this order. *)
Theorem track_auto_detect_all_fail tn w :
  mock_mode = false ->
  detect_carrier_from_tracking tn = None ->
  all_fail tn (World.sent w) major_carriers ->
  let r := fst (track_auto_detect tn w) in
  let w' := snd (track_auto_detect tn w) in
  TrackingResult.success r = false /\
  TrackingResult.carrier_code r = u "" /\
  TrackingResult.events r = [] /\
  TrackingResult.error_message r
  = PStr (u "택배사를 찾을 수 없습니다. 택배사를 직접 지정해주세요.") /\
  World.sent w'
  = World.sent w ++ [(tn, u "04"); (tn, u "08"); (tn, u "05");
                     (tn, u "01"); (tn, u "06")].
Proof.
  intros Hm Hd Hall. unfold track_auto_detect. rewrite Hm, Hd. cbn [truthy].
  rewrite (try_carriers_all_fail tn major_carriers w Hm Hall).
  cbn. repeat split; reflexivity.
Qed.

(** *** The invariant of the results *)

Lemma handle_invariant tn code name e :
  result_invariant (handle tn code name e).
Proof.
  split; unfold handle, failed_result; cbn;
    [intros _; split; [reflexivity|discriminate] | congruence].
Qed.

Lemma read_payload_invariant tn code name data r :
  read_payload tn code name data = Ok r ->
  ~ null_msg (Json data) ->
  result_invariant r.
Proof.
  unfold read_payload. destruct data as [| | | | |l|d]; try discriminate.
  destruct (_ || _) eqn:Herr.
  - intros [= <-] Hnull. split; unfold failed_result; cbn -[u]; [|congruence].
    intros _. split; [reflexivity|]. unfold get_or.
    destruct (dict_get (u "msg") d) as [v|] eqn:Hmsg; [|discriminate].
    intros ->. apply Hnull. exists d. split; [reflexivity|exact Hmsg].
  - destruct (py_iter _) as [details|]; [|discriminate]. cbn [res_bind].
    destruct (res_map event_of details) as [events|]; [|discriminate].
    cbn [res_bind].
    destruct (match events with [] => _ | _ => _ end) as [[cs dl]|];
      [|discriminate].
    cbn [res_bind]. intros [= <-] _. split; cbn; [congruence|reflexivity].
Qed.

(** Whatever [track] is answered, short of a document with a null
    ["msg"], its result satisfies the invariant. *)
Lemma outcome_invariant tn code r :
  ~ null_msg r -> result_invariant (outcome tn code r).
Proof.
  intros Hnull. unfold outcome. destruct r as [e|data].
  - apply handle_invariant.
  - destruct (read_payload _ _ _ data) eqn:Hr.
    + eapply read_payload_invariant; eauto.
    + apply handle_invariant.
Qed.

Lemma mock_invariant tn code w :
  result_invariant (fst (_generate_mock_result tn code w)).
Proof.
  unfold _generate_mock_result, bind, datetime_now.
  destruct (nth _ (scenarios _) _) as [[ev cs] dl]. cbn.
  split; cbn; [congruence|reflexivity].
Qed.

Lemma track_invariant tn code w :
  (forall sent req, ~ null_msg (answer sent req)) ->
  result_invariant (fst (track tn code w)).
Proof.
  intros Hnull. unfold track. destruct mock_mode.
  - apply mock_invariant.
  - cbn. apply outcome_invariant, Hnull.
Qed.

Lemma not_found_invariant tn : result_invariant (not_found tn).
Proof.
  split; unfold not_found, failed_result; cbn -[u];
    [intros _; split; [reflexivity|discriminate] | congruence].
Qed.

Lemma try_carriers_invariant tn detected codes :
  (forall sent req, ~ null_msg (answer sent req)) ->
  forall w, result_invariant (fst (try_carriers tn detected codes w)).
Proof.
  intros Hnull. induction codes as [|code rest IH]; intros w.
  - apply not_found_invariant.
  - cbn [try_carriers]. destruct (match detected with Some _ => _ | None => _ end).
    + apply IH.
    + unfold bind. pose proof (track_invariant tn code w Hnull) as Ht.
      destruct (track tn code w) as [r w1]. cbn [fst] in Ht.
      destruct (TrackingResult.success r); [exact Ht | apply IH].
Qed.

Lemma track_auto_detect_invariant tn w :
  (forall sent req, ~ null_msg (answer sent req)) ->
  result_invariant (fst (track_auto_detect tn w)).
Proof.
  intros Hnull. unfold track_auto_detect. destruct mock_mode.
  - apply mock_invariant.
  - destruct (truthy _).
    + unfold bind.
      pose proof (track_invariant tn
                    (the_str (detect_carrier_from_tracking tn)) w Hnull) as Ht.
      destruct (track tn _ w) as [r w1]. cbn [fst] in Ht.
      destruct (TrackingResult.success r);
        [exact Ht | apply try_carriers_invariant, Hnull].
    + apply try_carriers_invariant, Hnull.
Qed.

(** C4 at the failing input.  A document whose ["msg"] is null makes
    [track] return a failure whose error_message is None: the default
    of [data.get("msg", ...)] applies to a missing key only. *)
Theorem track_null_msg_has_no_message tn code w :
  mock_mode = false ->
  answer (World.sent w) (tn, code) = Json (PDict [(u "msg", PNone)]) ->
  let r := fst (track tn code w) in
  TrackingResult.success r = false /\
  TrackingResult.error_message r = PNone /\
  ~ result_invariant r.
Proof.
  intros Hm Hans. rewrite (track_live tn code w Hm). cbn [fst].
  rewrite Hans. split; [reflexivity|]. split; [reflexivity|].
  intros [Hinv _]. destruct (Hinv eq_refl) as [_ Hmsg]. now apply Hmsg.
Qed.

End Orchestrator.

(** C2 at two documents.  In the first the last of two events decides:
    "배달출발" is not delivered although the event before it reads
    "배달완료".  The second is the failing input: completeYN is "Y" and
    the kind of the only event is null; [track] returns a failure that
    is not delivered. *)
Lemma track_is_delivered_witness :
  let moving :=
    PDict [(u "trackingDetails",
            PList [PDict [(u "kind", PStr (u "배달완료"))];
                   PDict [(u "kind", PStr (u "배달출발"))]])] in
  let flagged :=
    PDict [(u "completeYN", PStr (u "Y"));
           (u "trackingDetails", PList [PDict [(u "kind", PNone)]])] in
  TrackingResult.is_delivered
    (fst (@track Plain.tables Demo.host (Demo.serving moving)
            (u "640123456789") (u "04") Demo.idle)) = false /\
  (TrackingResult.success
     (fst (@track Plain.tables Demo.host (Demo.serving flagged)
             (u "640123456789") (u "04") Demo.idle)) = false /\
   TrackingResult.is_delivered
     (fst (@track Plain.tables Demo.host (Demo.serving flagged)
             (u "640123456789") (u "04") Demo.idle)) = false).
Proof.
  intros moving flagged. split.
  - assert (Hne : [[(u "kind", PStr (u "배달완료"))];
                   [(u "kind", PStr (u "배달출발"))]] <> [])
      by discriminate.
    destruct (@track_is_delivered Plain.tables Demo.host (Demo.serving moving)
                (u "640123456789") (u "04") Demo.idle
                [(u "trackingDetails",
                  PList [PDict [(u "kind", PStr (u "배달완료"))];
                         PDict [(u "kind", PStr (u "배달출발"))]])]
                [[(u "kind", PStr (u "배달완료"))];
                 [(u "kind", PStr (u "배달출발"))]]
                eq_refl eq_refl eq_refl eq_refl eq_refl Hne) as [Hstr _].
    destruct (Hstr (u "배달출발") eq_refl) as (_ & _ & _ & Hd).
    rewrite Hd. vm_compute. reflexivity.
  - assert (Hne : [[(u "kind", PNone)]] <> []) by discriminate.
    destruct (@track_is_delivered Plain.tables Demo.host (Demo.serving flagged)
                (u "640123456789") (u "04") Demo.idle
                [(u "completeYN", PStr (u "Y"));
                 (u "trackingDetails", PList [PDict [(u "kind", PNone)]])]
                [[(u "kind", PNone)]]
                eq_refl eq_refl eq_refl eq_refl eq_refl Hne) as [_ Hnon].
    assert (Hk : forall status,
               get_or (last [[(u "kind", PNone)]] []) (u "kind") (PStr [])
               <> PStr status) by (intros status; discriminate).
    destruct (Hnon Hk) as (Hs & _ & Hd). split; [exact Hs | exact Hd].
Defined.

Lemma track_auto_detect_all_fail_witness :
  World.sent
    (snd (@track_auto_detect Plain.tables Demo.host Demo.down
            (u "123456789012") Demo.idle))
  = [(u "123456789012", u "04"); (u "123456789012", u "08");
     (u "123456789012", u "05"); (u "123456789012", u "01");
     (u "123456789012", u "06")].
Proof.
  apply (@track_auto_detect_all_fail Plain.tables Demo.host Demo.down
           (u "123456789012") Demo.idle).
  - reflexivity.
  - reflexivity.
  - cbn. repeat split; reflexivity.
Defined.

Lemma track_null_msg_has_no_message_witness :
  TrackingResult.error_message
    (fst (@track Plain.tables Demo.host
            (Demo.serving (PDict [(u "msg", PNone)]))
            (u "640123456789") (u "04") Demo.idle)) = PNone.
Proof.
  apply (@track_null_msg_has_no_message Plain.tables Demo.host
           (Demo.serving (PDict [(u "msg", PNone)]))
           (u "640123456789") (u "04") Demo.idle);
    reflexivity.
Defined.

(** ** The bulk query *)

Section Bulk.
Context {U : Unicode} {H : Host} {S : Service}.

(** C8.  A request with more than ten numbers is answered with the
    fixed message and leaves the world as it was: nothing has been
    sent. *)
Theorem my_packages_cap tracking_numbers w :
  10 < List.length (parse_numbers tracking_numbers) ->
  my_packages tracking_numbers w
  = (Message (u "한 번에 최대 10개까지 조회할 수 있어요."), w).
Proof.
  intros Hlen. unfold my_packages.
  destruct tracking_numbers as [|c s].
  - cbn in Hlen. lia.
  - destruct (parse_numbers (c :: s)) as [|n ns] eqn:Hn.
    + cbn in Hlen. lia.
    + apply Nat.ltb_lt in Hlen. rewrite Hlen. reflexivity.
Qed.

End Bulk.

Lemma my_packages_cap_witness :
  List.length (@parse_numbers Plain.tables (u "1,2,3,4,5,6,7,8,9,10,11")) = 11
  /\ World.sent
       (snd (@my_packages Plain.tables Demo.host Demo.down
               (u "1,2,3,4,5,6,7,8,9,10,11") Demo.idle)) = [].
Proof.
  split; [reflexivity|].
  rewrite (@my_packages_cap Plain.tables Demo.host Demo.down
             (u "1,2,3,4,5,6,7,8,9,10,11") Demo.idle).
  - reflexivity.
  - vm_compute. lia.
Defined.

(** ** The stagnation analyzer *)

Section StagnationAnalyzer.
Context {H : Host} {S : Service}.

(** C9.  When the events are not empty and the time of the last one
    parses under none of the three formats, the assessment is: not
    stagnant, zero days, no causes (with the location of the last
    event), and the clock has not even been read. *)
Theorem analyze_stagnation_fails_open events carrier_code w :
  events <> [] ->
  (forall s, TrackingEvent.time (last events no_event) = PStr s ->
             forall fmt, In fmt time_formats -> strptime s fmt = None) ->
  _analyze_stagnation events carrier_code w
  = (Stagnation.make false 0
       (TrackingEvent.location (last events no_event)) [], w).
Proof.
  intros Hne Hparse. unfold _analyze_stagnation.
  destruct events as [|e es]; [congruence|].
  set (evs := e :: es) in *.
  destruct (TrackingEvent.time (last evs no_event)) eqn:Ht; try reflexivity.
  assert (Hnone : first_parse s time_formats = None).
  { specialize (Hparse s eq_refl). unfold time_formats in *.
    cbn [first_parse].
    rewrite !Hparse by (cbn; auto). reflexivity. }
  rewrite Hnone. reflexivity.
Qed.

End StagnationAnalyzer.

Lemma analyze_stagnation_fails_open_witness :
  let events :=
    [TrackingEvent.make (PStr (u "어제 오후")) (PStr (u "간선하차"))
                        (PStr (u "부산 허브")) PNone] in
  Stagnation.is_stagnant
    (fst (@_analyze_stagnation Demo.host Demo.down events (u "04") Demo.idle))
  = false.
Proof.
  intros events.
  rewrite (@analyze_stagnation_fails_open Demo.host Demo.down events
             (u "04") Demo.idle).
  - reflexivity.
  - discriminate.
  - intros s _ fmt _. reflexivity.
Defined.

(** ** The extractor on plain text

    On a text of the two blocks the matcher consults the tables at
    plain code points only, so the extractor computes what it computes
    with the tables of [Plain]. *)

Section PatternsOnPlainText.
Context {U : Unicode} {L : UnicodeLaws U}.

Lemma item_matches_plain i c :
  plain c = true ->
  @Re.item_matches U i c = @Re.item_matches Plain.tables i c.
Proof.
  intros Hc. destruct i; cbn; auto using isspace_plain, isword_plain, isdecimal_plain.
Qed.

Lemma set_matches_plain items c :
  plain c = true ->
  @Re.set_matches U items c = @Re.set_matches Plain.tables items c.
Proof.
  intros Hc. unfold Re.set_matches.
  induction items as [|i items IH]; cbn; [reflexivity|].
  now rewrite IH, item_matches_plain.
Qed.

Lemma at_boundary_plain p :
  plain_pos p = true ->
  @Re.at_boundary U p = @Re.at_boundary Plain.tables p.
Proof.
  destruct p as [prev s]. unfold plain_pos, Re.at_boundary. cbn [fst snd].
  intros Hp. apply andb_true_iff in Hp as [Hprev Hs]. f_equal.
  - destruct prev as [c|]; [|reflexivity]. now apply isword_plain.
  - destruct s as [|c s]; [reflexivity|]. cbn in Hs.
    apply andb_true_iff in Hs as [Hc _]. now apply isword_plain.
Qed.

Lemma plain_pos_step prev c s :
  plain_pos (prev, c :: s) = true -> plain_pos (Some c, s) = true.
Proof.
  unfold plain_pos. cbn. intros Hp.
  apply andb_true_iff in Hp as [_ Hs]. exact Hs.
Qed.

Lemma plain_pos_head prev c s :
  plain_pos (prev, c :: s) = true -> plain c = true.
Proof.
  intros Hp. apply plain_pos_step in Hp. unfold plain_pos in Hp. cbn in Hp.
  now apply andb_true_iff in Hp as [Hc _].
Qed.

Section Run.
Variable A : Type.

Lemma rep_plain items n : forall lo prev s cap (k k' : Re.cont A),
  plain_pos (prev, s) = true ->
  (forall p' cap', plain_pos p' = true -> k p' cap' = k' p' cap') ->
  @Re.rep U A items lo n prev s cap k
  = @Re.rep Plain.tables A items lo n prev s cap k'.
Proof.
  induction n as [|n IH]; intros lo prev s cap k0 k0' Hp Hk; cbn.
  - now rewrite Hk.
  - destruct s as [|c s]; [now rewrite Hk|].
    rewrite (set_matches_plain items _ (plain_pos_head _ _ _ Hp)).
    rewrite (IH (Nat.pred lo) (Some c) s cap k0 k0' (plain_pos_step _ _ _ Hp) Hk).
    now rewrite Hk.
Qed.

Lemma run_plain r : forall p cap (k k' : Re.cont A),
  plain_re r = true ->
  plain_pos p = true ->
  (forall p' cap', plain_pos p' = true -> k p' cap' = k' p' cap') ->
  @Re.run U A r p cap k = @Re.run Plain.tables A r p cap k'.
Proof.
  induction r as [c|c|items|lo hi items|r IH|r1 IH1 r2 IH2|r IH| |];
    intros [prev s] cap k0 k0' Hr Hp Hk; cbn [Re.run fst snd].
  - destruct s as [|x s]; [reflexivity|].
    destruct (N.eqb x c); [|reflexivity].
    apply Hk, (plain_pos_step _ _ _ Hp).
  - destruct s as [|x s]; [reflexivity|].
    rewrite (ieq_plain _ _ Hr (plain_pos_head _ _ _ Hp)).
    cbn. destruct (Plain.ieq c x); [|reflexivity].
    apply Hk, (plain_pos_step _ _ _ Hp).
  - destruct s as [|x s]; [reflexivity|].
    rewrite (set_matches_plain items _ (plain_pos_head _ _ _ Hp)).
    destruct (Re.set_matches items x); [|reflexivity].
    apply Hk, (plain_pos_step _ _ _ Hp).
  - now apply rep_plain.
  - rewrite (IH (prev, s) cap k0 k0' Hr Hp Hk). now rewrite Hk.
  - cbn in Hr. apply andb_true_iff in Hr as [Hr1 Hr2].
    apply IH1; [assumption|assumption|].
    intros p' cap' Hp'. now apply IH2.
  - apply IH; [assumption|assumption|].
    intros p' cap' Hp'. now apply Hk.
  - rewrite (at_boundary_plain _ Hp). now rewrite Hk.
  - now apply Hk.
Qed.
End Run.


Lemma match_at_plain r p :
  plain_re r = true -> plain_pos p = true ->
  @Re.match_at U r p = @Re.match_at Plain.tables r p.
Proof.
  intros Hr Hp. unfold Re.match_at. now apply run_plain.
Qed.

Lemma search_from_plain r s : forall prev,
  plain_re r = true -> plain_pos (prev, s) = true ->
  @Re.search_from U r prev s = @Re.search_from Plain.tables r prev s.
Proof.
  induction s as [|c s IH]; intros prev Hr Hp; cbn [Re.search_from];
    rewrite (match_at_plain r _ Hr Hp); [reflexivity|].
  now rewrite (IH (Some c) Hr (plain_pos_step _ _ _ Hp)).
Qed.

Lemma findall_from_plain r s : forall prev skip,
  plain_re r = true -> plain_pos (prev, s) = true ->
  @Re.findall_from U r prev s skip
  = @Re.findall_from Plain.tables r prev s skip.
Proof.
  induction s as [|c s IH]; intros prev skip Hr Hp; cbn [Re.findall_from];
    rewrite (match_at_plain r _ Hr Hp); [reflexivity|].
  now rewrite (IH (Some c) _ Hr (plain_pos_step _ _ _ Hp)).
Qed.

Lemma plain_pos_start text :
  plain_text text = true -> plain_pos (None, text) = true.
Proof. intros Ht. unfold plain_pos. cbn. exact Ht. Qed.

Lemma findall_plain r text :
  plain_re r = true -> plain_text text = true ->
  @Re.findall U r text = @Re.findall Plain.tables r text.
Proof.
  intros Hr Ht. apply findall_from_plain; [assumption|].
  now apply plain_pos_start.
Qed.

Lemma search_plain r text :
  plain_re r = true -> plain_text text = true ->
  @Re.search U r text = @Re.search Plain.tables r text.
Proof.
  intros Hr Ht. apply search_from_plain; [assumption|].
  now apply plain_pos_start.
Qed.

End PatternsOnPlainText.

(** What is matched in a plain text is plain, whatever the tables. *)
Section PlainMatches.
Context {V : Unicode}.

Lemma plain_text_firstn n s :
  plain_text s = true -> plain_text (firstn n s) = true.
Proof.
  unfold plain_text. revert s.
  induction n as [|n IH]; intros [|c s]; cbn; try reflexivity.
  intros Hs. apply andb_true_iff in Hs as [Hc Hs].
  rewrite Hc. cbn. now apply IH.
Qed.

Lemma plain_text_filter f s :
  plain_text s = true -> plain_text (filter f s) = true.
Proof.
  unfold plain_text. rewrite !forallb_forall. intros Hs x Hx.
  apply filter_In in Hx as [Hx _]. now apply Hs.
Qed.

Section Run.
Variable A : Type.
Variable P : A -> Prop.

Lemma rep_kept items n : forall lo prev s cap (k : Re.cont A) a,
  plain_pos (prev, s) = true ->
  (forall p', plain_pos p' = true -> k p' cap = Some a -> P a) ->
  Re.rep items lo n prev s cap k = Some a -> P a.
Proof.
  induction n as [|n IH]; intros lo prev s cap k a Hp Hk; cbn.
  - destruct (Nat.eqb lo 0); [now apply Hk | discriminate].
  - assert (Hstop :
              (if Nat.eqb lo 0 then k (prev, s) cap else None) = Some a -> P a).
    { destruct (Nat.eqb lo 0); [now apply Hk | discriminate]. }
    destruct s as [|c s]; [exact Hstop|].
    destruct (Re.set_matches items c); [|exact Hstop].
    destruct (Re.rep items (Nat.pred lo) n (Some c) s cap k) as [a'|] eqn:Hrep;
      [|exact Hstop].
    intros [= ->].
    exact (IH _ _ _ _ _ _ (plain_pos_step _ _ _ Hp) Hk Hrep).
Qed.

Lemma run_kept r : forall p cap (k : Re.cont A) a,
  plain_pos p = true -> plain_cap cap = true ->
  (forall p' cap', plain_pos p' = true -> plain_cap cap' = true ->
                   k p' cap' = Some a -> P a) ->
  Re.run r p cap k = Some a -> P a.
Proof.
  induction r as [c|c|items|lo hi items|r IH|r1 IH1 r2 IH2|r IH| |];
    intros [prev s] cap k a Hp Hc Hk; cbn [Re.run fst snd].
  - destruct s as [|x s]; [discriminate|].
    destruct (N.eqb x c); [|discriminate].
    apply Hk; [exact (plain_pos_step _ _ _ Hp) | exact Hc].
  - destruct s as [|x s]; [discriminate|].
    destruct (cp_ieq c x); [|discriminate].
    apply Hk; [exact (plain_pos_step _ _ _ Hp) | exact Hc].
  - destruct s as [|x s]; [discriminate|].
    destruct (Re.set_matches items x); [|discriminate].
    apply Hk; [exact (plain_pos_step _ _ _ Hp) | exact Hc].
  - apply rep_kept; [exact Hp|]. intros p' Hp'. now apply Hk.
  - destruct (Re.run r (prev, s) cap k) as [a'|] eqn:Hrun.
    + intros [= ->]. exact (IH _ _ _ _ Hp Hc Hk Hrun).
    + now apply Hk.
  - apply IH1; [exact Hp | exact Hc|].
    intros p' cap' Hp' Hc'. now apply IH2.
  - apply IH; [exact Hp | exact Hc|].
    intros p' cap' Hp' _. apply Hk; [exact Hp'|].
    cbn. apply plain_text_firstn.
    unfold plain_pos in Hp. cbn in Hp.
    now apply andb_true_iff in Hp as [_ Hs].
  - destruct (Re.at_boundary (prev, s)); [|discriminate]. now apply Hk.
  - now apply Hk.
Qed.
End Run.

Lemma match_at_kept r p p' g :
  plain_pos p = true -> Re.match_at r p = Some (p', g) ->
  plain_pos p' = true /\ plain_text g = true.
Proof.
  intros Hp. unfold Re.match_at.
  apply (run_kept _ (fun a => plain_pos (fst a) = true /\ plain_text (snd a) = true)
                  r p None _ (p', g) Hp eq_refl).
  intros q cap Hq Hc [= <- <-]. split; [exact Hq|].
  destruct cap; [exact Hc | reflexivity].
Qed.

Lemma search_from_kept r s : forall prev g,
  plain_pos (prev, s) = true -> Re.search_from r prev s = Some g ->
  plain_text g = true.
Proof.
  induction s as [|c s IH]; intros prev g Hp; cbn [Re.search_from].
  - destruct (Re.match_at _ _) as [[p' g']|] eqn:Hm;
      [|discriminate].
    intros [= ->]. exact (proj2 (match_at_kept _ _ _ _ Hp Hm)).
  - destruct (Re.match_at _ _) as [[p' g']|] eqn:Hm.
    + intros [= ->]. exact (proj2 (match_at_kept _ _ _ _ Hp Hm)).
    + apply IH. exact (plain_pos_step _ _ _ Hp).
Qed.

Lemma findall_from_kept r s : forall prev skip,
  plain_pos (prev, s) = true ->
  Forall (fun g => plain_text g = true) (Re.findall_from r prev s skip).
Proof.
  induction s as [|c s IH]; intros prev skip Hp; cbn [Re.findall_from].
  - rewrite app_nil_r.
    destruct skip; [|constructor].
    destruct (Re.match_at _ _) as [[p' g']|] eqn:Hm; [|constructor].
    constructor; [|constructor]. exact (proj2 (match_at_kept _ _ _ _ Hp Hm)).
  - apply Forall_app. split.
    + destruct skip; [|constructor].
      destruct (Re.match_at _ _) as [[p' g']|] eqn:Hm; [|constructor].
      constructor; [|constructor]. exact (proj2 (match_at_kept _ _ _ _ Hp Hm)).
    + apply IH. exact (plain_pos_step _ _ _ Hp).
Qed.

Lemma findall_kept r text :
  plain_text text = true ->
  Forall (fun g => plain_text g = true) (Re.findall r text).
Proof. intros Ht. apply findall_from_kept. exact Ht. Qed.

Lemma search_kept r text g :
  plain_text text = true -> Re.search r text = Some g -> plain_text g = true.
Proof. intros Ht. apply search_from_kept. exact Ht. Qed.

End PlainMatches.

Lemma fold_left_agree {A B : Type} (P : B -> Prop) (f g : A -> B -> A) l :
  Forall P l -> (forall a b, P b -> f a b = g a b) ->
  forall a, fold_left f l a = fold_left g l a.
Proof.
  intros Hl Hfg. induction Hl as [|b l Hb Hl IH]; intros a; cbn.
  - reflexivity.
  - rewrite (Hfg a b Hb). apply IH.
Qed.

Lemma fold_left_keeps {A B : Type} (P : B -> Prop) (Q : A -> Prop)
      (f : A -> B -> A) l :
  Forall P l -> (forall a b, Q a -> P b -> Q (f a b)) ->
  forall a, Q a -> Q (fold_left f l a).
Proof.
  intros Hl Hf. induction Hl as [|b l Hb Hl IH]; intros a Ha; cbn.
  - exact Ha.
  - apply IH. now apply Hf.
Qed.

Lemma forallb_agree {A : Type} (f g : A -> bool) l :
  (forall x, In x l -> f x = g x) -> forallb f l = forallb g l.
Proof.
  induction l as [|a l IH]; intros Hfg; cbn; [reflexivity|].
  rewrite (Hfg a (or_introl eq_refl)), IH; [reflexivity|].
  intros x Hx. apply Hfg. now right.
Qed.

Lemma all_plain_snoc l s :
  all_plain l -> plain_text s = true -> all_plain (l ++ [s]).
Proof.
  intros Hl Hs. apply Forall_app. split; [exact Hl|]. now constructor.
Qed.

Lemma plain_ascii_lower c : plain c = true -> plain (ascii_lower c) = true.
Proof.
  unfold ascii_lower, is_ascii_upper.
  destruct ((65 <=? c)%N && (c <=? 90)%N) eqn:Hup; [|trivial].
  intros _. apply andb_true_iff in Hup as [_ Hhi]. apply N.leb_le in Hhi.
  unfold plain, is_ascii. apply orb_true_iff. left. apply N.ltb_lt. lia.
Qed.

Lemma plain_text_lower s :
  plain_text s = true -> plain_text (Plain.lower s) = true.
Proof.
  unfold plain_text, Plain.lower. rewrite !forallb_forall.
  intros Hs x Hx. apply in_map_iff in Hx as (c & <- & Hc).
  apply plain_ascii_lower. now apply Hs.
Qed.

Section PlainCandidates.
Context {V : Unicode}.

Lemma normalize_kept m :
  plain_text m = true -> plain_text (normalize_tracking_number m) = true.
Proof. apply plain_text_filter. Qed.

Lemma explicit_pass_kept text candidates :
  plain_text text = true -> all_plain candidates ->
  all_plain (explicit_pass text candidates).
Proof.
  intros Ht. unfold explicit_pass.
  apply (fold_left_keeps (fun _ => True) all_plain).
  - apply Forall_forall. trivial.
  - intros cands pattern Hc _.
    apply (fold_left_keeps (fun m => plain_text m = true) all_plain);
      [now apply findall_kept | | exact Hc].
    intros a m Ha Hm. destruct (len_10_to_15 _); [|exact Ha].
    apply all_plain_snoc; [exact Ha|]. now apply normalize_kept.
Qed.

Lemma number_pass_kept text candidates :
  plain_text text = true -> all_plain candidates ->
  all_plain (number_pass text candidates).
Proof.
  intros Ht. unfold number_pass.
  apply (fold_left_keeps (fun m => plain_text m = true) all_plain);
    [now apply findall_kept|].
  intros a m Ha Hm. destruct (negb _); [|exact Ha].
  now apply all_plain_snoc.
Qed.

Lemma dash_pass_kept text candidates :
  plain_text text = true -> all_plain candidates ->
  all_plain (dash_pass text candidates).
Proof.
  intros Ht. unfold dash_pass.
  apply (fold_left_keeps (fun m => plain_text m = true) all_plain);
    [now apply findall_kept|].
  intros a m Ha Hm. destruct (_ && _); [|exact Ha].
  apply all_plain_snoc; [exact Ha|]. now apply normalize_kept.
Qed.

Lemma extract_tracking_numbers_kept text :
  plain_text text = true -> all_plain (extract_tracking_numbers text).
Proof.
  intros Ht. unfold extract_tracking_numbers.
  apply dash_pass_kept, number_pass_kept, explicit_pass_kept;
    try assumption. constructor.
Qed.

End PlainCandidates.

Section ParserOnPlainText.
Context {U : Unicode} {L : UnicodeLaws U}.

Lemma normalize_plain m :
  plain_text m = true ->
  @normalize_tracking_number U m = @normalize_tracking_number Plain.tables m.
Proof.
  intros Hm. unfold normalize_tracking_number, Re.delete_all.
  apply filter_ext_in. intros c Hc. f_equal.
  apply set_matches_plain.
  unfold plain_text in Hm. rewrite forallb_forall in Hm. now apply Hm.
Qed.

Lemma explicit_pass_plain text candidates :
  plain_text text = true ->
  @explicit_pass U text candidates
  = @explicit_pass Plain.tables text candidates.
Proof.
  intros Ht. unfold explicit_pass.
  apply (fold_left_agree (fun r => plain_re r = true)).
  - apply Forall_forall. apply forallb_forall. reflexivity.
  - intros cands pattern Hr.
    rewrite (findall_plain pattern text Hr Ht).
    apply (fold_left_agree (fun m => plain_text m = true));
      [now apply findall_kept|].
    intros a m Hm. now rewrite (normalize_plain m Hm).
Qed.

Lemma number_pass_plain text candidates :
  plain_text text = true ->
  @number_pass U text candidates = @number_pass Plain.tables text candidates.
Proof.
  intros Ht. unfold number_pass.
  now rewrite (findall_plain number_pattern text eq_refl Ht).
Qed.

Lemma dash_pass_plain text candidates :
  plain_text text = true ->
  @dash_pass U text candidates = @dash_pass Plain.tables text candidates.
Proof.
  intros Ht. unfold dash_pass.
  rewrite (findall_plain dash_pattern text eq_refl Ht).
  apply (fold_left_agree (fun m => plain_text m = true));
    [now apply findall_kept|].
  intros a m Hm. now rewrite (normalize_plain m Hm).
Qed.

(** On a plain text the candidates are those computed with the tables
    of [Plain]. *)
Lemma extract_tracking_numbers_plain text :
  plain_text text = true ->
  @extract_tracking_numbers U text
  = @extract_tracking_numbers Plain.tables text.
Proof.
  intros Ht. unfold extract_tracking_numbers.
  now rewrite explicit_pass_plain, number_pass_plain, dash_pass_plain.
Qed.

Lemma str_isdigit_plain s :
  plain_text s = true -> @str_isdigit U s = @str_isdigit Plain.tables s.
Proof.
  intros Hs. unfold str_isdigit. destruct s as [|c s]; [reflexivity|].
  apply forallb_agree. intros x Hx. apply isdigit_plain.
  unfold plain_text in Hs. rewrite forallb_forall in Hs. now apply Hs.
Qed.

Lemma detect_carrier_from_tracking_plain s :
  plain_text s = true ->
  @detect_carrier_from_tracking U s
  = @detect_carrier_from_tracking Plain.tables s.
Proof.
  intros Hs. unfold detect_carrier_from_tracking.
  now rewrite (str_isdigit_plain s Hs).
Qed.

Lemma get_carrier_by_name_plain name :
  plain_text name = true ->
  @get_carrier_by_name U name = @get_carrier_by_name Plain.tables name.
Proof.
  intros Hn. unfold get_carrier_by_name.
  now rewrite (lower_plain name Hn).
Qed.

Lemma first_known_mention_plain text patterns :
  plain_text text = true ->
  forallb plain_re patterns = true ->
  @first_known_mention U text patterns
  = @first_known_mention Plain.tables text patterns.
Proof.
  intros Ht. induction patterns as [|pattern rest IH]; intros Hp; cbn.
  - reflexivity.
  - cbn in Hp. apply andb_true_iff in Hp as [Hr Hrest].
    rewrite (search_plain pattern text Hr Ht), (IH Hrest).
    destruct (@Re.search Plain.tables pattern text) as [g|] eqn:Hg;
      [|reflexivity].
    now rewrite (lower_plain g (search_kept pattern text g Ht Hg)).
Qed.

Lemma extract_carrier_name_plain text :
  plain_text text = true ->
  @extract_carrier_name U text = @extract_carrier_name Plain.tables text.
Proof.
  intros Ht. unfold extract_carrier_name.
  rewrite (lower_plain text Ht).
  now rewrite (first_known_mention_plain text carrier_patterns Ht eq_refl).
Qed.

Lemma parse_round_plain text mentioned st tracking_num :
  plain_text tracking_num = true ->
  @parse_round U text mentioned st tracking_num
  = @parse_round Plain.tables text mentioned st tracking_num.
Proof.
  intros Hn. unfold parse_round.
  now rewrite (detect_carrier_from_tracking_plain tracking_num Hn).
Qed.

Lemma parse_rounds_plain text mentioned candidates :
  all_plain candidates ->
  forall st,
    @parse_rounds U text mentioned st candidates
    = @parse_rounds Plain.tables text mentioned st candidates.
Proof.
  intros Hc. induction Hc as [|n rest Hn Hrest IH]; intros st; cbn.
  - reflexivity.
  - rewrite (parse_round_plain text mentioned st n Hn).
    destruct (@parse_round Plain.tables text mentioned st n) as [st' parsed].
    now rewrite IH.
Qed.

End ParserOnPlainText.

Lemma first_known_mention_kept text patterns n :
  plain_text text = true ->
  @first_known_mention Plain.tables text patterns = Some n ->
  plain_text n = true.
Proof.
  intros Ht. induction patterns as [|pattern rest IH]; cbn; [discriminate|].
  destruct (@Re.search Plain.tables pattern text) as [g|] eqn:Hg; [|exact IH].
  destruct (dict_has _ _); [|exact IH].
  intros [= <-]. apply plain_text_filter, plain_text_lower.
  exact (search_kept pattern text g Ht Hg).
Qed.

Lemma extract_carrier_name_kept text n :
  plain_text text = true ->
  @extract_carrier_name Plain.tables text = Some n ->
  plain_text n = true.
Proof.
  intros Ht. unfold extract_carrier_name.
  destruct (find _ _) as [alias|] eqn:Hf.
  - intros [= <-]. apply find_some in Hf as [Hin _].
    assert (Hall : forallb plain_text (map fst CARRIER_ALIASES) = true)
      by reflexivity.
    rewrite forallb_forall in Hall. now apply Hall.
  - now apply first_known_mention_kept.
Qed.

(** On a plain text [parse_tracking_input] is what it is with the tables
    of [Plain]. *)
Lemma parse_tracking_input_plain {U : Unicode} {L : UnicodeLaws U} text :
  plain_text text = true ->
  @parse_tracking_input U text = @parse_tracking_input Plain.tables text.
Proof.
  intros Ht. unfold parse_tracking_input.
  rewrite (extract_carrier_name_plain text Ht).
  rewrite (extract_tracking_numbers_plain text Ht).
  rewrite (parse_rounds_plain text _ _ (extract_tracking_numbers_kept text Ht)).
  f_equal.
  destruct (@extract_carrier_name Plain.tables text) as [n|] eqn:Hn;
    [|reflexivity].
  cbn [the_str].
  now rewrite (get_carrier_by_name_plain n (extract_carrier_name_kept text n Ht Hn)).
Qed.


(** ** The candidates of the extractor *)

Lemma str_eqb_eq a b : Str.eqb a b = true <-> a = b.
Proof.
  unfold Str.eqb. destruct (list_eq_dec N.eq_dec a b); split; congruence.
Qed.

Lemma str_mem_false m l : Str.mem m l = false -> ~ In m l.
Proof.
  unfold Str.mem. intros Hm Hin.
  assert (Ht : existsb (Str.eqb m) l = true).
  { apply existsb_exists. exists m. split; [exact Hin|]. now apply str_eqb_eq. }
  congruence.
Qed.

Lemma NoDup_snoc (m : pystr) l : NoDup l -> ~ In m l -> NoDup (l ++ [m]).
Proof.
  intros Hl Hm. apply NoDup_app; [exact Hl | repeat constructor; intros [] |].
  intros x Hx [<-|[]]. now apply Hm.
Qed.

Section Passes.
Context {U : Unicode}.

(** The second and the third pass test membership before they append:
    they add no duplicate to a list that has none. *)
Lemma number_pass_NoDup text candidates :
  NoDup candidates -> NoDup (number_pass text candidates).
Proof.
  unfold number_pass.
  apply (fold_left_keeps (fun _ => True) (@NoDup pystr)).
  - apply Forall_forall. trivial.
  - intros a m Ha _. destruct (Str.mem m a) eqn:Hm; cbn; [exact Ha|].
    apply NoDup_snoc; [exact Ha|]. now apply str_mem_false.
Qed.

Lemma dash_pass_NoDup text candidates :
  NoDup candidates -> NoDup (dash_pass text candidates).
Proof.
  unfold dash_pass.
  apply (fold_left_keeps (fun _ => True) (@NoDup pystr)).
  - apply Forall_forall. trivial.
  - intros a m Ha _.
    destruct (Str.mem (normalize_tracking_number m) a) eqn:Hm; cbn;
      [exact Ha|].
    destruct (len_10_to_15 _); [|exact Ha].
    apply NoDup_snoc; [exact Ha|]. now apply str_mem_false.
Qed.

End Passes.

(** C6 at the failing input.  The label "운송장" contains the label
    "송장": the first two patterns of the explicit-label pass both match
    the text, and the pass appends the number twice, having no
    membership test. *)
Theorem extract_tracking_numbers_repeats {U : Unicode} {L : UnicodeLaws U} :
  let text := u "운송장번호: 640123456789" in
  explicit_pass text [] = [u "640123456789"; u "640123456789"] /\
  extract_tracking_numbers text = [u "640123456789"; u "640123456789"] /\
  ~ NoDup (extract_tracking_numbers text).
Proof.
  cbv zeta.
  rewrite extract_tracking_numbers_plain, explicit_pass_plain by reflexivity.
  split; [reflexivity|]. split; [reflexivity|].
  intros Hnd. vm_compute in Hnd.
  inversion Hnd as [|x l Hx _]. apply Hx. now left.
Qed.

Lemma extract_tracking_numbers_repeats_witness :
  @extract_tracking_numbers Plain.tables (u "운송장번호: 640123456789")
  = [u "640123456789"; u "640123456789"].
Proof.
  apply (@extract_tracking_numbers_repeats Plain.tables plain_tables_laws).
Defined.

(** C7 at the failing inputs.  No carrier is mentioned in either text.
    In the first, nothing is detected from the second number, and it is
    attributed to the carrier "04" detected from the first number.  In
    the second, "01" is detected from the second number, and it is
    attributed to "04" all the same: the variable the loop assigns
    outlives the round. *)
Theorem parse_tracking_input_carrier_sticks {U : Unicode} {L : UnicodeLaws U} :
  let attribution p :=
    (ParsedTracking.tracking_number p, ParsedTracking.carrier_code p,
     ParsedTracking.carrier_name p) in
  (extract_carrier_name (u "640123456789 123456789012") = None /\
   detect_carrier_from_tracking (u "123456789012") = None /\
   map attribution (parse_tracking_input (u "640123456789 123456789012"))
   = [(u "640123456789", Some (u "04"), Some (u "CJ대한통운"));
      (u "123456789012", Some (u "04"), Some (u "CJ대한통운"))]) /\
  (extract_carrier_name (u "640123456789, 1234567890123") = None /\
   detect_carrier_from_tracking (u "1234567890123") = Some (u "01") /\
   map attribution (parse_tracking_input (u "640123456789, 1234567890123"))
   = [(u "640123456789", Some (u "04"), Some (u "CJ대한통운"));
      (u "1234567890123", Some (u "04"), Some (u "CJ대한통운"))]).
Proof.
  cbv zeta. split; (split; [|split]).
  - rewrite extract_carrier_name_plain by reflexivity. reflexivity.
  - rewrite detect_carrier_from_tracking_plain by reflexivity. reflexivity.
  - rewrite parse_tracking_input_plain by reflexivity. reflexivity.
  - rewrite extract_carrier_name_plain by reflexivity. reflexivity.
  - rewrite detect_carrier_from_tracking_plain by reflexivity. reflexivity.
  - rewrite parse_tracking_input_plain by reflexivity. reflexivity.
Qed.

Lemma parse_tracking_input_carrier_sticks_witness :
  map ParsedTracking.carrier_code
      (@parse_tracking_input Plain.tables (u "640123456789 123456789012"))
  = [Some (u "04"); Some (u "04")].
Proof.
  destruct (@parse_tracking_input_carrier_sticks Plain.tables plain_tables_laws)
    as [(_ & _ & Hfirst) _].
  apply (f_equal (map (fun t => snd (fst t)))) in Hfirst.
  rewrite map_map in Hfirst. exact Hfirst.
Defined.

(** * Further properties *)

(** ** The carrier directory *)

Lemma dict_get_In {V : Type} k (d : list (pystr * V)) v :
  dict_get k d = Some v -> In (k, v) d.
Proof.
  induction d as [|[k' v'] d IH]; cbn; [discriminate|].
  destruct (Str.eqb k k') eqn:Hk.
  - intros [= ->]. apply str_eqb_eq in Hk as ->. now left.
  - intros Hd. right. now apply IH.
Qed.

(** The key under which the directory holds a carrier is its code. *)
Lemma get_carrier_by_code_key code carrier :
  get_carrier_by_code code = Some carrier -> Carrier.code carrier = code.
Proof.
  unfold get_carrier_by_code. intros Hd. apply dict_get_In in Hd.
  assert (Hall : forallb (fun kv => Str.eqb (Carrier.code (snd kv)) (fst kv))
                         CARRIERS = true) by (vm_compute; reflexivity).
  rewrite forallb_forall in Hall. specialize (Hall _ Hd).
  now apply str_eqb_eq in Hall.
Qed.

(** X30.  [get_all_carriers] and [get_carrier_by_code] agree: a carrier
    is listed exactly when looking its own code up returns it.  The
    keys of the directory are the codes of its carriers, and no code
    occurs twice. *)
Theorem get_all_carriers_by_code carrier :
  In carrier get_all_carriers
  <-> get_carrier_by_code (Carrier.code carrier) = Some carrier.
Proof.
  split.
  - unfold get_all_carriers. intros Hin. vm_compute in Hin.
    repeat (destruct Hin as [<-|Hin]; [vm_compute; reflexivity|]).
    destruct Hin.
  - unfold get_carrier_by_code, get_all_carriers. intros Hd.
    apply dict_get_In in Hd. apply in_map_iff.
    exists (Carrier.code carrier, carrier). now split.
Qed.

(** A detected code is one of the five major carriers, and only a
    number of 11 to 13 characters has one. *)
Lemma detected_code_major {U : Unicode} (s c : pystr) :
  detect_carrier_from_tracking s = Some c ->
  11 <= Str.len s <= 13 /\ In c major_carriers.
Proof.
  unfold detect_carrier_from_tracking.
  destruct (Str.startswith (u "6") s && _) eqn:H6.
  - intros [= <-]. apply andb_true_iff in H6 as [_ Hl].
    apply orb_true_iff in Hl as [Hl|Hl]; apply Nat.eqb_eq in Hl; rewrite Hl;
      (split; [lia | cbn; auto]).
  - destruct (Nat.eqb (Str.len s) 13 && _) eqn:H13.
    + intros [= <-]. apply andb_true_iff in H13 as [Hl _].
      apply Nat.eqb_eq in Hl; rewrite Hl. split; [lia | cbn; auto 6].
    + destruct (Nat.eqb (Str.len s) 11 && _) eqn:H11; [|discriminate].
      intros [= <-]. apply andb_true_iff in H11 as [Hl _].
      apply Nat.eqb_eq in Hl; rewrite Hl. split; [lia | cbn; auto 6].
Qed.

Lemma detected_code_truthy {U : Unicode} (s c : pystr) :
  detect_carrier_from_tracking s = Some c -> truthy (Some c) = true.
Proof.
  intros Hd. destruct (detected_code_major s c Hd) as [_ Hin].
  cbn in Hin. destruct Hin as [<-|[<-|[<-|[<-|[<-|[]]]]]]; reflexivity.
Qed.

(** X1.  Whatever [detect_carrier_from_tracking] detects is usable: the
    number has 11 to 13 characters, the code is one of the five major
    carriers [track_auto_detect] tries, and [get_carrier_by_code] finds
    a carrier with that code. *)
Theorem detect_carrier_from_tracking_known {U : Unicode} (s c : pystr) :
  detect_carrier_from_tracking s = Some c ->
  11 <= Str.len s <= 13 /\
  In c major_carriers /\
  exists carrier,
    get_carrier_by_code c = Some carrier /\ Carrier.code carrier = c.
Proof.
  intros Hd. destruct (detected_code_major s c Hd) as [Hlen Hin].
  split; [exact Hlen|]. split; [exact Hin|].
  cbn in Hin.
  destruct Hin as [<-|[<-|[<-|[<-|[<-|[]]]]]];
    eexists; split; vm_compute; reflexivity.
Qed.

Lemma detect_carrier_from_tracking_known_witness :
  11 <= Str.len (u "640123456789") <= 13 /\
  In (u "04") major_carriers /\
  exists carrier,
    get_carrier_by_code (u "04") = Some carrier /\
    Carrier.code carrier = u "04".
Proof.
  assert (Hd : @detect_carrier_from_tracking Plain.tables (u "640123456789")
               = Some (u "04")) by (vm_compute; reflexivity).
  exact (@detect_carrier_from_tracking_known Plain.tables
           (u "640123456789") (u "04") Hd).
Defined.

(** X2.  [get_carrier_by_name] finds a carrier of the directory by its
    own display name, with two exceptions: the name of "46" (CU) is no
    alias, and the name of "22" is an alias of "04". *)
Theorem get_carrier_by_name_of_name {U : Unicode} {L : UnicodeLaws U} entry :
  In entry CARRIERS -> known_by_name entry.
Proof.
  intros Hin. unfold known_by_name, get_carrier_by_name.
  vm_compute in Hin.
  repeat (destruct Hin as [<-|Hin];
          [rewrite lower_plain by (vm_compute; reflexivity);
           vm_compute; reflexivity|]).
  destruct Hin.
Qed.

Lemma get_carrier_by_name_of_name_witness :
  In Sample.cj_entry CARRIERS /\ @known_by_name Plain.tables Sample.cj_entry.
Proof.
  assert (Hin : In Sample.cj_entry CARRIERS) by (left; reflexivity).
  exact (conj Hin (@get_carrier_by_name_of_name Plain.tables plain_tables_laws
                     Sample.cj_entry Hin)).
Defined.

(** X3.  Every alias of [CARRIER_ALIASES] resolves: [get_carrier_by_name]
    returns a carrier, its code is the one the alias maps to, and it is
    the carrier [get_carrier_by_code] returns for that code. *)
Theorem aliases_resolve {U : Unicode} {L : UnicodeLaws U} alias code :
  In (alias, code) CARRIER_ALIASES ->
  exists carrier,
    get_carrier_by_name alias = Some carrier /\
    Carrier.code carrier = code /\
    get_carrier_by_code code = Some carrier.
Proof.
  intros Hin. unfold get_carrier_by_name. vm_compute in Hin.
  repeat (destruct Hin as [[= <- <-]|Hin];
          [rewrite lower_plain by (vm_compute; reflexivity);
           eexists; repeat split; vm_compute; reflexivity|]).
  destruct Hin.
Qed.

Lemma aliases_resolve_witness :
  exists carrier,
    @get_carrier_by_name Plain.tables (u "cj대한통운") = Some carrier /\
    Carrier.code carrier = u "04" /\
    get_carrier_by_code (u "04") = Some carrier.
Proof.
  assert (Hin : In (u "cj대한통운", u "04") CARRIER_ALIASES)
    by (left; reflexivity).
  exact (@aliases_resolve Plain.tables plain_tables_laws
           (u "cj대한통운") (u "04") Hin).
Defined.

(** ** The status classifier *)

Lemma startswith_iff p s :
  Str.startswith p s = true <-> exists post, s = p ++ post.
Proof.
  revert s. induction p as [|a p IH]; intros s; cbn.
  - split; [intros _; now exists s | reflexivity].
  - destruct s as [|b s]; cbn.
    + split; [discriminate | intros [post Hp]; discriminate].
    + rewrite andb_true_iff, N.eqb_eq, IH. split.
      * intros [-> [post ->]]. now exists post.
      * intros [post [= -> ->]]. split; [reflexivity | now exists post].
Qed.

Lemma contains_iff p s :
  Str.contains p s = true <-> exists pre post, s = pre ++ p ++ post.
Proof.
  induction s as [|c s IH]; cbn.
  - rewrite orb_false_r, startswith_iff. split.
    + intros [post Hp]. now exists [], post.
    + intros (pre & post & Hs). destruct pre; cbn in Hs.
      * now exists post.
      * discriminate.
  - rewrite orb_true_iff, startswith_iff, IH. split.
    + intros [[post Hp]|(pre & post & ->)].
      * now exists [], post.
      * now exists (c :: pre), post.
    + intros ([|c' pre] & post & Hs); cbn in Hs.
      * left. now exists post.
      * right. injection Hs as -> ->. now exists pre, post.
Qed.

Lemma contains_refl p : Str.contains p p = true.
Proof. apply contains_iff. exists [], []. now rewrite app_nil_r. Qed.

Lemma contains_trans a b s :
  Str.contains a b = true -> Str.contains b s = true ->
  Str.contains a s = true.
Proof.
  rewrite !contains_iff. intros (p1 & q1 & ->) (p2 & q2 & ->).
  exists (p2 ++ p1), (q1 ++ q2). now rewrite <- !app_assoc.
Qed.

Lemma find_before {A : Type} (f : A -> bool) l1 x l2 :
  f x = true ->
  exists y, find f (l1 ++ x :: l2) = Some y /\ In y (l1 ++ [x]).
Proof.
  intros Hx. induction l1 as [|a l1 IH]; cbn.
  - rewrite Hx. exists x. split; [reflexivity | now left].
  - destruct (f a).
    + exists a. split; [reflexivity | now left].
    + destruct IH as (y & Hy & Hin). exists y. split; [exact Hy | now right].
Qed.

Section Classifier.
Context {U : Unicode}.

(** A status is classified by an entry of the table whose key it
    contains, or by one of the two fallbacks. *)
Lemma translate_status_cases raw :
  let status_lower := Str.remove_spaces (str_lower raw) in
  let r := translate_status raw in
  (exists k e, In (k, e) STATUS_TRANSLATIONS /\
               Str.contains k status_lower = true /\ r = of_entry raw e)
  \/ (find (fun kv => Str.contains (fst kv) status_lower)
           STATUS_TRANSLATIONS = None /\
      TranslatedStatus.phase r = IN_TRANSIT /\
      TranslatedStatus.is_final r = false /\
      (TranslatedStatus.estimated_hours r = Some 24%Z
       \/ TranslatedStatus.estimated_hours r = None)).
Proof.
  cbv zeta. unfold translate_status.
  set (status_lower := Str.remove_spaces (str_lower raw)).
  destruct (dict_get status_lower STATUS_TRANSLATIONS) as [e|] eqn:Hd.
  - left. exists status_lower, e. split; [now apply dict_get_In|].
    split; [apply contains_refl | reflexivity].
  - destruct (find _ STATUS_TRANSLATIONS) as [[k e]|] eqn:Hf.
    + left. exists k, e. apply find_some in Hf as [Hin Hc].
      repeat split; assumption.
    + right. split; [reflexivity|].
      destruct (_ || _); cbn; auto.
Qed.

(** X4.  Whatever the raw status, the classification of
    [translate_status] is consistent: it keeps the raw text; a delivered
    status is final with zero hours left; a final status is delivered
    or an issue and has zero or no hours left; the hours left, when
    given, lie between 0 and 72. *)
Theorem translate_status_sound raw :
  let r := translate_status raw in
  TranslatedStatus.original r = raw /\
  (TranslatedStatus.phase r = DELIVERED ->
   TranslatedStatus.is_final r = true /\
   TranslatedStatus.estimated_hours r = Some 0%Z) /\
  (TranslatedStatus.is_final r = true ->
   (TranslatedStatus.phase r = DELIVERED \/ TranslatedStatus.phase r = ISSUE) /\
   (TranslatedStatus.estimated_hours r = Some 0%Z \/
    TranslatedStatus.estimated_hours r = None)) /\
  (forall h, TranslatedStatus.estimated_hours r = Some h -> (0 <= h <= 72)%Z).
Proof.
  cbv zeta.
  assert (Hs : status_sound (translate_status raw) = true
               /\ TranslatedStatus.original (translate_status raw) = raw).
  { destruct (translate_status_cases raw)
      as [(k & e & Hin & _ & ->)|(_ & Hp & Hf & He)].
    - assert (Hall : forallb (fun kv => entry_sound (snd kv))
                             STATUS_TRANSLATIONS = true)
        by (vm_compute; reflexivity).
      rewrite forallb_forall in Hall. specialize (Hall _ Hin). cbn in Hall.
      destruct e as [[[[[t s] p] em] f] est]. split; [exact Hall | reflexivity].
    - split.
      + unfold status_sound, entry_sound. rewrite Hp, Hf.
        destruct He as [-> | ->]; reflexivity.
      + unfold translate_status.
        destruct (dict_get _ _) as [e|];
          [destruct e as [[[[[t s] p] em] f] est]; reflexivity|].
        destruct (find _ _) as [[k e]|];
          [destruct e as [[[[[t s] p] em] f] est]; reflexivity|].
        destruct (_ || _); reflexivity. }
  destruct Hs as [Hs Ho]. split; [exact Ho|].
  unfold status_sound, entry_sound in Hs.
  destruct (TranslatedStatus.phase _), (TranslatedStatus.is_final _),
    (TranslatedStatus.estimated_hours _) as [[|h|h]|];
    cbn in Hs; try discriminate Hs.
  all: repeat match goal with
              | |- _ /\ _ => split
              | |- forall _, _ => intro
              | E : Some _ = Some _ |- _ => injection E as <-
              end;
    try congruence; auto;
    try (rewrite ?andb_true_iff, ?Z.leb_le in Hs; lia).
Qed.

(** X5.  The entry "sm입고" (out for delivery) is reached by an exact
    match only.  A status that merely contains "sm입고" is classified by
    an entry defined before it, "입고" among them, and comes out as
    picked up or in transit and not final. *)
Theorem translate_status_sm_shadowed raw :
  let status_lower := Str.remove_spaces (str_lower raw) in
  let r := translate_status raw in
  dict_get status_lower STATUS_TRANSLATIONS = None ->
  Str.contains (u "sm입고") status_lower = true ->
  (TranslatedStatus.phase r = PICKUP \/ TranslatedStatus.phase r = IN_TRANSIT)
  /\ TranslatedStatus.is_final r = false.
Proof.
  cbv zeta. intros Hd Hc. unfold translate_status. rewrite Hd.
  set (status_lower := Str.remove_spaces (str_lower raw)) in *.
  set (f := fun kv : pystr * status_entry =>
              Str.contains (fst kv) status_lower).
  set (none := (@nil codepoint,
                (@nil codepoint, @nil codepoint, PICKUP, @nil codepoint,
                 false, @None Z))).
  assert (Hsplit : STATUS_TRANSLATIONS
                   = firstn 10 STATUS_TRANSLATIONS
                     ++ nth 10 STATUS_TRANSLATIONS none
                     :: skipn 11 STATUS_TRANSLATIONS)
    by (vm_compute; reflexivity).
  assert (Hx : f (nth 10 STATUS_TRANSLATIONS none) = true).
  { unfold f. apply (contains_trans _ (u "sm입고"));
      [vm_compute; reflexivity | exact Hc]. }
  destruct (find_before f (firstn 10 STATUS_TRANSLATIONS) _
              (skipn 11 STATUS_TRANSLATIONS) Hx) as (y & Hy & Hin).
  rewrite <- Hsplit in Hy. rewrite Hy.
  assert (Hall : forallb (fun kv : pystr * status_entry =>
                            let '(_, _, phase, _, is_final, _) := snd kv in
                            match phase with
                            | PICKUP | IN_TRANSIT => negb is_final
                            | _ => false
                            end)
                         (firstn 10 STATUS_TRANSLATIONS
                          ++ [nth 10 STATUS_TRANSLATIONS none])
                 = true) by (vm_compute; reflexivity).
  rewrite forallb_forall in Hall. specialize (Hall y Hin).
  destruct y as [k [[[[[t s] p] em] fin] est]].
  cbn [snd] in Hall.
  cbn [of_entry TranslatedStatus.phase TranslatedStatus.is_final].
  destruct p, fin; try discriminate Hall; auto.
Qed.

(** X6.  A status that contains no key of the table is taken to be in
    transit and not final, shortened to its first six characters; it
    gets 24 hours exactly when it contains "도착".  (The alternative
    "완료" of the fallback is never the reason: "완료" is a key.) *)
Theorem translate_status_unknown raw :
  let status_lower := Str.remove_spaces (str_lower raw) in
  let r := translate_status raw in
  find (fun kv => Str.contains (fst kv) status_lower) STATUS_TRANSLATIONS
  = None ->
  TranslatedStatus.phase r = IN_TRANSIT /\
  TranslatedStatus.is_final r = false /\
  TranslatedStatus.estimated_hours r
  = (if Str.contains (u "도착") status_lower then Some 24%Z else None) /\
  TranslatedStatus.short r = firstn 6 raw.
Proof.
  cbv zeta. intros Hf. unfold translate_status.
  set (status_lower := Str.remove_spaces (str_lower raw)) in *.
  destruct (dict_get status_lower STATUS_TRANSLATIONS) as [e|] eqn:Hd.
  { apply dict_get_In in Hd.
    pose proof (find_none _ _ Hf _ Hd) as Hn. cbn in Hn.
    now rewrite contains_refl in Hn. }
  rewrite Hf.
  assert (Hdone : Str.contains (u "완료") status_lower = false).
  { assert (Hin : In (u "완료", (u "배송이 완료되었어요!", u "완료", DELIVERED,
                                 u "✅", true, Some 0%Z)) STATUS_TRANSLATIONS)
      by (vm_compute; auto 40).
    exact (find_none _ _ Hf _ Hin). }
  rewrite Hdone. cbn [orb].
  destruct (Str.contains (u "도착") status_lower);
    cbn [TranslatedStatus.phase TranslatedStatus.is_final
         TranslatedStatus.estimated_hours TranslatedStatus.short].
  - repeat split; reflexivity.
  - repeat split; try reflexivity.
    unfold Str.len. destruct (Nat.ltb 6 (List.length raw)) eqn:Hl;
      [reflexivity|].
    apply Nat.ltb_ge in Hl. symmetry. now apply firstn_all2.
Qed.

End Classifier.

Lemma translate_status_sm_shadowed_witness :
  TranslatedStatus.phase (@translate_status Plain.tables (u "SM입고 완료"))
  = IN_TRANSIT.
Proof.
  assert (Hd : dict_get (Str.remove_spaces
                           (@str_lower Plain.tables (u "SM입고 완료")))
                        STATUS_TRANSLATIONS = None)
    by (vm_compute; reflexivity).
  assert (Hc : Str.contains (u "sm입고")
                 (Str.remove_spaces
                    (@str_lower Plain.tables (u "SM입고 완료"))) = true)
    by (vm_compute; reflexivity).
  destruct (@translate_status_sm_shadowed Plain.tables (u "SM입고 완료") Hd Hc)
    as [[Hp|Hp] _]; [|exact Hp].
  vm_compute in Hp. discriminate Hp.
Defined.

Lemma translate_status_unknown_witness :
  TranslatedStatus.estimated_hours
    (@translate_status Plain.tables (u "내일 도착 예정")) = Some 24%Z.
Proof.
  assert (Hf : find (fun kv : pystr * status_entry =>
                       Str.contains (fst kv)
                         (Str.remove_spaces
                            (@str_lower Plain.tables (u "내일 도착 예정"))))
                    STATUS_TRANSLATIONS = None)
    by (vm_compute; reflexivity).
  destruct (@translate_status_unknown Plain.tables (u "내일 도착 예정") Hf)
    as (_ & _ & He & _).
  rewrite He. vm_compute. reflexivity.
Defined.

(** ** The order in which carriers are asked *)

Section Cascade.
Context {U : Unicode} {H : Host} {S : Service}.

Lemma requests_after tn (sent : list request) code codes :
  (sent ++ [(tn, code)]) ++ requests_for tn codes
  = sent ++ requests_for tn (code :: codes).
Proof. unfold requests_for. cbn [map]. now rewrite <- app_assoc. Qed.

Lemma cascade_cons tn sent code codes r sent' :
  TrackingResult.success (outcome tn code (answer sent (tn, code))) = false ->
  cascade tn (sent ++ [(tn, code)]) codes r sent' ->
  cascade tn sent (code :: codes) r sent'.
Proof.
  intros Hfail
         [(before & c & after & Hc & Hall & Hr & Hs & Hsent)
         |(Hall & Hr & Hsent)];
    rewrite requests_after in *.
  - left. exists (code :: before), c, after.
    split; [now rewrite Hc|]. split; [split; assumption|].
    repeat split; assumption.
  - right. split; [split; assumption|]. split; assumption.
Qed.

Lemma cascade_first tn sent code codes :
  TrackingResult.success (outcome tn code (answer sent (tn, code))) = true ->
  cascade tn sent (code :: codes)
          (outcome tn code (answer sent (tn, code)))
          (sent ++ [(tn, code)]).
Proof.
  intros Hs. left. exists [], code, codes. cbn.
  rewrite app_nil_r. repeat split; auto.
Qed.

Lemma try_carriers_cascade tn detected codes : forall w,
  mock_mode = false ->
  cascade tn (World.sent w)
          (filter (fun code => negb (skipped detected code)) codes)
          (fst (try_carriers tn detected codes w))
          (World.sent (snd (try_carriers tn detected codes w)))
  /\ World.ticks (snd (try_carriers tn detected codes w)) = World.ticks w.
Proof.
  induction codes as [|code rest IH]; intros w Hm.
  - cbn. split; [|reflexivity]. right. cbn.
    rewrite app_nil_r. repeat split; reflexivity.
  - cbn [try_carriers filter]. fold (skipped detected code).
    destruct (skipped detected code); cbn [negb].
    + apply IH, Hm.
    + unfold bind. rewrite (track_live tn code w Hm).
      destruct (TrackingResult.success
                  (outcome tn code (answer (World.sent w) (tn, code))))
        eqn:Hs.
      * cbn. split; [|reflexivity]. now apply cascade_first.
      * specialize (IH (World.make (World.sent w ++ [(tn, code)])
                                   (World.ticks w)) Hm).
        cbn [World.sent World.ticks] in IH. destruct IH as [IH Ht].
        split; [|exact Ht]. now apply cascade_cons.
Qed.

Lemma auto_detect_cascade tn w :
  mock_mode = false ->
  cascade tn (World.sent w) (attempts tn)
          (fst (track_auto_detect tn w))
          (World.sent (snd (track_auto_detect tn w)))
  /\ World.ticks (snd (track_auto_detect tn w)) = World.ticks w.
Proof.
  intros Hm. unfold track_auto_detect, attempts. rewrite Hm.
  set (detected := detect_carrier_from_tracking tn).
  destruct (truthy detected) eqn:Ht.
  - unfold bind. rewrite (track_live tn (the_str detected) w Hm).
    destruct (TrackingResult.success
                (outcome tn (the_str detected)
                         (answer (World.sent w) (tn, the_str detected))))
      eqn:Hs.
    + cbn [fst snd World.sent World.ticks app].
      split; [now apply cascade_first | reflexivity].
    + cbn [app].
      destruct (try_carriers_cascade tn detected major_carriers
                  (World.make (World.sent w ++ [(tn, the_str detected)])
                              (World.ticks w)) Hm) as [Hc Hticks].
      cbn [World.sent World.ticks] in Hc, Hticks.
      split; [now apply cascade_cons | exact Hticks].
  - cbn [app].
    exact (try_carriers_cascade tn detected major_carriers w Hm).
Qed.

(** Five carriers are there to ask, each one once. *)
Lemma attempts_five tn : List.length (attempts tn) = 5 /\ NoDup (attempts tn).
Proof.
  unfold attempts.
  destruct (detect_carrier_from_tracking tn) as [c|] eqn:Hd.
  - destruct (detected_code_major tn c Hd) as (_ & Hin).
    cbn in Hin.
    destruct Hin as [<-|[<-|[<-|[<-|[<-|[]]]]]]; vm_compute;
      (split; [reflexivity|]);
      repeat (constructor; [cbn; intuition discriminate|]); constructor.
  - vm_compute. split; [reflexivity|].
    repeat (constructor; [cbn; intuition discriminate|]); constructor.
Qed.

(** X7.  Outside mock mode [track_auto_detect] has five distinct
    carriers to ask, in this order: the detected code first, then 04,
    08, 05, 01, 06 without the detected one.  It returns the answer of
    the first carrier that succeeds and sends nothing after it; when
    every carrier fails it has asked them all and returns the not-found
    result.  The clock is not read. *)
Theorem track_auto_detect_cascade tn w :
  mock_mode = false ->
  List.length (attempts tn) = 5 /\ NoDup (attempts tn) /\
  cascade tn (World.sent w) (attempts tn)
          (fst (track_auto_detect tn w))
          (World.sent (snd (track_auto_detect tn w))) /\
  World.ticks (snd (track_auto_detect tn w)) = World.ticks w.
Proof.
  intros Hm.
  destruct (attempts_five tn) as [Hlen Hnd].
  destruct (auto_detect_cascade tn w Hm) as [Hc Hticks].
  repeat split; assumption.
Qed.

(** X8.  Outside mock mode one call of [track_auto_detect] sends at
    least one and at most five requests, all for the given number and
    no two for the same carrier. *)
Theorem track_auto_detect_requests tn w :
  mock_mode = false ->
  exists codes,
    World.sent (snd (track_auto_detect tn w))
    = World.sent w ++ requests_for tn codes /\
    1 <= List.length codes <= 5 /\ NoDup codes.
Proof.
  intros Hm. destruct (attempts_five tn) as [Hlen Hnd].
  destruct (proj1 (auto_detect_cascade tn w Hm))
    as [(before & c & after & Hc & _ & _ & _ & Hsent)|(_ & _ & Hsent)].
  - exists (before ++ [c]). split; [exact Hsent|].
    rewrite Hc in Hlen, Hnd. rewrite length_app in *. cbn in *.
    split; [lia|].
    apply NoDup_remove_1 in Hnd as Hnd1.
    apply NoDup_remove_2 in Hnd.
    apply NoDup_app; [| repeat constructor; intros [] |].
    + apply NoDup_app_remove_r in Hnd1. exact Hnd1.
    + intros x Hx [<-|[]]. apply Hnd. apply in_or_app. now left.
  - exists (attempts tn). split; [exact Hsent|]. split; [lia | exact Hnd].
Qed.

(** X9.  Outside mock mode a failure of [track_auto_detect] is always
    the not-found result, never the failure of one carrier: every one
    of the five carriers was asked and each request failed. *)
Theorem track_auto_detect_failure tn w :
  mock_mode = false ->
  TrackingResult.success (fst (track_auto_detect tn w)) = false ->
  fst (track_auto_detect tn w) = not_found tn /\
  all_fail tn (World.sent w) (attempts tn) /\
  World.sent (snd (track_auto_detect tn w))
  = World.sent w ++ requests_for tn (attempts tn).
Proof.
  intros Hm Hf.
  destruct (proj1 (auto_detect_cascade tn w Hm))
    as [(before & c & after & _ & _ & Hr & Hs & _)|(Hall & Hr & Hsent)].
  - congruence.
  - auto.
Qed.

(** X10.  When the detected carrier answers with a success,
    [track_auto_detect] returns that answer after a single request. *)
Theorem track_auto_detect_first_guess tn w code :
  mock_mode = false ->
  detect_carrier_from_tracking tn = Some code ->
  TrackingResult.success (outcome tn code (answer (World.sent w) (tn, code)))
  = true ->
  track_auto_detect tn w
  = (outcome tn code (answer (World.sent w) (tn, code)),
     World.make (World.sent w ++ [(tn, code)]) (World.ticks w)).
Proof.
  intros Hm Hd Hs.
  pose proof (detected_code_truthy tn code Hd) as Ht.
  unfold track_auto_detect. rewrite Hm, Hd, Ht. cbn [the_str].
  unfold bind. rewrite (track_live tn code w Hm), Hs. reflexivity.
Qed.

(** The mock result: a success with events whose last status is the
    current status, made without a request. *)
Lemma mock_result_shape tn code w :
  let r := fst (_generate_mock_result tn code w) in
  let w' := snd (_generate_mock_result tn code w) in
  World.sent w' = World.sent w /\
  TrackingResult.success r = true /\
  TrackingResult.tracking_number r = tn /\
  TrackingResult.carrier_code r = code /\
  TrackingResult.events r <> [] /\
  TrackingEvent.status (last (TrackingResult.events r) no_event)
  = PStr (TrackingResult.current_status r) /\
  TrackingResult.error_message r = PNone.
Proof.
  cbv zeta. unfold _generate_mock_result, bind, datetime_now, ret.
  cbn [fst snd World.sent World.ticks].
  assert (Hidx : (0 <= str_hash tn mod 4 < 4)%Z)
    by (apply Z.mod_pos_bound; lia).
  set (i := (str_hash tn mod 4)%Z) in *.
  assert (Hi : i = 0%Z \/ i = 1%Z \/ i = 2%Z \/ i = 3%Z) by lia.
  destruct Hi as [-> | [-> | [-> | ->]]];
    simpl (Z.to_nat _); unfold scenarios; cbn [nth];
    cbn [fst snd World.sent TrackingResult.success
         TrackingResult.tracking_number TrackingResult.carrier_code
         TrackingResult.events TrackingResult.current_status
         TrackingResult.error_message last mock_event TrackingEvent.status];
    repeat split; try reflexivity; intros Hev; discriminate Hev.
Qed.

(** X11.  In mock mode [track_auto_detect] sends no request and always
    succeeds: the result has events, its current status is the status
    of the last event, and its carrier is the detected one, "04" when
    none is detected. *)
Theorem mock_mode_sends_nothing tn w :
  mock_mode = true ->
  let r := fst (track_auto_detect tn w) in
  let w' := snd (track_auto_detect tn w) in
  World.sent w' = World.sent w /\
  TrackingResult.success r = true /\
  TrackingResult.events r <> [] /\
  TrackingEvent.status (last (TrackingResult.events r) no_event)
  = PStr (TrackingResult.current_status r) /\
  TrackingResult.carrier_code r
  = match detect_carrier_from_tracking tn with
    | Some code => code
    | None => u "04"
    end.
Proof.
  intros Hm. cbv zeta. unfold track_auto_detect. rewrite Hm.
  set (code := if truthy _ then _ else _).
  destruct (mock_result_shape tn code w) as (Hs & Hok & _ & Hc & He & Hl & _).
  repeat split; try assumption.
  rewrite Hc. unfold code.
  destruct (detect_carrier_from_tracking tn) as [c|] eqn:Hd; [|reflexivity].
  now rewrite (detected_code_truthy tn c Hd).
Qed.

(** X12.  Whatever the service answers, in mock mode or not, the result
    of [track] names the number and the carrier code it was asked for,
    and the carrier name that belongs to the code. *)
Theorem track_echoes tn code w :
  let r := fst (track tn code w) in
  TrackingResult.tracking_number r = tn /\
  TrackingResult.carrier_code r = code /\
  TrackingResult.carrier_name r = carrier_name_of code.
Proof.
  cbv zeta. unfold track. destruct mock_mode.
  - unfold _generate_mock_result, bind, datetime_now, ret. cbn [fst].
    destruct (nth _ (scenarios _) _) as [[ev cs] dl]. cbn. auto.
  - unfold bind, http_get, ret. cbn [fst].
    unfold outcome. destruct (answer _ _) as [e|data].
    + cbn. auto.
    + destruct (read_payload tn code (carrier_name_of code) data)
        as [r|e] eqn:Hr; [|cbn; auto].
      unfold read_payload in Hr.
      destruct data as [| | | | |l|d]; try discriminate.
      destruct (_ || _); [injection Hr as <-; cbn; auto|].
      destruct (py_iter _) as [details|]; [|discriminate].
      cbn [res_bind] in Hr.
      destruct (res_map event_of details) as [events|]; [|discriminate].
      cbn [res_bind] in Hr.
      destruct (match events with [] => _ | _ => _ end) as [[cs dl]|];
        [|discriminate].
      cbn [res_bind] in Hr. injection Hr as <-. cbn. auto.
Qed.

(** X13.  A document without the key "trackingDetails" (and without the
    error marks) is a success without events: the current status is
    "정보 없음", and the parcel counts as delivered exactly when
    "completeYN" is "Y". *)
Theorem outcome_without_details tn code d :
  py_eq_str (get_or d (u "status") PNone) (u "false") = false ->
  dict_has (u "msg") d = false ->
  dict_get (u "trackingDetails") d = None ->
  outcome tn code (Json (PDict d))
  = TrackingResult.make true tn code (carrier_name_of code)
      (get_or d (u "senderName") PNone)
      (get_or d (u "receiverName") PNone)
      (get_or d (u "itemName") PNone)
      [] (u "정보 없음")
      (py_eq_str (get_or d (u "completeYN") PNone) (u "Y"))
      PNone.
Proof.
  intros Hst Hmsg Hdet. unfold outcome, read_payload.
  rewrite Hst, Hmsg. cbn [orb]. unfold get_or at 1. rewrite Hdet.
  cbn [py_iter res_bind res_map].
  destruct (py_eq_str (get_or d (u "completeYN") PNone) (u "Y")); reflexivity.
Qed.

(** A request with no detected carrier starts with "04". *)
Lemma auto_detect_first_request tn w :
  mock_mode = false ->
  detect_carrier_from_tracking tn = None ->
  exists rest,
    World.sent (snd (track_auto_detect tn w))
    = World.sent w ++ (tn, u "04") :: rest.
Proof.
  intros Hm Hd.
  assert (Ha : attempts tn = major_carriers).
  { unfold attempts. rewrite Hd. reflexivity. }
  destruct (proj1 (auto_detect_cascade tn w Hm))
    as [(before & c & after & Hc & _ & _ & _ & Hsent)|(_ & _ & Hsent)];
    rewrite Hsent.
  - rewrite Ha in Hc. destruct before as [|b before].
    + injection Hc as <- _. now exists [].
    + injection Hc as <- _. now eexists.
  - rewrite Ha. now eexists.
Qed.

(** In any mode a call adds at most five requests, all for its number. *)
Lemma track_auto_detect_grows tn w :
  exists codes,
    World.sent (snd (track_auto_detect tn w))
    = World.sent w ++ requests_for tn codes /\
    List.length codes <= 5.
Proof.
  destruct mock_mode eqn:Hm.
  - exists []. cbn [requests_for map]. rewrite app_nil_r. split; [|cbn; lia].
    unfold track_auto_detect. rewrite Hm.
    exact (proj1 (mock_result_shape tn _ w)).
  - destruct (attempts_five tn) as [Hlen _].
    destruct (proj1 (auto_detect_cascade tn w Hm))
      as [(before & c & after & Hc & _ & _ & _ & Hsent)|(_ & _ & Hsent)];
      eexists; (split; [exact Hsent|]).
    + rewrite Hc in Hlen. rewrite length_app in *. cbn in *. lia.
    + lia.
Qed.

End Cascade.

Lemma track_auto_detect_cascade_witness :
  @cascade Plain.tables Demo.host Demo.down
    (u "123456789012") (World.sent Demo.idle)
    (@attempts Plain.tables (u "123456789012"))
    (fst (@track_auto_detect Plain.tables Demo.host Demo.down
            (u "123456789012") Demo.idle))
    (World.sent
       (snd (@track_auto_detect Plain.tables Demo.host Demo.down
               (u "123456789012") Demo.idle))).
Proof.
  destruct (@track_auto_detect_cascade Plain.tables Demo.host Demo.down
              (u "123456789012") Demo.idle eq_refl) as (_ & _ & Hc & _).
  exact Hc.
Defined.

Lemma track_auto_detect_requests_witness :
  exists codes,
    World.sent
      (snd (@track_auto_detect Plain.tables Demo.host Demo.down
              (u "123456789012") Demo.idle))
    = World.sent Demo.idle ++ requests_for (u "123456789012") codes /\
    1 <= List.length codes <= 5 /\ NoDup codes.
Proof.
  exact (@track_auto_detect_requests Plain.tables Demo.host Demo.down
           (u "123456789012") Demo.idle eq_refl).
Defined.

Lemma track_auto_detect_failure_witness :
  fst (@track_auto_detect Plain.tables Demo.host Demo.down
         (u "123456789012") Demo.idle)
  = not_found (u "123456789012").
Proof.
  assert (Hf : TrackingResult.success
                 (fst (@track_auto_detect Plain.tables Demo.host Demo.down
                         (u "123456789012") Demo.idle)) = false)
    by (vm_compute; reflexivity).
  destruct (@track_auto_detect_failure Plain.tables Demo.host Demo.down
              (u "123456789012") Demo.idle eq_refl Hf) as (Hr & _).
  exact Hr.
Defined.

Lemma track_auto_detect_first_guess_witness :
  World.sent
    (snd (@track_auto_detect Plain.tables Demo.host (Demo.serving (PDict []))
            (u "640123456789") Demo.idle))
  = [(u "640123456789", u "04")].
Proof.
  assert (Hd : @detect_carrier_from_tracking Plain.tables (u "640123456789")
               = Some (u "04")) by (vm_compute; reflexivity).
  assert (Hs : TrackingResult.success
                 (@outcome Plain.tables Demo.host
                    (u "640123456789") (u "04")
                    (@answer (Demo.serving (PDict []))
                       (World.sent Demo.idle)
                       (u "640123456789", u "04"))) = true)
    by (vm_compute; reflexivity).
  rewrite (@track_auto_detect_first_guess Plain.tables Demo.host
             (Demo.serving (PDict [])) (u "640123456789") Demo.idle
             (u "04") eq_refl Hd Hs).
  reflexivity.
Defined.

Lemma mock_mode_sends_nothing_witness :
  World.sent
    (snd (@track_auto_detect Plain.tables Demo.host Sample.mock
            (u "640123456789") Demo.idle)) = [].
Proof.
  destruct (@mock_mode_sends_nothing Plain.tables Demo.host Sample.mock
              (u "640123456789") Demo.idle eq_refl) as (Hs & _).
  exact Hs.
Defined.

Lemma outcome_without_details_witness :
  TrackingResult.is_delivered
    (@outcome Plain.tables Demo.host (u "640123456789") (u "04")
       (Json (PDict [(u "completeYN", PStr (u "Y"))]))) = true.
Proof.
  rewrite (@outcome_without_details Plain.tables Demo.host
             (u "640123456789") (u "04") [(u "completeYN", PStr (u "Y"))]);
    vm_compute; reflexivity.
Defined.

(** ** The bulk query, row by row *)

Section BulkRows.
Context {U : Unicode} {H : Host} {S : Service}.

Lemma track_all_cons num rest w :
  track_all (num :: rest) w
  = let '(result, w1) := track_auto_detect num w in
    let '(rows, w2) := track_all rest w1 in
    ((num, result,
      if TrackingResult.success result
      then Some (translate_status (TrackingResult.current_status result))
      else None) :: rows, w2).
Proof.
  cbn [track_all]. unfold bind, ret.
  destruct (track_auto_detect num w) as [result w1].
  destruct (track_all rest w1) as [rows w2]. reflexivity.
Qed.

Lemma requests_for_length tn codes :
  List.length (requests_for tn codes) = List.length codes.
Proof. unfold requests_for. apply length_map. Qed.

Lemma groups_length numbers groups :
  Forall2 requests_of_number numbers groups ->
  List.length (List.concat groups) <= 5 * List.length numbers.
Proof.
  induction 1 as [|num group numbers groups (codes & -> & Hc) _ IH];
    cbn [List.concat List.length]; [lia|].
  rewrite length_app, requests_for_length. lia.
Qed.

Lemma track_all_rows numbers : forall w,
  let rows := fst (track_all numbers w) in
  let w' := snd (track_all numbers w) in
  map row_number rows = numbers /\
  Forall row_sound rows /\
  exists groups,
    World.sent w' = World.sent w ++ List.concat groups /\
    Forall2 requests_of_number numbers groups.
Proof.
  induction numbers as [|num rest IH]; intros w; cbv zeta.
  - cbn. repeat split; [constructor|]. exists []. cbn [List.concat].
    rewrite app_nil_r. split; [reflexivity | constructor].
  - rewrite track_all_cons.
    destruct (track_auto_detect_grows num w) as (codes & Hs1 & Hl1).
    destruct (track_auto_detect num w) as [result w1]. cbn [snd] in Hs1.
    specialize (IH w1). cbv zeta in IH.
    destruct (track_all rest w1) as [rows w2]. cbn [fst snd] in IH |- *.
    destruct IH as (Hnum & Hrows & groups & Hs2 & Hg).
    cbn [fst snd map].
    split; [unfold row_number at 1; cbn [fst]; now rewrite Hnum|]. split.
    + constructor; [|exact Hrows]. cbn.
      destruct (TrackingResult.success result); reflexivity.
    + exists (requests_for num codes :: groups). cbn [List.concat].
      rewrite Hs2, Hs1, app_assoc. split; [reflexivity|].
      constructor; [|exact Hg]. exists codes. now split.
Qed.

Lemma split_on_absent sep s :
  ~ In sep s -> split_on sep s = [s].
Proof.
  induction s as [|c s IH]; intros Hin; cbn [split_on]; [reflexivity|].
  destruct (N.eqb c sep) eqn:Hc.
  - apply N.eqb_eq in Hc. exfalso. apply Hin. now left.
  - rewrite IH; [reflexivity|]. intros Hs. apply Hin. now right.
Qed.

(** X14.  For one to ten numbers [my_packages] renders one row per
    number, in the order given; the status of a row is the translation
    of the result's current status when the result is a success and
    [None] otherwise.  The requests it sends come in one group per
    number, in the same order, each group holding at most five requests
    and all of them for that number: at most five times as many
    requests as numbers, fifty in all. *)
Theorem my_packages_summary tracking_numbers w :
  1 <= List.length (parse_numbers tracking_numbers) <= 10 ->
  exists rows groups,
    fst (my_packages tracking_numbers w) = Summary rows /\
    map row_number rows = parse_numbers tracking_numbers /\
    Forall row_sound rows /\
    World.sent (snd (my_packages tracking_numbers w))
    = World.sent w ++ List.concat groups /\
    Forall2 requests_of_number (parse_numbers tracking_numbers) groups /\
    List.length (List.concat groups)
    <= 5 * List.length (parse_numbers tracking_numbers) /\
    List.length (List.concat groups) <= 50.
Proof.
  intros Hlen. unfold my_packages.
  destruct tracking_numbers as [|c s]; [cbn in Hlen; lia|].
  destruct (parse_numbers (c :: s)) as [|n ns] eqn:Hn; [cbn in Hlen; lia|].
  assert (Hcap : Nat.ltb 10 (List.length (n :: ns)) = false)
    by (apply Nat.ltb_ge; lia).
  rewrite Hcap. unfold bind, ret.
  pose proof (track_all_rows (n :: ns) w) as Hrows. cbv zeta in Hrows.
  destruct (track_all (n :: ns) w) as [rows w']. cbn [fst snd] in *.
  destruct Hrows as (Hnum & Hsound & groups & Hs & Hg).
  pose proof (groups_length _ _ Hg) as Hl.
  exists rows, groups. repeat split; try assumption. lia.
Qed.

(** X15.  When no number is left after parsing, [my_packages] answers
    with a fixed message and sends nothing: one message for the empty
    input, another for an input of commas and blanks only. *)
Theorem my_packages_nothing_to_track tracking_numbers w :
  parse_numbers tracking_numbers = [] ->
  my_packages tracking_numbers w
  = (Message (match tracking_numbers with
              | [] => u "운송장 번호를 입력해주세요. (쉼표로 구분)"
              | _ => u "유효한 운송장 번호를 찾을 수 없어요."
              end), w).
Proof.
  intros Hn. unfold my_packages.
  destruct tracking_numbers as [|c s]; [reflexivity|].
  now rewrite Hn.
Qed.

(** X16.  The pieces of the input are tested before they are
    normalized.  A piece that is not blank but consists of separators
    only passes the test and becomes the empty number: [my_packages]
    renders a row for it and, outside mock mode, asks carrier "04" for
    the empty number first. *)
Theorem my_packages_blank_number piece w :
  mock_mode = false ->
  ~ In (ch ",") piece ->
  strip piece <> [] ->
  normalize_tracking_number (strip piece) = [] ->
  exists result status_info rest,
    fst (my_packages piece w) = Summary [([], result, status_info)] /\
    World.sent (snd (my_packages piece w))
    = World.sent w ++ ([], u "04") :: rest.
Proof.
  intros Hm Hcomma Hstrip Hnorm.
  assert (Hnum : parse_numbers piece = [[]]).
  { unfold parse_numbers. rewrite (split_on_absent _ _ Hcomma).
    cbn [filter]. destruct (strip piece) eqn:Hs; [congruence|].
    cbn [map]. rewrite Hs. now rewrite Hnorm. }
  unfold my_packages.
  destruct piece as [|c s]; [now cbn in Hstrip|].
  rewrite Hnum. cbn [List.length Nat.ltb Nat.leb].
  unfold bind, ret. rewrite track_all_cons.
  destruct (auto_detect_first_request [] w Hm eq_refl) as (rest & Hsent).
  destruct (track_auto_detect [] w) as [result w1]. cbn [snd] in Hsent.
  cbn [track_all ret fst snd].
  eexists _, _, rest. split; [reflexivity | exact Hsent].
Qed.

End BulkRows.

Lemma my_packages_summary_witness :
  exists rows groups,
    fst (@my_packages Plain.tables Demo.host Demo.down
           (u "640123456789, 1234567890123") Demo.idle) = Summary rows /\
    map row_number rows
    = @parse_numbers Plain.tables (u "640123456789, 1234567890123") /\
    Forall (@row_sound Plain.tables) rows /\
    World.sent
      (snd (@my_packages Plain.tables Demo.host Demo.down
              (u "640123456789, 1234567890123") Demo.idle))
    = World.sent Demo.idle ++ List.concat groups /\
    Forall2 requests_of_number
            (@parse_numbers Plain.tables (u "640123456789, 1234567890123"))
            groups /\
    List.length (List.concat groups)
    <= 5 * List.length
             (@parse_numbers Plain.tables (u "640123456789, 1234567890123")) /\
    List.length (List.concat groups) <= 50.
Proof.
  apply (@my_packages_summary Plain.tables Demo.host Demo.down
           (u "640123456789, 1234567890123") Demo.idle).
  vm_compute. lia.
Defined.

Lemma my_packages_nothing_to_track_witness :
  fst (@my_packages Plain.tables Demo.host Demo.down (u ", ,") Demo.idle)
  = Message (u "유효한 운송장 번호를 찾을 수 없어요.").
Proof.
  assert (Hn : @parse_numbers Plain.tables (u ", ,") = [])
    by (vm_compute; reflexivity).
  rewrite (@my_packages_nothing_to_track Plain.tables Demo.host Demo.down
             (u ", ,") Demo.idle Hn).
  reflexivity.
Defined.

Lemma my_packages_blank_number_witness :
  exists result status_info rest,
    fst (@my_packages Plain.tables Demo.host Demo.down (u "-") Demo.idle)
    = Summary [([], result, status_info)] /\
    World.sent
      (snd (@my_packages Plain.tables Demo.host Demo.down (u "-") Demo.idle))
    = World.sent Demo.idle ++ ([], u "04") :: rest.
Proof.
  apply (@my_packages_blank_number Plain.tables Demo.host Demo.down
           (u "-") Demo.idle).
  - reflexivity.
  - vm_compute. intros [Hc|[]]. discriminate Hc.
  - vm_compute. discriminate.
  - vm_compute. reflexivity.
Defined.

(** ** One parcel *)

Section Package.
Context {U : Unicode} {H : Host} {S : Service}.



(** X18.  [track_package] answers with a notice and sends nothing when
    the number is empty once normalized, and when the carrier is not
    "auto", is no known name and is no code of one to three digits. *)
Theorem track_package_rejects tracking_number carrier w :
  normalize_tracking_number tracking_number = []
  \/ (Str.eqb (str_lower carrier) (u "auto") = false /\
      get_carrier_by_name carrier = None /\
      str_isdigit carrier && Nat.leb (Str.len carrier) 3 = false) ->
  exists text, track_package tracking_number carrier w = (Notice text, w).
Proof.
  intros [Hn | (Hauto & Hname & Hcode)]; unfold track_package.
  - rewrite Hn. eexists. reflexivity.
  - destruct (normalize_tracking_number tracking_number);
      [eexists; reflexivity|].
    rewrite Hauto, Hname, Hcode. eexists. reflexivity.
Qed.


End Package.

(** A success whose earlier event has a null kind: [track] accepts it,
    the last status being a string, and [_format_tracking_result]
    raises on it. *)
Example track_package_raises :
  fst (@track_package Plain.tables Demo.host
         (Demo.serving
            (PDict [(u "trackingDetails",
                     PList [PDict [(u "kind", PNone)];
                            PDict [(u "kind", PStr (u "배달완료"))]])]))
         (u "640123456789") (u "auto") Demo.idle)
  = Raised (AttributeError PNone (u "lower")).
Proof. vm_compute. reflexivity. Qed.


Lemma track_package_rejects_witness :
  exists text,
    @track_package Plain.tables Demo.host Demo.down
      (u "640123456789") (u "없는택배") Demo.idle
    = (Notice text, Demo.idle).
Proof.
  assert (H1 : Str.eqb (@str_lower Plain.tables (u "없는택배")) (u "auto")
               = false) by (vm_compute; reflexivity).
  assert (H2 : @get_carrier_by_name Plain.tables (u "없는택배") = None)
    by (vm_compute; reflexivity).
  assert (H3 : @str_isdigit Plain.tables (u "없는택배")
               && Nat.leb (Str.len (u "없는택배")) 3 = false)
    by (vm_compute; reflexivity).
  exact (@track_package_rejects Plain.tables Demo.host Demo.down
           (u "640123456789") (u "없는택배") Demo.idle
           (or_intror (conj H1 (conj H2 H3)))).
Defined.


(** ** The assessment of a standstill *)

Section StagnationCauses.
Context {H : Host} {S : Service}.

Lemma causes_for_sound location causes :
  causes_for location = Ok causes ->
  List.length causes = 3 /\ percent_total causes = 100%Z.
Proof.
  unfold causes_for, res_bind. intros Hc.
  destruct (py_in (u "허브") location) as [[|]|]; [| |discriminate].
  - injection Hc as <-. split; reflexivity.
  - destruct (py_in (u "터미널") location) as [[|]|]; [| |discriminate].
    + injection Hc as <-. split; reflexivity.
    + destruct (py_in (u "공항") location) as [[|]|]; [| |discriminate];
        injection Hc as <-; split; reflexivity.
Qed.

Lemma causes_for_str location :
  causes_for (PStr location)
  = Ok (if Str.contains (u "허브") location
           || Str.contains (u "터미널") location
        then [ (u "물량 폭주로 인한 분류 지연", 60%Z);
               (u "분류 과정에서 누락", 30%Z);
               (u "시스템 오류", 10%Z) ]
        else if Str.contains (u "공항") location
        then [ (u "통관 지연", 70%Z); (u "세관 검사", 20%Z);
               (u "서류 문제", 10%Z) ]
        else [ (u "물량 폭주로 인한 지연", 50%Z);
               (u "배송 경로 변경", 25%Z);
               (u "분류 누락 가능성", 25%Z) ]).
Proof.
  unfold causes_for, res_bind, py_in.
  destruct (Str.contains (u "허브") location); [reflexivity|].
  destruct (Str.contains (u "터미널") location); [reflexivity|].
  destruct (Str.contains (u "공항") location); reflexivity.
Qed.

(** X20.  Whatever the events, the times and the locations are, the
    assessment of [_analyze_stagnation] is consistent: stagnant with at
    least two days and three causes whose percentages add up to 100, or
    not stagnant with zero days and no cause; and no request is sent. *)
Theorem analyze_stagnation_sound events carrier_code w :
  stagnation_sound (fst (_analyze_stagnation events carrier_code w)) /\
  World.sent (snd (_analyze_stagnation events carrier_code w)) = World.sent w.
Proof.
  unfold _analyze_stagnation, stagnation_sound.
  destruct events as [|e es]; [cbn; auto|].
  destruct (TrackingEvent.time (last (e :: es) no_event));
    try (cbn; now auto).
  destruct (first_parse s time_formats) as [t|]; [|cbn; now auto].
  unfold bind, datetime_now, ret. cbn [fst snd World.sent World.ticks].
  destruct (2 <=? days_between _ t)%Z eqn:Hd; [|cbn; now auto].
  destruct (causes_for _) as [causes|] eqn:Hc; [|cbn; now auto].
  cbn. apply Z.leb_le in Hd. apply causes_for_sound in Hc. tauto.
Qed.

(** X21.  When the time of the last event parses and its location is a
    string, the parcel is stagnant exactly when two whole days or more
    have passed since that time; the days reported are those days (0
    when not stagnant), the location is that of the last event, and the
    first cause follows the location: "허브" or "터미널", else "공항",
    else the general one. *)
Theorem analyze_stagnation_by_days events carrier_code w stamp place t :
  events <> [] ->
  TrackingEvent.time (last events no_event) = PStr stamp ->
  TrackingEvent.location (last events no_event) = PStr place ->
  first_parse stamp time_formats = Some t ->
  let days := days_between (clock (World.ticks w)) t in
  let a := fst (_analyze_stagnation events carrier_code w) in
  Stagnation.is_stagnant a = (2 <=? days)%Z /\
  Stagnation.days_stagnant a = (if (2 <=? days)%Z then days else 0%Z) /\
  Stagnation.last_location a = PStr place /\
  (Stagnation.is_stagnant a = true ->
   hd_error (Stagnation.possible_causes a) = Some (causes_at place)).
Proof.
  intros Hne Ht Hl Hp. cbv zeta. unfold _analyze_stagnation.
  destruct events as [|e es]; [congruence|].
  rewrite Ht, Hp, Hl.
  unfold bind, datetime_now, ret. cbn [fst snd World.sent World.ticks].
  destruct (2 <=? days_between _ t)%Z eqn:Hd;
    [|cbn; repeat split; congruence].
  assert (Hloc : (if py_truthy (PStr place) then PStr place else PStr [])
                 = PStr place) by (destruct place; reflexivity).
  rewrite Hloc, causes_for_str.
  cbn [fst Stagnation.is_stagnant Stagnation.days_stagnant
       Stagnation.last_location Stagnation.possible_causes].
  repeat split. intros _. unfold causes_at.
  destruct (Str.contains (u "허브") place
            || Str.contains (u "터미널") place); [reflexivity|].
  destruct (Str.contains (u "공항") place); reflexivity.
Qed.

End StagnationCauses.

Lemma analyze_stagnation_by_days_witness :
  let events :=
    [TrackingEvent.make (PStr (u "2024-01-01 10:00")) (PStr (u "간선하차"))
                        (PStr (u "부산 허브")) PNone] in
  let a := fst (@_analyze_stagnation Sample.calendar Sample.late events
                  (u "04") Demo.idle) in
  Stagnation.is_stagnant a = true /\
  Stagnation.days_stagnant a = 3%Z /\
  hd_error (Stagnation.possible_causes a)
  = Some (u "물량 폭주로 인한 분류 지연", 60%Z).
Proof.
  intros events a.
  assert (Hne : events <> []) by discriminate.
  destruct (@analyze_stagnation_by_days Sample.calendar Sample.late events
              (u "04") Demo.idle (u "2024-01-01 10:00") (u "부산 허브") 0%Z
              Hne eq_refl eq_refl eq_refl) as (Hs & Hd & _ & Hc).
  assert (Hdays : (2 <=? days_between
                           (@clock Sample.late (World.ticks Demo.idle)) 0)%Z
                  = true) by (vm_compute; reflexivity).
  fold a in Hs, Hd, Hc. rewrite Hdays in Hs, Hd.
  split; [exact Hs|]. split.
  - rewrite Hd. vm_compute. reflexivity.
  - rewrite (Hc Hs). vm_compute. reflexivity.
Defined.

(** ** The recommended actions *)

Section Advice.
Context {U : Unicode}.

(** X22.  [_get_recommended_actions] always recommends something: one
    action of priority 1, or two of priorities 1 and 2. *)
Theorem recommended_actions_numbered result status_info stagnation :
  let actions := _get_recommended_actions result status_info stagnation in
  map Action.priority actions = [1%Z] \/
  map Action.priority actions = [1%Z; 2%Z].
Proof.
  cbv zeta. unfold _get_recommended_actions.
  destruct (Stagnation.is_stagnant stagnation);
    [destruct (5 <=? _)%Z; [|destruct (3 <=? _)%Z]|];
    (destruct (TranslatedStatus.phase status_info);
     try (cbn [map Action.priority]; auto; fail);
     destruct (Str.contains (u "반송") _);
     [cbn [map Action.priority]; auto|];
     destruct (Str.contains (u "주소") _);
     [cbn [map Action.priority]; auto|];
     destruct (Str.contains (u "부재") _);
     cbn [map Action.priority]; auto).
Qed.

(** X23.  For an issue whose status mentions "반송", "주소" or "부재"
    the advice is a single action that does not depend on the
    assessment of a standstill: what that assessment recommended is
    replaced, not extended. *)
Theorem recommended_actions_issue_first result status_info stagnation :
  TranslatedStatus.phase status_info = ISSUE ->
  let status_lower := str_lower (TranslatedStatus.original status_info) in
  Str.contains (u "반송") status_lower
  || Str.contains (u "주소") status_lower
  || Str.contains (u "부재") status_lower = true ->
  forall other,
    _get_recommended_actions result status_info stagnation
    = _get_recommended_actions result status_info other /\
    List.length (_get_recommended_actions result status_info stagnation) = 1.
Proof.
  intros Hp. cbv zeta. intros Hk other. unfold _get_recommended_actions.
  rewrite Hp.
  destruct (Str.contains (u "반송") _); [split; reflexivity|].
  destruct (Str.contains (u "주소") _); [split; reflexivity|].
  destruct (Str.contains (u "부재") _); [split; reflexivity|].
  discriminate.
Qed.

End Advice.

Lemma recommended_actions_issue_first_witness :
  let status_info := @translate_status Plain.tables (u "반송") in
  @_get_recommended_actions Plain.tables (not_found (u "640123456789"))
    status_info (Stagnation.make true 5 PNone [])
  = @_get_recommended_actions Plain.tables (not_found (u "640123456789"))
      status_info (Stagnation.make false 0 PNone []).
Proof.
  intros status_info.
  assert (Hp : TranslatedStatus.phase status_info = ISSUE)
    by (vm_compute; reflexivity).
  assert (Hk : Str.contains (u "반송")
                 (@str_lower Plain.tables
                    (TranslatedStatus.original status_info))
               || Str.contains (u "주소")
                    (@str_lower Plain.tables
                       (TranslatedStatus.original status_info))
               || Str.contains (u "부재")
                    (@str_lower Plain.tables
                       (TranslatedStatus.original status_info)) = true)
    by (vm_compute; reflexivity).
  exact (proj1 (@recommended_actions_issue_first Plain.tables
                  (not_found (u "640123456789")) status_info
                  (Stagnation.make true 5 PNone []) Hp Hk
                  (Stagnation.make false 0 PNone []))).
Defined.

(** ** What the patterns match *)

Section MatcherSound.
Context {U : Unicode}.

Section Run.
Variable A : Type.

(** A repetition that succeeds has read between [lo] and [n]
    characters of the set and handed on the rest. *)
Lemma rep_sound items n : forall lo prev s cap (k : Re.cont A) a,
  Re.rep items lo n prev s cap k = Some a ->
  exists g s' prev',
    s = g ++ s' /\ lo <= Str.len g /\ Str.len g <= n /\
    forallb (Re.set_matches items) g = true /\
    k (prev', s') cap = Some a.
Proof.
  assert (Hstop : forall lo prev s cap (k : Re.cont A) a m,
             (if Nat.eqb lo 0 then k (prev, s) cap else None) = Some a ->
             exists g s' prev',
               s = g ++ s' /\ lo <= Str.len g /\ Str.len g <= m /\
               forallb (Re.set_matches items) g = true /\
               k (prev', s') cap = Some a).
  { intros lo prev s cap k a m Hk.
    destruct (Nat.eqb lo 0) eqn:Hlo; [|discriminate].
    apply Nat.eqb_eq in Hlo. subst lo.
    exists [], s, prev. cbn. repeat split; try lia. exact Hk. }
  induction n as [|n IH]; intros lo prev s cap k a; cbn [Re.rep].
  - apply Hstop.
  - destruct s as [|c s]; [apply Hstop|].
    destruct (Re.set_matches items c) eqn:Hc; [|apply Hstop].
    destruct (Re.rep items (Nat.pred lo) n (Some c) s cap k) as [a'|] eqn:Hr;
      [|apply Hstop].
    intros [= <-].
    destruct (IH _ _ _ _ _ _ Hr) as (g & s' & prev' & -> & Hl & Hn & Hg & Hk).
    exists (c :: g), s', prev'. cbn [app Str.len List.length forallb].
    unfold Str.len in *. rewrite Hc, Hg.
    repeat split; try lia. exact Hk.
Qed.

(** A run that succeeds has read a text of the pattern's shape and
    handed on the rest, with the group the pattern leaves. *)
Lemma run_sound r : forall p cap (k : Re.cont A) a,
  Re.run r p cap k = Some a ->
  exists g s' prev' cap',
    snd p = g ++ s' /\ shape r g /\ captures r cap cap' /\
    k (prev', s') cap' = Some a.
Proof.
  induction r as [c|c|items|lo hi items|r IH|r1 IH1 r2 IH2|r IH| |];
    intros [prev s] cap k a; cbn [Re.run shape captures fst snd].
  - destruct s as [|x s]; [discriminate|].
    destruct (N.eqb x c) eqn:Hx; [|discriminate]. intros Hk.
    apply N.eqb_eq in Hx. subst x.
    exists [c], s, (Some c), cap. auto.
  - destruct s as [|x s]; [discriminate|].
    destruct (cp_ieq c x) eqn:Hx; [|discriminate]. intros Hk.
    exists [x], s, (Some x), cap. repeat split; eauto.
  - destruct s as [|x s]; [discriminate|].
    destruct (Re.set_matches items x) eqn:Hx; [|discriminate]. intros Hk.
    exists [x], s, (Some x), cap. repeat split; eauto.
  - intros Hr. apply rep_sound in Hr
      as (g & s' & prev' & -> & Hl & Hn & Hg & Hk).
    exists g, s', prev', cap. repeat split; try tauto; try lia.
    destruct hi; [exact Hn | exact I].
  - destruct (Re.run r (prev, s) cap k) as [a'|] eqn:Hr.
    + intros [= <-].
      destruct (IH _ _ _ _ Hr) as (g & s' & prev' & cap' & Hs & Hg & Hc & Hk).
      exists g, s', prev', cap'. auto.
    + intros Hk. exists [], s, prev, cap. auto.
  - intros Hr.
    destruct (IH1 _ _ _ _ Hr)
      as (g1 & s1 & prev1 & cap1 & Hs1 & Hg1 & Hc1 & Hk1).
    destruct (IH2 _ _ _ _ Hk1)
      as (g2 & s2 & prev2 & cap2 & Hs2 & Hg2 & Hc2 & Hk2).
    cbn [snd] in Hs1, Hs2.
    exists (g1 ++ g2), s2, prev2, cap2. subst s s1.
    rewrite <- app_assoc. repeat split; eauto.
  - intros Hr.
    destruct (IH _ _ _ _ Hr) as (g & s' & prev' & cap' & Hs & Hg & Hc & Hk).
    cbn [snd] in Hs, Hk. subst s.
    replace (Str.len (g ++ s') - Str.len s') with (List.length g) in Hk
      by (unfold Str.len; rewrite length_app; lia).
    rewrite firstn_app, firstn_all, Nat.sub_diag, app_nil_r in Hk.
    exists g, s', prev', (Some g). repeat split; eauto.
  - destruct (Re.at_boundary (prev, s)); [|discriminate]. intros Hk.
    exists [], s, prev, cap. auto.
  - intros Hk. exists [], s, prev, cap. auto.
Qed.

End Run.

Lemma match_at_sound r p p' g :
  Re.match_at r p = Some (p', g) ->
  exists cap', captures r None cap' /\
               g = match cap' with Some g' => g' | None => [] end.
Proof.
  unfold Re.match_at. intros Hr.
  apply run_sound in Hr as (g0 & s' & prev' & cap' & _ & _ & Hc & Hk).
  exists cap'. split; [exact Hc|]. congruence.
Qed.

Lemma findall_from_all (Q : pystr -> Prop) r :
  (forall p p' g, Re.match_at r p = Some (p', g) -> Q g) ->
  forall s prev skip, Forall Q (Re.findall_from r prev s skip).
Proof.
  intros HQ.
  assert (Hhere : forall prev s skip,
             Forall Q (match match skip with
                             | O => Re.match_at r (prev, s)
                             | S _ => None
                             end with
                       | Some (_, g) => [g]
                       | None => []
                       end)).
  { intros prev s skip. destruct skip; [|constructor].
    destruct (Re.match_at _ _) as [[p' g']|] eqn:Hm; [|constructor].
    constructor; [|constructor]. exact (HQ _ _ _ Hm). }
  induction s as [|c s IH]; intros prev skip; cbn [Re.findall_from].
  - rewrite app_nil_r. apply Hhere.
  - apply Forall_app. split; [apply Hhere | apply IH].
Qed.

Lemma captures_groupless r : forall cap cap',
  groupless r = true -> captures r cap cap' -> cap' = cap.
Proof.
  induction r; intros cap cap'; cbn; try (intros _ H; exact H);
    try discriminate.
  - intros Hg [Hc|Hc]; [now apply IHr | exact Hc].
  - intros Hg (mid & H1 & H2). apply andb_true_iff in Hg as [Hg1 Hg2].
    apply (IHr1 _ _ Hg1) in H1. apply (IHr2 _ _ Hg2) in H2. congruence.
Qed.

Lemma captures_cat_last prefix r : forall cap cap',
  forallb groupless prefix = true ->
  captures (Re.cat (prefix ++ [r])) cap cap' ->
  exists mid, captures r mid cap'.
Proof.
  induction prefix as [|x prefix IH]; intros cap cap' Hg Hc.
  - exists cap. exact Hc.
  - cbn [forallb] in Hg. apply andb_true_iff in Hg as [_ Hg].
    assert (Hcat : Re.cat ((x :: prefix) ++ [r])
                   = Re.Seq x (Re.cat (prefix ++ [r])))
      by (destruct prefix; reflexivity).
    rewrite Hcat in Hc. destruct Hc as (mid & _ & Hc).
    exact (IH _ _ Hg Hc).
Qed.

End MatcherSound.

(** ** The shape of the candidates *)

Section Candidates.
Context {U : Unicode}.

Lemma range_is_digit c :
  Re.set_matches [Re.CRange (ch "0") (ch "9")] c = is_ascii_digit c.
Proof. cbn. apply orb_false_r. Qed.

(** Pass 2: a run of 10 to 14 of the digits 0-9. *)
Lemma number_pattern_matches text :
  Forall (fun g => 10 <= Str.len g <= 14 /\ forallb is_ascii_digit g = true)
         (Re.findall number_pattern text).
Proof.
  apply findall_from_all. intros p p' g Hm.
  apply match_at_sound in Hm as (cap' & Hc & ->).
  cbn in Hc. destruct Hc as (mid & -> & mid' & (g & -> & Hl & Hh & Hg) & ->).
  split; [lia|].
  rewrite <- Hg. apply forallb_agree. intros x _.
  symmetry. apply range_is_digit.
Qed.

Lemma number_pass_ok text candidates :
  Forall candidate_ok candidates ->
  Forall candidate_ok (number_pass text candidates).
Proof.
  unfold number_pass.
  apply (fold_left_keeps
           (fun g => 10 <= Str.len g <= 14 /\ forallb is_ascii_digit g = true)
           (Forall candidate_ok)); [apply number_pattern_matches|].
  intros a m Ha [Hl Hd]. destruct (negb _); [|exact Ha].
  apply Forall_app. split; [exact Ha|]. constructor; [|constructor].
  split; [lia|]. unfold digit_like.
  rewrite forallb_forall in *. intros x Hx. now rewrite (Hd x Hx).
Qed.

(** Pass 1: the group [[0-9\-\s]{10,20}] of any of the four patterns. *)
Lemma explicit_group_matches pattern text :
  In pattern explicit_patterns ->
  Forall (fun g => forallb (Re.set_matches
                              [Re.CRange (ch "0") (ch "9");
                               Re.CChar (ch "-"); Re.CSpace]) g = true)
         (Re.findall pattern text).
Proof.
  intros Hin. apply findall_from_all. intros p p' g Hm.
  apply match_at_sound in Hm as (cap' & Hc & ->).
  assert (Hp : exists prefix, pattern = Re.cat (prefix ++ [number_group]) /\
                              forallb groupless prefix = true).
  { destruct Hin as [<-|[<-|[<-|[<-|[]]]]].
    - exists [Re.lit_i (u "운송장"); Re.star [Re.CSpace];
              Re.Opt (Re.lit_i (u "번호")); colon_or_space].
      split; reflexivity.
    - exists [Re.lit_i (u "송장"); Re.star [Re.CSpace];
              Re.Opt (Re.lit_i (u "번호")); colon_or_space].
      split; reflexivity.
    - exists [Re.lit_i (u "invoice"); colon_or_space]. split; reflexivity.
    - exists [Re.lit_i (u "tracking"); colon_or_space]. split; reflexivity. }
  destruct Hp as (prefix & -> & Hg).
  apply captures_cat_last in Hc as (mid & Hc); [|exact Hg].
  destruct Hc as (g & -> & _ & _ & Hs). exact Hs.
Qed.

Lemma normalized_digits g :
  forallb (Re.set_matches [Re.CRange (ch "0") (ch "9");
                           Re.CChar (ch "-"); Re.CSpace]) g = true ->
  forallb digit_like (normalize_tracking_number g) = true.
Proof.
  intros Hg. apply forallb_forall. intros x Hx.
  unfold normalize_tracking_number, Re.delete_all in Hx.
  apply filter_In in Hx as [Hx Hsep].
  rewrite forallb_forall in Hg. specialize (Hg x Hx).
  unfold digit_like. apply orb_true_iff. left.
  cbn in Hg, Hsep.
  change ((48 <=? x)%N && (x <=? 57)%N) with (is_ascii_digit x) in Hg.
  destruct (is_ascii_digit x); [reflexivity|].
  destruct (cp_isspace x); [discriminate|].
  destruct (N.eqb x 45); discriminate.
Qed.

Lemma explicit_pass_ok text candidates :
  Forall candidate_ok candidates ->
  Forall candidate_ok (explicit_pass text candidates).
Proof.
  unfold explicit_pass. intros Hc.
  apply (fold_left_keeps (fun pattern => In pattern explicit_patterns)
                         (Forall candidate_ok));
    [apply Forall_forall; trivial | | exact Hc].
  intros cands pattern Hcands Hin.
  apply (fold_left_keeps _ (Forall candidate_ok)
           _ _ (explicit_group_matches pattern text Hin));
    [|exact Hcands].
  intros a m Ha Hm. cbv zeta.
  destruct (len_10_to_15 _) eqn:Hlen; [|exact Ha].
  apply Forall_app. split; [exact Ha|]. constructor; [|constructor].
  unfold len_10_to_15 in Hlen.
  apply andb_true_iff in Hlen as [H1 H2].
  apply Nat.leb_le in H1, H2.
  split; [lia|]. now apply normalized_digits.
Qed.

(** Pass 3: three groups of [\d] around two separators. *)
Lemma dash_pattern_matches text :
  Forall (fun g => forallb (fun x => cp_isdecimal x
                                     || Re.set_matches
                                          [Re.CChar (ch "-"); Re.CSpace] x) g
                   = true)
         (Re.findall dash_pattern text).
Proof.
  apply findall_from_all. intros p p' g Hm.
  apply match_at_sound in Hm as (cap' & Hc & ->).
  cbn [dash_pattern Re.cat captures shape Re.between] in Hc.
  destruct Hc as (mid & -> & mid' & (g & -> & Hg) & ->).
  destruct Hg as (d1 & r1 & -> & (_ & _ & H1) & s1 & r2 & -> & (x1 & -> & Hx1)
                  & d2 & r3 & -> & (_ & _ & H2) & s2 & d3 & -> & (x2 & -> & Hx2)
                  & (_ & _ & H3)).
  assert (Hd : forall d, forallb (Re.set_matches [Re.CDigit]) d = true ->
                         forallb (fun x => cp_isdecimal x
                                           || Re.set_matches
                                                [Re.CChar (ch "-"); Re.CSpace] x)
                                 d = true).
  { intros d Hd. rewrite forallb_forall in *. intros x Hx.
    specialize (Hd x Hx). cbn in Hd. rewrite orb_false_r in Hd.
    now rewrite Hd. }
  rewrite !forallb_app. cbn [forallb].
  rewrite (Hd _ H1), (Hd _ H2), (Hd _ H3), Hx1, Hx2.
  now rewrite !orb_true_r.
Qed.

Lemma dash_pass_ok text candidates :
  Forall candidate_ok candidates ->
  Forall candidate_ok (dash_pass text candidates).
Proof.
  unfold dash_pass.
  apply (fold_left_keeps _ (Forall candidate_ok)
           _ _ (dash_pattern_matches text)).
  intros a m Ha Hm. cbv zeta.
  destruct (negb _); [|exact Ha]. cbn [andb].
  destruct (len_10_to_15 _) eqn:Hlen; [|exact Ha].
  apply Forall_app. split; [exact Ha|]. constructor; [|constructor].
  unfold len_10_to_15 in Hlen.
  apply andb_true_iff in Hlen as [H1 H2].
  apply Nat.leb_le in H1, H2.
  split; [lia|].
  apply forallb_forall. intros x Hx.
  unfold normalize_tracking_number, Re.delete_all in Hx.
  apply filter_In in Hx as [Hx Hsep].
  rewrite forallb_forall in Hm. specialize (Hm x Hx).
  unfold digit_like. cbn in Hm, Hsep.
  destruct (cp_isdecimal x); [apply orb_true_r|].
  destruct (cp_isspace x); [discriminate|].
  destruct (N.eqb x 45); discriminate.
Qed.

Lemma extract_tracking_numbers_ok text :
  Forall candidate_ok (extract_tracking_numbers text).
Proof.
  unfold extract_tracking_numbers.
  apply dash_pass_ok, number_pass_ok, explicit_pass_ok. constructor.
Qed.

(** X24.  Whatever the text, every candidate [extract_tracking_numbers]
    returns has between 10 and 15 characters. *)
Theorem extract_tracking_numbers_lengths text :
  Forall (fun candidate => 10 <= Str.len candidate <= 15)
         (extract_tracking_numbers text).
Proof.
  apply (Forall_impl _ (P := candidate_ok)); [|apply extract_tracking_numbers_ok].
  intros candidate [Hlen _]. exact Hlen.
Qed.

(** X29.  [normalize_tracking_number] is idempotent and never
    lengthens; what it returns holds no space, hyphen, underscore or
    dot. *)
Theorem normalize_tracking_number_idempotent raw :
  normalize_tracking_number (normalize_tracking_number raw)
  = normalize_tracking_number raw /\
  Str.len (normalize_tracking_number raw) <= Str.len raw /\
  forall c, In c (normalize_tracking_number raw) ->
            cp_isspace c = false /\ c <> ch "-" /\ c <> ch "_" /\ c <> ch ".".
Proof.
  unfold normalize_tracking_number, Re.delete_all.
  assert (Hkeep : forall c,
             In c (filter
                     (fun c => negb (Re.set_matches
                                       [Re.CSpace; Re.CChar (ch "-");
                                        Re.CChar (ch "_"); Re.CChar (ch ".")]
                                       c))
                     raw) ->
             cp_isspace c = false /\ c <> ch "-" /\ c <> ch "_" /\ c <> ch ".").
  { intros c Hc. apply filter_In in Hc as [_ Hc]. cbn in Hc.
    destruct (cp_isspace c); [discriminate|]. split; [reflexivity|].
    repeat split; intros ->; vm_compute in Hc; discriminate. }
  split; [|split; [apply filter_length_le | exact Hkeep]].
  apply forallb_filter_id. apply forallb_forall.
  intros c Hc. apply filter_In in Hc. tauto.
Qed.

End Candidates.

Section Digits.
Context {U : Unicode} {L : UnicodeLaws U}.

Lemma ascii_digit_plain c : is_ascii_digit c = true -> plain c = true.
Proof.
  unfold is_ascii_digit, plain, is_ascii. intros Hc.
  apply andb_true_iff in Hc as [_ Hc]. apply N.leb_le in Hc.
  apply orb_true_iff. left. apply N.ltb_lt. lia.
Qed.

Lemma ascii_digit_kept c :
  is_ascii_digit c = true ->
  Re.set_matches [Re.CSpace; Re.CChar (ch "-"); Re.CChar (ch "_");
                  Re.CChar (ch ".")] c = false.
Proof.
  intros Hc. cbn.
  rewrite (isspace_plain c (ascii_digit_plain c Hc)).
  unfold is_ascii_digit in Hc. apply andb_true_iff in Hc as [H1 H2].
  apply N.leb_le in H1, H2. unfold Plain.isspace.
  repeat match goal with
         | |- context [N.eqb c ?n] =>
             replace (N.eqb c n) with false by (symmetry; apply N.eqb_neq; lia)
         | |- context [N.leb ?n c] =>
             replace (N.leb n c) with true by (symmetry; apply N.leb_le; lia)
         | |- context [N.leb c ?n] =>
             replace (N.leb c n) with false by (symmetry; apply N.leb_gt; lia)
         end.
  reflexivity.
Qed.

Lemma normalize_digits s :
  ascii_digits s = true -> normalize_tracking_number s = s.
Proof.
  unfold ascii_digits, normalize_tracking_number, Re.delete_all.
  induction s as [|c s IH]; cbn [forallb filter]; [reflexivity|].
  intros Hs. apply andb_true_iff in Hs as [Hc Hs].
  rewrite (ascii_digit_kept c Hc). cbn [negb]. now rewrite (IH Hs).
Qed.

(** X25.  On a text of the Basic Latin and Hangul blocks every
    candidate is a string of the digits 0-9 that normalization leaves
    as it is.  [validate_tracking_number] accepts it exactly when it
    has at most 14 digits: a candidate of 15 digits, which the labelled
    patterns and the three-group pattern can produce, is one the
    validator rejects. *)
Theorem extract_tracking_numbers_digits text candidate :
  plain_text text = true ->
  In candidate (extract_tracking_numbers text) ->
  ascii_digits candidate = true /\
  normalize_tracking_number candidate = candidate /\
  validate_tracking_number candidate = Nat.leb (Str.len candidate) 14.
Proof.
  intros Ht Hin.
  destruct (proj1 (Forall_forall _ _) (extract_tracking_numbers_ok text)
                  _ Hin) as [Hlen Hd].
  pose proof (proj1 (Forall_forall _ _) (extract_tracking_numbers_kept text Ht)
                    _ Hin) as Hp.
  assert (Ha : ascii_digits candidate = true).
  { unfold ascii_digits. unfold plain_text in Hp.
    rewrite forallb_forall in *. intros x Hx.
    specialize (Hd x Hx). specialize (Hp x Hx). unfold digit_like in Hd.
    rewrite (isdecimal_plain x Hp) in Hd. unfold Plain.isdecimal in Hd.
    now destruct (is_ascii_digit x). }
  split; [exact Ha|]. split; [now apply normalize_digits|].
  unfold validate_tracking_number.
  destruct candidate as [|c s] eqn:Hc; [cbn in Hlen; lia|].
  rewrite (str_isdigit_ascii (c :: s) Ha) by discriminate.
  cbn [negb].
  replace (Nat.leb 10 (Str.len (c :: s))) with true
    by (symmetry; apply Nat.leb_le; lia).
  cbn [andb]. now destruct (Nat.leb _ 14).
Qed.

End Digits.

Lemma extract_tracking_numbers_digits_witness :
  let candidate := u "123456789012345" in
  ascii_digits candidate = true /\
  @normalize_tracking_number Plain.tables candidate = candidate /\
  @validate_tracking_number Plain.tables candidate = false.
Proof.
  assert (Ht : plain_text (u "운송장 123456789012345") = true)
    by (vm_compute; reflexivity).
  assert (Hin : In (u "123456789012345")
                   (@extract_tracking_numbers Plain.tables
                      (u "운송장 123456789012345")))
    by (vm_compute; left; reflexivity).
  exact (@extract_tracking_numbers_digits Plain.tables plain_tables_laws
           _ _ Ht Hin).
Defined.

(** ** The parsed results *)

Section Rounds.
Context {U : Unicode}.

Lemma confidence_of_range a b c :
  PrimFloat.leb 0.5 (confidence_of a b c) = true /\
  PrimFloat.ltb (confidence_of a b c) 1 = true.
Proof. destruct a, b, c; vm_compute; split; reflexivity. Qed.

Lemma parse_round_result text mentioned st tracking_num :
  let parsed := snd (parse_round text mentioned st tracking_num) in
  ParsedTracking.tracking_number parsed = tracking_num /\
  (exists a b c, ParsedTracking.confidence parsed = confidence_of a b c) /\
  fst (parse_round text mentioned st tracking_num)
  = (ParsedTracking.carrier_code parsed, ParsedTracking.carrier_name parsed) /\
  (truthy (fst st) = true ->
   fst (parse_round text mentioned st tracking_num) = st).
Proof.
  cbv zeta. unfold parse_round. destruct st as [code name].
  destruct (if negb (truthy code) then _ else _) as [code' name'] eqn:E.
  cbn [fst snd ParsedTracking.tracking_number ParsedTracking.confidence
       ParsedTracking.carrier_code ParsedTracking.carrier_name].
  repeat split.
  - eexists _, _, _. unfold confidence_of. reflexivity.
  - intros Ht. rewrite Ht in E. cbn [negb] in E. congruence.
Qed.

Lemma parse_rounds_sticky text mentioned candidates : forall code name,
  truthy (Some code) = true ->
  Forall (fun parsed =>
            ParsedTracking.carrier_code parsed = Some code /\
            ParsedTracking.carrier_name parsed = Some name)
         (parse_rounds text mentioned (Some code, Some name) candidates).
Proof.
  induction candidates as [|n rest IH]; intros code name Ht;
    cbn [parse_rounds]; [constructor|].
  pose proof (parse_round_result text mentioned (Some code, Some name) n)
    as Hr. cbv zeta in Hr.
  destruct (parse_round text mentioned (Some code, Some name) n)
    as [st' parsed].
  cbn [fst snd] in Hr. destruct Hr as (_ & _ & Hst & Hkeep).
  specialize (Hkeep Ht). subst st'. injection Hkeep as Hcode Hname.
  constructor; [now split|]. rewrite Hcode, Hname. now apply IH.
Qed.

Lemma get_carrier_by_name_code name carrier :
  get_carrier_by_name name = Some carrier -> Carrier.code carrier <> [].
Proof.
  unfold get_carrier_by_name.
  destruct (dict_get _ CARRIER_ALIASES) as [code|]; [|discriminate].
  destruct code as [|c code]; [discriminate|].
  intros Hd. apply get_carrier_by_code_key in Hd. now rewrite Hd.
Qed.

Lemma first_known_mention_nonempty text patterns alias :
  first_known_mention text patterns = Some alias -> alias <> [].
Proof.
  induction patterns as [|p rest IH]; cbn [first_known_mention];
    [discriminate|].
  destruct (Re.search p text) as [g|]; [|exact IH].
  destruct (dict_has _ CARRIER_ALIASES) eqn:Hh; [|exact IH].
  intros [= <-] He. rewrite He in Hh. vm_compute in Hh. discriminate.
Qed.

Lemma extract_carrier_name_nonempty text alias :
  extract_carrier_name text = Some alias -> alias <> [].
Proof.
  unfold extract_carrier_name.
  destruct (find _ _) as [a|] eqn:Hf.
  - intros [= <-]. apply find_some in Hf as [Hin _].
    vm_compute in Hin.
    repeat (destruct Hin as [<-|Hin]; [discriminate|]). destruct Hin.
  - apply first_known_mention_nonempty.
Qed.

(** X26.  [parse_tracking_input] returns one result per candidate of
    [extract_tracking_numbers], in the same order and with the same
    numbers. *)
Theorem parse_tracking_input_numbers text :
  map ParsedTracking.tracking_number (parse_tracking_input text)
  = extract_tracking_numbers text.
Proof.
  unfold parse_tracking_input.
  match goal with
  | |- context [parse_rounds _ ?mentioned ?st _] =>
      generalize st; generalize mentioned
  end.
  induction (extract_tracking_numbers text) as [|n rest IH];
    intros mentioned st; cbn [parse_rounds]; [reflexivity|].
  pose proof (parse_round_result text mentioned st n) as Hr. cbv zeta in Hr.
  destruct (parse_round text mentioned st n) as [st' parsed].
  cbn [map]. cbn [snd] in Hr. now rewrite (proj1 Hr), IH.
Qed.

(** X27.  The confidence of every result is at least 0.5 and stays
    below 1.0: the largest sum, 0.5 + 0.2 + 0.2 + 0.1, is
    0.9999999999999999 in floating point, so that the cap
    [min(confidence, 1.0)] never takes effect. *)
Theorem parse_tracking_input_confidence text :
  Forall confidence_in_range (parse_tracking_input text).
Proof.
  unfold parse_tracking_input.
  match goal with
  | |- context [parse_rounds _ ?mentioned ?st _] =>
      generalize st; generalize mentioned
  end.
  induction (extract_tracking_numbers text) as [|n rest IH];
    intros mentioned st; cbn [parse_rounds]; [constructor|].
  pose proof (parse_round_result text mentioned st n) as Hr. cbv zeta in Hr.
  destruct (parse_round text mentioned st n) as [st' parsed].
  cbn [snd] in Hr. destruct Hr as (_ & (a & b & c & Hc) & _).
  constructor; [|apply IH]. unfold confidence_in_range. rewrite Hc.
  apply confidence_of_range.
Qed.

(** X28.  When the text mentions a carrier that is known by name, every
    result carries that carrier's code and name, whatever the numbers
    look like: detection from the number is not consulted. *)
Theorem parse_tracking_input_mentioned text alias carrier :
  extract_carrier_name text = Some alias ->
  get_carrier_by_name alias = Some carrier ->
  Forall (fun parsed =>
            ParsedTracking.carrier_code parsed = Some (Carrier.code carrier) /\
            ParsedTracking.carrier_name parsed = Some (Carrier.name carrier))
         (parse_tracking_input text).
Proof.
  intros He Hg. unfold parse_tracking_input. rewrite He.
  assert (Ht : truthy (Some alias) = true).
  { apply extract_carrier_name_nonempty in He. now destruct alias. }
  rewrite Ht. cbn [the_str]. rewrite Hg.
  assert (Hc : truthy (Some (Carrier.code carrier)) = true).
  { apply get_carrier_by_name_code in Hg.
    now destruct (Carrier.code carrier). }
  exact (parse_rounds_sticky text (Some alias) _ _ _ Hc).
Qed.

End Rounds.

Lemma parse_tracking_input_mentioned_witness :
  Forall (fun parsed =>
            ParsedTracking.carrier_code parsed
            = Some (Carrier.code Sample.lotte) /\
            ParsedTracking.carrier_name parsed
            = Some (Carrier.name Sample.lotte))
         (@parse_tracking_input Plain.tables
            (u "롯데택배 640123456789 1234567890123")).
Proof.
  assert (He : @extract_carrier_name Plain.tables
                 (u "롯데택배 640123456789 1234567890123")
               = Some (u "롯데택배")) by (vm_compute; reflexivity).
  assert (Hg : @get_carrier_by_name Plain.tables (u "롯데택배")
               = Some Sample.lotte) by (vm_compute; reflexivity).
  exact (@parse_tracking_input_mentioned Plain.tables
           (u "롯데택배 640123456789 1234567890123") (u "롯데택배")
           Sample.lotte He Hg).
Defined.
